(** * CML Lab Builder (cml_mcp.py): session, interface and link resolution

    A shallow embedding of the session/authentication lifecycle
    ([CMLAuth]), of the response-shape handling of the interface tools, of
    the link tools and of the lab readiness poller of [cml_mcp.py], then
    of the client initialisation, the node creation tools, the lab
    builders and the spanning-tree configuration generator, with the
    properties of these components proved over the embedding.

    Conventions of the embedding.
    - Python values that travel through the tools (decoded JSON, tool
      results) are values of [pyval]; a [dict] is an association list in
      insertion order.
    - A Python [str] is a [string]; one [ascii] stands for one character.
    - The awaited calls run one after the other, so a coroutine is a
      function from the [World] before it to its outcome and the [World]
      after it.  The world holds the process-wide [cml_auth] object, the
      chronological [trace] of the calls made on the httpx client and of
      the sleeps, and the event-loop [clock].
    - The remote platform and the httpx transport are an oracle
      [transport]: from the trace so far and the call being made it gives
      the time the call takes and either a response or a transport error.
    - What httpx raises without sending anything is modelled where the
      file depends on it: the constructor of the client ([AsyncClient]) on
      a base URL it cannot parse, the update of the Authorization header
      of the client on a value outside ASCII.
    - Text written to stderr is not part of the model. *)

From Stdlib Require Import List String Ascii ZArith NArith QArith Bool Arith Lia.
From Stdlib Require Import DecimalString.
Import ListNotations.

Set Warnings "-register-all".

Local Open Scope string_scope.
Local Open Scope Z_scope.

(* ===================================================================== *)
(** ** Python values *)
(* ===================================================================== *)

Inductive pyval : Type :=
| PyNone
| PyBool (b : bool)
| PyInt (z : Z)
| PyFloat (q : Q)
| PyStr (s : string)
| PyList (l : list pyval)
| PyDict (d : list (pyval * pyval)).

(** [bool(v)]: the truth value Python gives [v] in [if v] and [not v]. *)
Definition truthy (v : pyval) : bool :=
  match v with
  | PyNone => false
  | PyBool b => b
  | PyInt z => negb (z =? 0)
  | PyFloat q => negb (Qeq_bool q 0)
  | PyStr s => negb (s =? "")%string
  | PyList l => match l with [] => false | _ => true end
  | PyDict d => match d with [] => false | _ => true end
  end.

(** Numeric value of the numbers and booleans ([True == 1], [False == 0]). *)
Definition num_of (v : pyval) : option Q :=
  match v with
  | PyBool b => Some (if b then 1%Q else 0%Q)
  | PyInt z => Some (inject_Z z)
  | PyFloat q => Some q
  | _ => None
  end.

(** [a == b] when one side is [None], a bool, a number or a str: every
    comparison of the modelled code has a str or bool literal on one side,
    or compares two dict keys. *)
Definition py_eqb (a b : pyval) : bool :=
  match num_of a, num_of b with
  | Some x, Some y => Qeq_bool x y
  | None, None =>
      match a, b with
      | PyNone, PyNone => true
      | PyStr s, PyStr t => (s =? t)%string
      | _, _ => false
      end
  | _, _ => false
  end.

Definition hashable (v : pyval) : bool :=
  match v with
  | PyList _ | PyDict _ => false
  | _ => true
  end.

(** [d.get(k)] for a str key [k]. *)
Fixpoint dict_get (d : list (pyval * pyval)) (k : string) : option pyval :=
  match d with
  | [] => None
  | (k', v) :: d' => if py_eqb k' (PyStr k) then Some v else dict_get d' k
  end.

(** [d.get(k, default)]. *)
Definition dict_get_default (d : list (pyval * pyval)) (k : string)
    (default : pyval) : pyval :=
  match dict_get d k with
  | Some v => v
  | None => default
  end.

(** [d[k] = v] on a dict in insertion order: an existing key keeps its
    place, a new key goes last. *)
Fixpoint dict_set (d : list (pyval * pyval)) (k v : pyval)
    : list (pyval * pyval) :=
  match d with
  | [] => [(k, v)]
  | (k', v') :: d' =>
      if py_eqb k' k then (k', v) :: d' else (k', v') :: dict_set d' k v
  end.

(** [list(d.keys())]. *)
Definition dict_keys (d : list (pyval * pyval)) : list pyval := map fst d.

(* ===================================================================== *)
(** ** Python strings *)
(* ===================================================================== *)

(** [needle in hay] for two strs. *)
Fixpoint contains (needle hay : string) : bool :=
  prefix needle hay ||
  match hay with
  | EmptyString => false
  | String _ hay' => contains needle hay'
  end.

(** [range(start, stop, step)] for naturals and a positive step. *)
Definition py_range (start stop step : nat) : list nat :=
  map (fun j => (start + j * step)%nat)
      (seq 0 ((stop - start + (step - 1)) / step)).

(** [s[i:j]] for [0 <= i <= j]. *)
Definition py_slice (s : string) (i j : nat) : string :=
  substring i (j - i) s.

(** [[s[i:i+36] for i in range(0, len(s), 36)]]. *)
Definition uuid_chunks (s : string) : list string :=
  map (fun i => py_slice s i (i + 36)) (py_range 0 (String.length s) 36).

(** Characters [str.split()] and [str.isspace()] treat as white space. *)
Definition py_isspace (c : ascii) : bool :=
  let n := nat_of_ascii c in
  ((9 <=? n) && (n <=? 13) || (28 <=? n) && (n <=? 32)
   || (n =? 133) || (n =? 160))%nat.

(** [s.split()]: the maximal runs of non-space characters; [cur] is the
    run being read, in reverse. *)
Fixpoint split_ws (cur : list ascii) (s : string) : list string :=
  let flush (rest : list string) :=
    match cur with
    | [] => rest
    | _ => string_of_list_ascii (rev cur) :: rest
    end in
  match s with
  | EmptyString => flush []
  | String c s' =>
      if py_isspace c then flush (split_ws [] s') else split_ws (c :: cur) s'
  end.

Definition py_split (s : string) : list string := split_ws [] s.

(** [s.strip(chars)] for a one-character [chars]. *)
Fixpoint lstrip_char (c : ascii) (s : string) : string :=
  match s with
  | String c' s' => if Ascii.eqb c' c then lstrip_char c s' else s
  | EmptyString => EmptyString
  end.

Definition string_rev (s : string) : string :=
  string_of_list_ascii (rev (list_ascii_of_string s)).

Definition strip_char (c : ascii) (s : string) : string :=
  string_rev (lstrip_char c (string_rev (lstrip_char c s))).

(** The double quote character. *)
Definition dquote : ascii := ascii_of_nat 34.

(** The line feed of the f-strings. *)
Definition nl : string := String (ascii_of_nat 10) EmptyString.

(** The name [type(v)] prints. *)
Definition type_name (v : pyval) : string :=
  match v with
  | PyNone => "<class 'NoneType'>"
  | PyBool _ => "<class 'bool'>"
  | PyInt _ => "<class 'int'>"
  | PyFloat _ => "<class 'float'>"
  | PyStr _ => "<class 'str'>"
  | PyList _ => "<class 'list'>"
  | PyDict _ => "<class 'dict'>"
  end.

(* ===================================================================== *)
(** ** The httpx client, exceptions and the world *)
(* ===================================================================== *)

(** An [httpx.Response]: [resp_json] is [None] when [response.json()]
    raises. *)
Record Response : Type := mkResponse {
  status_code : Z;
  text : string;
  resp_json : option pyval
}.

(** Keyword arguments of [client.request]: [json=], [content=] and
    [headers=]; an absent keyword is [None]. *)
Record Kwargs : Type := mkKwargs {
  kw_json : option pyval;
  kw_content : option string;
  kw_headers : option (list (string * string))
}.

Definition no_kwargs : Kwargs := mkKwargs None None None.

(** What the program does to the outside, in the order it does it. *)
Inductive Event : Type :=
| ClientPost (url : string) (json : pyval)
    (* self.client.post(url, json=json) *)
| ClientGet (url : string)
    (* self.client.get(url) *)
| ClientRequest (method endpoint : string) (kwargs : Kwargs)
    (* self.client.request(method, endpoint, **kwargs) *)
| Sleep (seconds : Z).
    (* asyncio.sleep(seconds) *)

Inductive Outcome : Type :=
| Responded (r : Response)
| Failed (msg : string).

Inductive exn : Type :=
| TransportError (msg : string)       (* raised by the httpx client *)
| HTTPStatusError (r : Response)      (* response.raise_for_status() *)
| JSONDecodeError (r : Response)      (* response.json() *)
| AttributeError (obj : pyval) (attr : string)
| TypeError (msg : string) (obj : pyval)
| UnicodeEncodeError (s : string)     (* s.encode("ascii") *)
| InvalidURL (msg : string).          (* httpx.InvalidURL *)

(** The [CMLAuth] object; [client_authorization] is the Authorization
    entry of [self.client.headers]. *)
Record CMLAuth : Type := mkCMLAuth {
  base_url : string;
  username : string;
  password : string;
  token : option string;
  verify_ssl : bool;
  client_authorization : option string
}.

Record World : Type := mkWorld {
  cml_auth : option CMLAuth;
  trace : list Event;
  clock : Z
}.

Inductive result (A : Type) : Type :=
| Ok (a : A)
| Raise (e : exn)
| OutOfFuel.

Arguments Ok {A} a.
Arguments Raise {A} e.
Arguments OutOfFuel {A}.

(** A coroutine returning an [A]. *)
Definition M (A : Type) : Type := World -> result A * World.

Definition ret {A} (a : A) : M A := fun w => (Ok a, w).

Definition bind {A B} (m : M A) (k : A -> M B) : M B :=
  fun w =>
    match m w with
    | (Ok a, w') => k a w'
    | (Raise e, w') => (Raise e, w')
    | (OutOfFuel, w') => (OutOfFuel, w')
    end.

Definition raise {A} (e : exn) : M A := fun w => (Raise e, w).

(** [try: body except Exception as e: handler e]. *)
Definition try_except {A} (body : M A) (handler : exn -> M A) : M A :=
  fun w =>
    match body w with
    | (Raise e, w') => handler e w'
    | other => other
    end.

Declare Scope py_scope.
Delimit Scope py_scope with py.
Notation "x <- m ;; k" := (bind m (fun x => k))
  (at level 61, m at next level, right associativity) : py_scope.
Notation "m ;; k" := (bind m (fun _ => k))
  (at level 61, right associativity) : py_scope.
Local Open Scope py_scope.

(** [response.json()]. *)
Definition json (r : Response) : M pyval :=
  match resp_json r with
  | Some v => ret v
  | None => raise (JSONDecodeError r)
  end.

(** [response.is_success]. *)
Definition is_success (r : Response) : bool :=
  (200 <=? status_code r) && (status_code r <=? 299).

(** [response.raise_for_status()]. *)
Definition raise_for_status (r : Response) : M unit :=
  if is_success r then ret tt else raise (HTTPStatusError r).

(** [v.get(k)] on an arbitrary value: only a dict has the method. *)
Definition py_get (v : pyval) (k : string) : M pyval :=
  match v with
  | PyDict d => ret (dict_get_default d k PyNone)
  | _ => raise (AttributeError v "get")
  end.

Definition py_get_default (v : pyval) (k : string) (default : pyval)
    : M pyval :=
  match v with
  | PyDict d => ret (dict_get_default d k default)
  | _ => raise (AttributeError v "get")
  end.

(* ===================================================================== *)
(** ** Observations on traces and concrete platforms *)
(* ===================================================================== *)

Definition count {A} (p : A -> bool) (l : list A) : nat :=
  List.length (filter p l).

(** A call of [request] for [method] and [endpoint], whatever its
    keywords. *)
Definition is_call (method endpoint : string) (ev : Event) : bool :=
  match ev with
  | ClientRequest m e _ => ((m =? method) && (e =? endpoint))%string
  | _ => false
  end.

(** The credential exchange of [authenticate]. *)
Definition is_authenticate_post (ev : Event) : bool :=
  match ev with
  | ClientPost _ _ => true
  | _ => false
  end.

(** A POST made through [request]: the tools only POST to create
    something, [authenticate] posts through [client.post]. *)
Definition is_post_request (ev : Event) : bool :=
  match ev with
  | ClientRequest m _ _ => (m =? "POST")%string
  | _ => false
  end.

Definition is_sleep (ev : Event) : bool :=
  match ev with
  | Sleep _ => true
  | _ => false
  end.

(** A per-node state request of the poller for [lab_id]. *)
Definition is_node_poll (lab_id : string) (ev : Event) : bool :=
  match ev with
  | ClientRequest _ e _ => prefix ("/api/v0/labs/" ++ lab_id ++ "/nodes/") e
  | _ => false
  end.

(** The Authorization header a call carries. *)
Fixpoint headers_get (h : list (string * string)) (k : string)
    : option string :=
  match h with
  | [] => None
  | (k', v) :: h' => if (k' =? k)%string then Some v else headers_get h' k
  end.

Definition authorization_of (kwargs : Kwargs) : option string :=
  match kw_headers kwargs with
  | Some h => headers_get h "Authorization"
  | None => None
  end.

(** [s1 + s2 + ...]. *)
Definition join (l : list string) : string := fold_right append "" l.

(** The events of a call of [authenticate] that got its token. *)
Definition authenticate_post (self : CMLAuth) : Event :=
  ClientPost "/api/v0/authenticate"
    (PyDict [(PyStr "username", PyStr (username self));
             (PyStr "password", PyStr (password self))]).

(** What [request] makes of the answer to its last call. *)
Definition surfaced (out : Outcome) : result Response :=
  match out with
  | Responded r => if is_success r then Ok r else Raise (HTTPStatusError r)
  | Failed msg => Raise (TransportError msg)
  end.

(** Concrete sessions and platforms, for the runs below. *)
Module Scenario.

Definition session (tok : option string) : CMLAuth :=
  mkCMLAuth "https://cml.example" "admin" "secret" tok true
            (option_map (fun t => "Bearer " ++ t) tok).

Definition world (tok : option string) : World :=
  mkWorld (Some (session tok)) [] 0.

Definition no_session : World := mkWorld None [] 0.

Definition quoted (s : string) : string :=
  String dquote (s ++ String dquote EmptyString).

Definition answer (code : Z) (body : option pyval) : N * Outcome :=
  (0%N, Responded (mkResponse code "" body)).

(** A table of routes: what the platform answers to [request] for a
    method and an endpoint; 404 for the rest. *)
Fixpoint route (routes : list (string * string * (N * Outcome)))
    (method endpoint : string) : N * Outcome :=
  match routes with
  | [] => answer 404 None
  | (m, e, reply) :: rest =>
      if ((m =? method) && (e =? endpoint))%string then reply
      else route rest method endpoint
  end.

(** A platform that accepts the credentials, issues the token [fresh] and
    serves [routes] to the calls that carry it; a call with another token
    is answered 401. *)
Definition platform (routes : list (string * string * (N * Outcome)))
    : list Event -> Event -> N * Outcome :=
  fun _ ev =>
    match ev with
    | ClientPost _ _ => (0%N, Responded (mkResponse 200 (quoted "fresh") None))
    | ClientGet _ => answer 200 None
    | ClientRequest m e kw =>
        match authorization_of kw with
        | Some "Bearer fresh" => route routes m e
        | _ => answer 401 None
        end
    | Sleep _ => answer 200 None
    end.

(** A platform that rejects the credentials and every token. *)
Definition rejecting : list Event -> Event -> N * Outcome :=
  fun _ ev =>
    match ev with
    | ClientPost _ _ => answer 403 None
    | _ => answer 401 None
    end.

(** A platform that issues tokens it then does not accept. *)
Definition revoking : list Event -> Event -> N * Outcome :=
  fun _ ev =>
    match ev with
    | ClientPost _ _ => (0%N, Responded (mkResponse 200 (quoted "fresh") None))
    | ClientGet _ => answer 200 None
    | _ => answer 401 None
    end.

Definition str_exn (e : exn) : string :=
  match e with
  | TransportError msg => msg
  | HTTPStatusError _ => "HTTP status error"
  | JSONDecodeError _ => "Expecting value"
  | AttributeError _ attr => "object has no attribute '" ++ attr ++ "'"
  | TypeError msg _ => msg
  | UnicodeEncodeError _ => "'ascii' codec can't encode characters"
  | InvalidURL msg => msg
  end.

Definition str_value (v : pyval) : string :=
  match v with
  | PyNone => "None"
  | PyBool true => "True"
  | PyBool false => "False"
  | PyInt z => NilZero.string_of_int (Z.to_int z)
  | PyStr s => s
  | _ => "?"
  end.

Definition uuid_a : string := "0a1b2c3d-0000-4000-8000-00000000000a".
Definition uuid_b : string := "0a1b2c3d-0000-4000-8000-00000000000b".

(** A string of 37 characters. *)
Definition text_37 : string := uuid_a ++ "x".

Definition interface_detail (kind : string) (connected : bool) : pyval :=
  PyDict [(PyStr "type", PyStr kind); (PyStr "is_connected", PyBool connected)].

Definition json_answer (body : pyval) : N * Outcome := answer 200 (Some body).

(** The lab list. *)
Definition labs_routes : list (string * string * (N * Outcome)) :=
  [("GET", "/api/v0/labs", json_answer (PyDict []))].

(** The interface list of node [n1] of lab [lab1], answered as [body]. *)
Definition interfaces_routes (body : pyval)
    : list (string * string * (N * Outcome)) :=
  [("GET", "/api/v0/labs/lab1/nodes/n1/interfaces", json_answer body)].

(** Three interfaces: [if-A] physical and connected, [if-B] physical and
    free, [if-C] unknown to the platform. *)
Definition if_A : pyval := PyStr "if-A".
Definition if_B : pyval := PyStr "if-B".
Definition if_C : pyval := PyStr "if-C".

Definition search_routes : list (string * string * (N * Outcome)) :=
  [("GET", "/api/v0/labs/lab1/interfaces/if-A?operational=true",
    json_answer (interface_detail "physical" true));
   ("GET", "/api/v0/labs/lab1/interfaces/if-B?operational=true",
    json_answer (interface_detail "physical" false))].

(** Node [n1] has the connected interface [if-A] only; node [n2] has the
    free interface [if-B]; links can be created. *)
Definition nodes_routes : list (string * string * (N * Outcome)) :=
  [("GET", "/api/v0/labs/lab1/nodes/n1/interfaces?operational=true",
    json_answer (PyList [if_A]));
   ("GET", "/api/v0/labs/lab1/nodes/n2/interfaces?operational=true",
    json_answer (PyList [if_B]));
   ("POST", "/api/v0/labs/lab1/links",
    json_answer (PyDict [(PyStr "id", PyStr "link-1")]))]
  ++ search_routes.

(** A platform that creates a link for the payload [{src_int, dst_int}]
    and answers 400 to any other. *)
Definition src_dst_only : list Event -> Event -> N * Outcome :=
  fun _ ev =>
    match ev with
    | ClientRequest "POST" _ kw =>
        match kw_json kw with
        | Some (PyDict ((PyStr "src_int", _) :: _)) =>
            json_answer (PyDict [(PyStr "id", PyStr "link-1")])
        | _ => answer 400 None
        end
    | _ => answer 200 None
    end.

(** A stopped lab. *)
Definition stopped_routes : list (string * string * (N * Outcome)) :=
  [("GET", "/api/v0/labs/lab1",
    json_answer (PyDict [(PyStr "state", PyStr "STOPPED")]))].

(** A started lab with one node. *)
Definition started_routes : list (string * string * (N * Outcome)) :=
  [("GET", "/api/v0/labs/lab1",
    json_answer (PyDict [(PyStr "state", PyStr "STARTED")]));
   ("GET", "/api/v0/labs/lab1/nodes",
    json_answer (PyDict [(PyStr "n1", PyDict [])]))].

(** ... whose node keeps booting; its state takes one unit to fetch. *)
Definition booting_routes : list (string * string * (N * Outcome)) :=
  started_routes ++
  [("GET", "/api/v0/labs/lab1/nodes/n1",
    (1%N, Responded (mkResponse 200 ""
                       (Some (PyDict [(PyStr "state", PyStr "BOOTED")])))))].

Definition fresh : World := world (Some "fresh").
Definition stale : World := world (Some "stale").

(** The [error] text of a tool result. *)
Definition error_text (v : pyval) : string :=
  match v with
  | PyDict d =>
      match dict_get d "error" with
      | Some (PyStr msg) => msg
      | _ => ""
      end
  | _ => ""
  end.

(** A running lab that can be stopped and deleted. *)
Definition running_routes : list (string * string * (N * Outcome)) :=
  [("GET", "/api/v0/labs/lab1",
    json_answer (PyDict [(PyStr "state", PyStr "STARTED")]));
   ("PUT", "/api/v0/labs/lab1/stop", answer 200 None);
   ("DELETE", "/api/v0/labs/lab1", answer 204 None)].

(** The node list of [lab1] as a list: two nodes and an object without
    [id]. *)
Definition node_R1 : pyval :=
  PyDict [(PyStr "id", PyStr "n1"); (PyStr "label", PyStr "R1")].
Definition node_R2 : pyval :=
  PyDict [(PyStr "id", PyStr "n2"); (PyStr "label", PyStr "R2")].
Definition node_unnamed : pyval := PyDict [(PyStr "label", PyStr "R3")].

Definition node_list_routes : list (string * string * (N * Outcome)) :=
  [("GET", "/api/v0/labs/lab1/nodes",
    json_answer (PyList [node_R1; node_unnamed; node_R2]))].

(** A started lab without nodes. *)
Definition empty_lab_routes : list (string * string * (N * Outcome)) :=
  [("GET", "/api/v0/labs/lab1",
    json_answer (PyDict [(PyStr "state", PyStr "STARTED")]));
   ("GET", "/api/v0/labs/lab1/nodes", json_answer (PyDict []))].

(** One node definition, with a field the summary drops. *)
Definition iosv_definition : pyval :=
  PyDict [(PyStr "description", PyStr "IOSv router");
          (PyStr "ram", PyInt 512)].

Definition definitions_routes : list (string * string * (N * Outcome)) :=
  [("GET", "/api/v0/node_definitions",
    json_answer (PyDict [(PyStr "iosv", iosv_definition)]))].

(** The lab [lab1] cannot be read; an interface created on it is answered
    as a list of one object without [id]. *)
Definition interface_routes : list (string * string * (N * Outcome)) :=
  [("POST", "/api/v0/labs/lab1/interfaces",
    json_answer (PyList [PyDict [(PyStr "label", PyStr "eth4")]]))].

(** Labs can be created, nodes cannot. *)
Definition lab_only_routes : list (string * string * (N * Outcome)) :=
  [("POST", "/api/v0/labs",
    json_answer (PyDict [(PyStr "id", PyStr "lab1")]))].

(** [KeyError(k)] and [IndexError(msg)] with the texts Python gives
    them. *)
Definition KeyError (k : string) : exn :=
  TypeError ("'" ++ k ++ "'") PyNone.
Definition IndexError (msg : string) : exn := TypeError msg PyNone.

(** The nodes created so far, by the trace. *)
Definition nodes_created (tr : list Event) : nat :=
  count (fun ev =>
           match ev with
           | ClientRequest "POST" e _ => contains "/nodes?" e
           | _ => false
           end) tr.

(** A platform for the builders: it creates the lab [lab1], then the
    nodes [n1], [n2], ... in the order they are asked for, gives every
    node one free physical interface, and creates links; it refuses
    every configuration. *)
Definition builder : list Event -> Event -> N * Outcome :=
  fun tr ev =>
    match ev with
    | ClientPost _ _ => (0%N, Responded (mkResponse 200 (quoted "fresh") None))
    | ClientRequest "POST" "/api/v0/labs" _ =>
        json_answer (PyDict [(PyStr "id", PyStr "lab1")])
    | ClientRequest "POST" e _ =>
        if contains "/nodes?" e then
          json_answer
            (PyDict [(PyStr "id",
                      PyStr ("n" ++ NilZero.string_of_uint
                                      (Nat.to_uint (S (nodes_created tr)))))])
        else if contains "/links" e then
          json_answer (PyDict [(PyStr "id", PyStr "link-1")])
        else answer 404 None
    | ClientRequest "GET" e _ =>
        if contains "/nodes/" e then json_answer (PyList [PyStr "eth0"])
        else if contains "/interfaces/" e
        then json_answer (interface_detail "physical" false)
        else answer 404 None
    | ClientRequest _ _ _ => answer 400 None
    | _ => answer 200 None
    end.

(** A token with a character of code 233, and a platform that issues
    it. *)
Definition accented_token : string :=
  "t" ++ String (ascii_of_nat 233) "k".

Definition accenting : list Event -> Event -> N * Outcome :=
  fun _ ev =>
    match ev with
    | ClientPost _ _ =>
        (0%N, Responded (mkResponse 200 (quoted accented_token) None))
    | _ => answer 200 None
    end.

(** [httpx.AsyncClient] for every base URL but [https://host:abc], whose
    port is not a number. *)
Definition AsyncClient (base_url : string) (verify : bool) : option exn :=
  if (base_url =? "https://host:abc")%string
  then Some (InvalidURL "Invalid port: 'abc'")
  else None.

(** The interface [if-X] is described with a slot and no type, and is
    free; node [n1] has the interfaces [if-X] and [if-B]. *)
Definition if_X : pyval := PyStr "if-X".

Definition slot_only : pyval :=
  PyDict [(PyStr "slot", PyInt 0); (PyStr "is_connected", PyBool false)].

Definition slot_routes : list (string * string * (N * Outcome)) :=
  ("GET", "/api/v0/labs/lab1/nodes/n1/interfaces",
   json_answer (PyList [if_X; if_B]))
  :: ("GET", "/api/v0/labs/lab1/interfaces/if-X", json_answer slot_only)
  :: ("GET", "/api/v0/labs/lab1/interfaces/if-B",
      json_answer (interface_detail "physical" false))
  :: ("GET", "/api/v0/labs/lab1/interfaces/if-X?operational=true",
      json_answer slot_only)
  :: search_routes.

End Scenario.

(* ===================================================================== *)
(** ** The program *)
(* ===================================================================== *)

Section Program.

(** The platform behind the httpx client. *)
Variable transport : list Event -> Event -> N * Outcome.

(** [str(e)] for an exception, as Python and httpx print it. *)
Variable str_exn : exn -> string.

(** [str(v)] for a value that is not a str, as an f-string prints it. *)
Variable str_value : pyval -> string.

(** [f"{v}"]. *)
Definition fmt (v : pyval) : string :=
  match v with
  | PyStr s => s
  | _ => str_value v
  end.

(** One awaited call on the httpx client.  [Failed] stands for every
    exception the client raises from the call: a failure of the
    transport, and a call the client does not build (a URL it cannot
    parse, a header of the call it cannot encode).  The handlers of the
    file tell no exception from another but [HTTPStatusError], which the
    client does not raise; the model gives them the class
    [TransportError]. *)
Definition client_call (ev : Event) : M Response :=
  fun w =>
    let '(latency, out) := transport (trace w) ev in
    let w' := mkWorld (cml_auth w) (trace w ++ [ev])
                      (clock w + Z.of_N latency) in
    match out with
    | Responded r => (Ok r, w')
    | Failed msg => (Raise (TransportError msg), w')
    end.

(** [await asyncio.sleep(seconds)]. *)
Definition sleep (seconds : Z) : M unit :=
  fun w => (Ok tt, mkWorld (cml_auth w) (trace w ++ [Sleep seconds])
                           (clock w + seconds)).

(** [asyncio.get_event_loop().time()]. *)
Definition loop_time : M Z := fun w => (Ok (clock w), w).

(** [self], for the methods of the one [CMLAuth] object the tools use. *)
Definition get_self : M CMLAuth :=
  fun w =>
    match cml_auth w with
    | Some self => (Ok self, w)
    | None => (Raise (AttributeError PyNone "request"), w)
    end.

Definition set_self (self : CMLAuth) : M unit :=
  fun w => (Ok tt, mkWorld (Some self) (trace w) (clock w)).

(** [f"Bearer {self.token}"]. *)
Definition bearer (tok : option string) : string :=
  "Bearer " ++ match tok with Some t => t | None => "None" end.

(** [not self.token]. *)
Definition no_token (tok : option string) : bool :=
  match tok with
  | Some t => (t =? "")%string
  | None => true
  end.

(** [headers[k] = v]. *)
Fixpoint headers_set (h : list (string * string)) (k v : string)
    : list (string * string) :=
  match h with
  | [] => [(k, v)]
  | (k', v') :: h' =>
      if (k' =? k)%string then (k', v) :: h' else (k', v') :: headers_set h' k v
  end.

(** [if "headers" not in kwargs: kwargs["headers"] = {}] followed by
    [kwargs["headers"]["Authorization"] = value]. *)
Definition with_authorization (kwargs : Kwargs) (value : string) : Kwargs :=
  let h := match kw_headers kwargs with Some h => h | None => [] end in
  mkKwargs (kw_json kwargs) (kw_content kwargs)
           (Some (headers_set h "Authorization" value)).

(** [value.encode("ascii")] succeeds: httpx encodes the value of a header
    so, and a character of code 128 or more makes it raise. *)
Definition header_encodable (value : string) : bool :=
  forallb (fun c => (nat_of_ascii c <? 128)%nat) (list_ascii_of_string value).

(** [self.client.headers.update({"Authorization": value})]. *)
Definition update_client_authorization (value : string) : M unit :=
  if header_encodable value then
    self <- get_self ;;
    set_self (mkCMLAuth (base_url self) (username self) (password self)
                (token self) (verify_ssl self) (Some value))
  else raise (UnicodeEncodeError value).

(** [CMLAuth.authenticate]. *)
Definition authenticate : M string :=
  self <- get_self ;;
  response <- client_call
    (ClientPost "/api/v0/authenticate"
       (PyDict [(PyStr "username", PyStr (username self));
                (PyStr "password", PyStr (password self))])) ;;
  raise_for_status response ;;
  let tok := strip_char dquote (text response) in
  set_self (mkCMLAuth (base_url self) (username self) (password self)
              (Some tok) (verify_ssl self) (client_authorization self)) ;;
  update_client_authorization (bearer (Some tok)) ;;
  try_except
    (auth_check <- client_call (ClientGet "/api/v0/authok") ;;
     raise_for_status auth_check)
    (fun _ => ret tt) ;;
  ret tok.

(** [CMLAuth.request]. *)
Definition request (method endpoint : string) (kwargs : Kwargs)
    : M Response :=
  self <- get_self ;;
  (if no_token (token self) then (authenticate ;; ret tt) else ret tt) ;;
  self <- get_self ;;
  let kwargs := with_authorization kwargs (bearer (token self)) in
  try_except
    (response <- client_call (ClientRequest method endpoint kwargs) ;;
     response <-
       (if status_code response =? 401 then
          authenticate ;;
          self <- get_self ;;
          let kwargs := with_authorization kwargs (bearer (token self)) in
          client_call (ClientRequest method endpoint kwargs)
        else ret response) ;;
     raise_for_status response ;;
     ret response)
    (fun e => raise e).

(** The first statement of [request]: [if not self.token: await
    self.authenticate()]. *)
Definition ensure_token : M unit :=
  self <- get_self ;;
  if no_token (token self) then (authenticate ;; ret tt) else ret tt.

(* ===================================================================== *)
(** ** Lab and node tools *)
(* ===================================================================== *)

(** [@mcp.tool()] registers a coroutine and leaves it callable, so a tool
    called from another tool is the coroutine itself. *)

(** [not cml_auth]. *)
Definition session_absent : M bool :=
  fun w => (Ok (match cml_auth w with Some _ => false | None => true end), w).

Definition init_error_str : pyval :=
  PyStr "Error: You must initialize the client first with initialize_client()".

Definition init_error_dict : pyval :=
  PyDict [(PyStr "error",
           PyStr "You must initialize the client first with initialize_client()")].

(** [len(v)]. *)
Definition py_len (v : pyval) : M Z :=
  match v with
  | PyStr s => ret (Z.of_nat (String.length s))
  | PyList l => ret (Z.of_nat (List.length l))
  | PyDict d => ret (Z.of_nat (List.length d))
  | _ => raise (TypeError "object has no len()" v)
  end.

(** [v.items()]. *)
Definition py_items (v : pyval) : M (list (pyval * pyval)) :=
  match v with
  | PyDict d => ret d
  | _ => raise (AttributeError v "items")
  end.

(** [for v in obj]: the elements the loop visits. *)
Definition py_iter (obj : pyval) : M (list pyval) :=
  match obj with
  | PyList l => ret l
  | PyDict d => ret (dict_keys d)
  | PyStr s => ret (map (fun c => PyStr (String c EmptyString))
                        (list_ascii_of_string s))
  | _ => raise (TypeError "object is not iterable" obj)
  end.

(** The body of the lines of [list_labs] for one lab. *)
Definition list_labs_entry (result : string) (lab_id lab_info : pyval)
    : M string :=
  title <- py_get_default lab_info "title" (PyStr "Untitled") ;;
  let result := result ++ "- " ++ fmt title ++ " (ID: " ++ fmt lab_id ++ ")" ++ nl in
  description <- py_get lab_info "description" ;;
  let result :=
    if truthy description
    then result ++ "  Description: " ++ fmt description ++ nl
    else result in
  state <- py_get_default lab_info "state" (PyStr "unknown") ;;
  ret (result ++ "  State: " ++ fmt state ++ nl).

Fixpoint list_labs_loop (result : string) (items : list (pyval * pyval))
    : M string :=
  match items with
  | [] => ret result
  | (lab_id, lab_info) :: rest =>
      result <- list_labs_entry result lab_id lab_info ;;
      list_labs_loop result rest
  end.

(** [list_labs]. *)
Definition list_labs : M pyval :=
  absent <- session_absent ;;
  if absent then ret init_error_str else
  try_except
    (response <- request "GET" "/api/v0/labs" no_kwargs ;;
     labs <- json response ;;
     py_len labs ;;
     if negb (truthy labs) then ret (PyStr "No labs found in CML.") else
     items <- py_items labs ;;
     result <- list_labs_loop ("Available Labs:" ++ nl ++ nl) items ;;
     ret (PyStr result))
    (fun e => ret (PyStr ("Error listing labs: " ++ str_exn e))).

(** [create_lab]. *)
Definition create_lab (title description : string) : M pyval :=
  absent <- session_absent ;;
  if absent then ret init_error_dict else
  try_except
    (response <- request "POST" "/api/v0/labs"
       (mkKwargs (Some (PyDict [(PyStr "title", PyStr title);
                                (PyStr "description", PyStr description)]))
                 None None) ;;
     lab_data <- json response ;;
     lab_id <- py_get lab_data "id" ;;
     if negb (truthy lab_id)
     then ret (PyDict [(PyStr "error",
                        PyStr "Failed to create lab, no lab ID returned")])
     else ret (PyDict
       [(PyStr "lab_id", lab_id);
        (PyStr "message",
         PyStr ("Created lab '" ++ title ++ "' with ID: " ++ fmt lab_id));
        (PyStr "status", PyStr "success")]))
    (fun e => ret (PyDict [(PyStr "error",
                            PyStr ("Error creating lab: " ++ str_exn e))])).

(** [get_lab_details]. *)
Definition get_lab_details (lab_id : string) : M pyval :=
  absent <- session_absent ;;
  if absent then ret init_error_dict else
  try_except
    (response <- request "GET" ("/api/v0/labs/" ++ lab_id) no_kwargs ;;
     lab_details <- json response ;;
     ret lab_details)
    (fun e => ret (PyDict [(PyStr "error",
                            PyStr ("Error getting lab details: " ++ str_exn e))])).

(** [result = {}; for item in items: item_id = item.get("id"); if item_id:
    result[item_id] = item], the conversion [get_lab_nodes] and
    [get_lab_links] apply to a list. *)
Fixpoint index_by_id (items : list pyval) (result : list (pyval * pyval))
    : M (list (pyval * pyval)) :=
  match items with
  | [] => ret result
  | item :: rest =>
      item_id <- py_get item "id" ;;
      if truthy item_id then
        if hashable item_id
        then index_by_id rest (dict_set result item_id item)
        else raise (TypeError "unhashable type" item_id)
      else index_by_id rest result
  end.

(** [get_lab_nodes]. *)
Definition get_lab_nodes (lab_id : string) : M pyval :=
  absent <- session_absent ;;
  if absent then ret init_error_str else
  try_except
    (response <- request "GET" ("/api/v0/labs/" ++ lab_id ++ "/nodes")
                         no_kwargs ;;
     nodes <- json response ;;
     match nodes with
     | PyList l => result <- index_by_id l [] ;; ret (PyDict result)
     | _ => ret nodes
     end)
    (fun e => ret (PyStr ("Error getting lab nodes: " ++ str_exn e))).

(** [get_lab_links]. *)
Definition get_lab_links (lab_id : string) : M pyval :=
  absent <- session_absent ;;
  if absent then ret init_error_str else
  try_except
    (response <- request "GET" ("/api/v0/labs/" ++ lab_id ++ "/links")
                         no_kwargs ;;
     links <- json response ;;
     match links with
     | PyList l => result <- index_by_id l [] ;; ret (PyDict result)
     | _ => ret links
     end)
    (fun e => ret (PyStr ("Error getting lab links: " ++ str_exn e))).

(** [stop_lab]. *)
Definition stop_lab (lab_id : string) : M pyval :=
  absent <- session_absent ;;
  if absent then ret init_error_str else
  try_except
    (request "PUT" ("/api/v0/labs/" ++ lab_id ++ "/stop") no_kwargs ;;
     ret (PyStr ("Lab " ++ lab_id ++ " stopped successfully")))
    (fun e => ret (PyStr ("Error stopping lab: " ++ str_exn e))).

(** [start_lab]. *)
Definition start_lab (lab_id : string) : M pyval :=
  absent <- session_absent ;;
  if absent then ret init_error_str else
  try_except
    (request "PUT" ("/api/v0/labs/" ++ lab_id ++ "/start") no_kwargs ;;
     ret (PyStr ("Lab " ++ lab_id ++ " started successfully")))
    (fun e => ret (PyStr ("Error starting lab: " ++ str_exn e))).

(** [isinstance(lab_details, dict) and lab_details.get("state") ==
    "STARTED"]. *)
Definition lab_is_started (lab_details : pyval) : bool :=
  match lab_details with
  | PyDict d => py_eqb (dict_get_default d "state" PyNone) (PyStr "STARTED")
  | _ => false
  end.

(** [delete_lab]. *)
Definition delete_lab (lab_id : string) : M pyval :=
  absent <- session_absent ;;
  if absent then ret init_error_str else
  try_except
    (lab_details <- get_lab_details lab_id ;;
     (if lab_is_started lab_details
      then (stop_lab lab_id ;; ret tt) else ret tt) ;;
     request "DELETE" ("/api/v0/labs/" ++ lab_id) no_kwargs ;;
     ret (PyStr ("Lab " ++ lab_id ++ " deleted successfully")))
    (fun e => ret (PyStr ("Error deleting lab: " ++ str_exn e))).

(** [delete_link]. *)
Definition delete_link (lab_id link_id : string) : M pyval :=
  absent <- session_absent ;;
  if absent then ret init_error_str else
  try_except
    (request "DELETE" ("/api/v0/labs/" ++ lab_id ++ "/links/" ++ link_id)
             no_kwargs ;;
     ret (PyStr ("Link " ++ link_id ++ " deleted successfully")))
    (fun e => ret (PyStr ("Error deleting link: " ++ str_exn e))).

(** [configure_node]. *)
Definition configure_node (lab_id node_id config : string) : M pyval :=
  absent <- session_absent ;;
  if absent then ret init_error_str else
  try_except
    (request "PUT"
       ("/api/v0/labs/" ++ lab_id ++ "/nodes/" ++ node_id ++ "/config")
       (mkKwargs None (Some config) None) ;;
     ret (PyStr ("Configuration applied to node " ++ node_id)))
    (fun e => ret (PyStr ("Error configuring node: " ++ str_exn e))).

(** [get_node_config]. *)
Definition get_node_config (lab_id node_id : string) : M pyval :=
  absent <- session_absent ;;
  if absent then ret init_error_str else
  try_except
    (response <- request "GET"
       ("/api/v0/labs/" ++ lab_id ++ "/nodes/" ++ node_id ++ "/config")
       no_kwargs ;;
     ret (PyStr (text response)))
    (fun e => ret (PyStr ("Error getting node configuration: " ++ str_exn e))).

(* ===================================================================== *)
(** ** Interface tools *)
(* ===================================================================== *)

(** Lines 499-514 of [get_node_interfaces]: what the tool returns for the
    decoded response [interfaces]. *)
Definition node_interfaces_result (interfaces : pyval) : pyval :=
  match interfaces with
  | PyList _ => interfaces
  | PyStr s =>
      if (String.length s mod 36 =? 0)%nat
      then PyList (map PyStr (uuid_chunks s))
      else interfaces
  | _ => interfaces
  end.

(** [get_node_interfaces]. *)
Definition get_node_interfaces (lab_id node_id : string) : M pyval :=
  absent <- session_absent ;;
  if absent then ret init_error_str else
  try_except
    (response <- request "GET"
       ("/api/v0/labs/" ++ lab_id ++ "/nodes/" ++ node_id ++ "/interfaces")
       no_kwargs ;;
     interfaces <- json response ;;
     ret (node_interfaces_result interfaces))
    (fun e => ret (PyStr ("Error getting node interfaces: " ++ str_exn e))).

(** Lines 547-562 of [get_physical_interfaces]: from the value
    [get_node_interfaces] returned, either the value the tool returns at
    once ([inl]) or the [interface_ids] to describe ([inr]). *)
Definition physical_interface_ids (interfaces_response : pyval)
    : pyval + list pyval :=
  match interfaces_response with
  | PyStr s =>
      if contains "Error" s then inl interfaces_response
      else if (String.length s mod 36 =? 0)%nat
      then inr (map PyStr (uuid_chunks s))
      else inl (PyStr ("Unexpected interface response format: " ++ s))
  | PyList l => inr l
  | PyDict d => inr (dict_keys d)
  | _ => inl (PyStr ("Unexpected interface response type: "
                     ++ type_name interfaces_response))
  end.

(** [k in d] for a str [k] and a dict [d]. *)
Definition dict_mem (d : list (pyval * pyval)) (k : string) : bool :=
  match dict_get d k with Some _ => true | None => false end.

(** Lines 571-577 of [get_physical_interfaces]; [interface_data] is a
    dict once [interface_data.get] has returned. *)
Definition is_physical (d : list (pyval * pyval)) : bool :=
  let is_physical := py_eqb (dict_get_default d "type" PyNone)
                            (PyStr "physical") in
  if negb (dict_mem d "type") then
    if dict_mem d "slot" then true else is_physical
  else is_physical.

(** The loop of lines 566-580 of [get_physical_interfaces]. *)
Fixpoint physical_interfaces_loop (lab_id : string)
    (interface_ids physical_interfaces : list pyval) : M (list pyval) :=
  match interface_ids with
  | [] => ret physical_interfaces
  | interface_id :: rest =>
      interface_details <- request "GET"
        ("/api/v0/labs/" ++ lab_id ++ "/interfaces/" ++ fmt interface_id)
        no_kwargs ;;
      interface_data <- json interface_details ;;
      match interface_data with
      | PyDict d =>
          physical_interfaces_loop lab_id rest
            (if is_physical d
             then physical_interfaces ++ [interface_data]
             else physical_interfaces)
      | _ => raise (AttributeError interface_data "get")
      end
  end.

(** [get_physical_interfaces]; [get_filtered_interfaces] is bound nowhere
    in the module, so the branch on it is never taken. *)
Definition get_physical_interfaces (lab_id node_id : string) : M pyval :=
  absent <- session_absent ;;
  if absent then ret init_error_str else
  try_except
    (interfaces_response <- get_node_interfaces lab_id node_id ;;
     match physical_interface_ids interfaces_response with
     | inl early => ret early
     | inr interface_ids =>
         physical_interfaces <-
           physical_interfaces_loop lab_id interface_ids [] ;;
         match physical_interfaces with
         | [] => ret (PyStr ("No physical interfaces found for node "
                             ++ node_id))
         | _ => ret (PyList physical_interfaces)
         end
     end)
    (fun e => ret (PyStr ("Error getting physical interfaces: "
                          ++ str_exn e))).

(* ===================================================================== *)
(** ** Link tools *)
(* ===================================================================== *)

(** The two payloads of [create_link_v3], [link_data_1] and
    [link_data_2]. *)
Definition link_data_1 (interface_id_a interface_id_b : string) : pyval :=
  PyDict [(PyStr "i1", PyStr interface_id_a);
          (PyStr "i2", PyStr interface_id_b)].

Definition link_data_2 (interface_id_a interface_id_b : string) : pyval :=
  PyDict [(PyStr "src_int", PyStr interface_id_a);
          (PyStr "dst_int", PyStr interface_id_b)].

Definition links_endpoint (lab_id : string) : string :=
  "/api/v0/labs/" ++ lab_id ++ "/links".

Definition link_created (link_id result : pyval)
    (interface_id_a interface_id_b : string) : pyval :=
  PyDict [(PyStr "link_id", link_id);
          (PyStr "message",
           PyStr ("Created link between interfaces " ++ interface_id_a
                  ++ " and " ++ interface_id_b));
          (PyStr "status", PyStr "success");
          (PyStr "details", result)].

Definition all_formats_failed : pyval :=
  PyDict [(PyStr "error",
           PyStr "Failed to create link - all payload formats were tried and failed")].

(** One of the two inner [try] blocks of [create_link_v3]: [Some] is the
    value the tool returns from inside the block, [None] is falling out of
    the block (no link id, or an exception caught and logged). *)
Definition try_link_format (lab_id : string) (link_data : pyval)
    (interface_id_a interface_id_b : string) : M (option pyval) :=
  try_except
    (response <- request "POST" (links_endpoint lab_id)
                         (mkKwargs (Some link_data) None None) ;;
     result <- json response ;;
     link_id <- py_get result "id" ;;
     if truthy link_id
     then ret (Some (link_created link_id result interface_id_a interface_id_b))
     else ret None)
    (fun _ => ret None).

(** [create_link_v3]; [create_link_with_retry] is bound nowhere in the
    module, so the branch on it is never taken. *)
Definition create_link_v3 (lab_id interface_id_a interface_id_b : string)
    : M pyval :=
  absent <- session_absent ;;
  if absent then ret init_error_dict else
  try_except
    (first <- try_link_format lab_id (link_data_1 interface_id_a interface_id_b)
                              interface_id_a interface_id_b ;;
     match first with
     | Some created => ret created
     | None =>
         second <- try_link_format lab_id
                     (link_data_2 interface_id_a interface_id_b)
                     interface_id_a interface_id_b ;;
         match second with
         | Some created => ret created
         | None => ret all_formats_failed
         end
     end)
    (fun e => ret (PyDict [(PyStr "error",
                            PyStr ("Error creating link: " ++ str_exn e))])).

(** [connect_nodes] of the module [cml_link_creation], when the import at
    the top of the file succeeded; the [cml_auth] it is passed is the one
    of the world. *)
Variable connect_nodes : option (string -> string -> string -> M pyval).

(** Lines 826-833 (and 835-841) of [link_nodes]: "ensure we have arrays
    of interfaces". *)
Definition ensure_interface_list (interfaces : pyval) : pyval :=
  match interfaces with
  | PyList _ => interfaces
  | PyStr s => PyList (map PyStr (py_split s))
  | PyDict d => PyList (dict_keys d)
  | _ => interfaces
  end.

(** [interface_data.get("type") == "physical" and
    interface_data.get("is_connected") == False]. *)
Definition physical_and_free (d : list (pyval * pyval)) : bool :=
  py_eqb (dict_get_default d "type" PyNone) (PyStr "physical")
  && py_eqb (dict_get_default d "is_connected" PyNone) (PyBool false).

Definition interface_endpoint (lab_id : string) (interface_id : pyval)
    : string :=
  "/api/v0/labs/" ++ lab_id ++ "/interfaces/" ++ fmt interface_id
  ++ "?operational=true".

(** The search loop of lines 851-864 (and 869-882) of [link_nodes]: the
    value left in [src_interface_id] (resp. [dst_interface_id]), [None]
    when the loop ends without a [break]. *)
Fixpoint find_available_interface (lab_id : string)
    (interfaces : list pyval) : M (option pyval) :=
  match interfaces with
  | [] => ret None
  | interface_id :: rest =>
      interface_detail <- request "GET"
        (interface_endpoint lab_id interface_id) no_kwargs ;;
      interface_data <- json interface_detail ;;
      match interface_data with
      | PyDict d =>
          if physical_and_free d then ret (Some interface_id)
          else find_available_interface lab_id rest
      | _ => raise (AttributeError interface_data "get")
      end
  end.

(** [not src_interface_id]. *)
Definition not_found (interface_id : option pyval) : bool :=
  match interface_id with
  | Some v => negb (truthy v)
  | None => true
  end.

Definition error_dict (msg : string) : pyval :=
  PyDict [(PyStr "error", PyStr msg)].

(** Lines 813-919 of [link_nodes], the implementation used when
    [connect_nodes] was not imported. *)
Definition link_nodes_fallback (lab_id node_id_a node_id_b : string)
    : M pyval :=
  interfaces_a_response <- request "GET"
    ("/api/v0/labs/" ++ lab_id ++ "/nodes/" ++ node_id_a
     ++ "/interfaces?operational=true") no_kwargs ;;
  interfaces_a <- json interfaces_a_response ;;
  interfaces_b_response <- request "GET"
    ("/api/v0/labs/" ++ lab_id ++ "/nodes/" ++ node_id_b
     ++ "/interfaces?operational=true") no_kwargs ;;
  interfaces_b <- json interfaces_b_response ;;
  let interfaces_a := ensure_interface_list interfaces_a in
  let interfaces_b := ensure_interface_list interfaces_b in
  if negb (truthy interfaces_a)
  then ret (error_dict ("No interfaces found for node " ++ node_id_a)) else
  if negb (truthy interfaces_b)
  then ret (error_dict ("No interfaces found for node " ++ node_id_b)) else
  ids_a <- py_iter interfaces_a ;;
  src_interface_id <- find_available_interface lab_id ids_a ;;
  if not_found src_interface_id
  then ret (error_dict ("No available physical interface found for node "
                        ++ node_id_a)) else
  ids_b <- py_iter interfaces_b ;;
  dst_interface_id <- find_available_interface lab_id ids_b ;;
  if not_found dst_interface_id
  then ret (error_dict ("No available physical interface found for node "
                        ++ node_id_b)) else
  let link_data :=
    PyDict [(PyStr "src_int",
             match src_interface_id with Some v => v | None => PyNone end);
            (PyStr "dst_int",
             match dst_interface_id with Some v => v | None => PyNone end)] in
  response <- request "POST" (links_endpoint lab_id)
    (mkKwargs (Some link_data) None
              (Some [("Content-Type", "application/json")])) ;;
  result <- json response ;;
  link_id <- py_get result "id" ;;
  if negb (truthy link_id)
  then ret (PyDict [(PyStr "error",
                     PyStr "Failed to create link, no link ID returned");
                    (PyStr "response", result)])
  else ret (PyDict
    [(PyStr "link_id", link_id);
     (PyStr "message",
      PyStr ("Created link between nodes " ++ node_id_a ++ " and "
             ++ node_id_b));
     (PyStr "status", PyStr "success");
     (PyStr "details", result)]).

(** [link_nodes]. *)
Definition link_nodes (lab_id node_id_a node_id_b : string) : M pyval :=
  absent <- session_absent ;;
  if absent then ret init_error_dict else
  try_except
    (match connect_nodes with
     | Some imported => imported lab_id node_id_a node_id_b
     | None => link_nodes_fallback lab_id node_id_a node_id_b
     end)
    (fun e => ret (error_dict ("Error linking nodes: " ++ str_exn e))).

(* ===================================================================== *)
(** ** Lab readiness poller *)
(* ===================================================================== *)

(** The [for node_id, node in nodes.items()] loop of
    [wait_for_lab_nodes]; the argument and the result are [all_ready]. *)
Fixpoint poll_nodes (lab_id : string) (items : list (pyval * pyval))
    (all_ready : bool) : M bool :=
  match items with
  | [] => ret all_ready
  | (node_id, _) :: rest =>
      node_info <- request "GET"
        ("/api/v0/labs/" ++ lab_id ++ "/nodes/" ++ fmt node_id) no_kwargs ;;
      node_data <- json node_info ;;
      state <- py_get_default node_data "state" (PyStr "UNKNOWN") ;;
      poll_nodes lab_id rest
        (if negb (py_eqb state (PyStr "STARTED")) then false else all_ready)
  end.

Definition out_of_fuel {A} : M A := fun w => (OutOfFuel, w).

(** The [while] loop of [wait_for_lab_nodes]; [fuel] bounds the number of
    iterations of the model. *)
Fixpoint wait_loop (fuel : nat) (lab_id : string) (timeout : Z)
    (nodes : pyval) (start_time : Z) (all_ready : bool) : M bool :=
  if all_ready then ret all_ready else
  now <- loop_time ;;
  if negb (now - start_time <? timeout) then ret all_ready else
  match fuel with
  | O => out_of_fuel
  | S fuel' =>
      items <- py_items nodes ;;
      all_ready <- poll_nodes lab_id items true ;;
      (if negb all_ready then sleep 5 else ret tt) ;;
      wait_loop fuel' lab_id timeout nodes start_time all_ready
  end.

Definition not_started_message : pyval :=
  PyStr "Lab is not in STARTED state. Start the lab first.".

Definition all_ready_message : pyval :=
  PyStr "All nodes in the lab are initialized and ready".

Definition timeout_message (timeout : Z) : pyval :=
  PyStr ("Timeout reached (" ++ fmt (PyInt timeout)
         ++ " seconds). Some nodes may not be fully initialized.").

(** [isinstance(nodes, str) and "Error" in nodes]. *)
Definition is_error_text (v : pyval) : bool :=
  match v with
  | PyStr s => contains "Error" s
  | _ => false
  end.

(** [wait_for_lab_nodes]. *)
Definition wait_for_lab_nodes (fuel : nat) (lab_id : string) (timeout : Z)
    : M pyval :=
  absent <- session_absent ;;
  if absent then ret init_error_str else
  try_except
    (lab_details <- get_lab_details lab_id ;;
     if negb (lab_is_started lab_details) then ret not_started_message else
     nodes <- get_lab_nodes lab_id ;;
     if is_error_text nodes then ret nodes else
     start_time <- loop_time ;;
     all_ready <- wait_loop fuel lab_id timeout nodes start_time false ;;
     if all_ready then ret all_ready_message
     else ret (timeout_message timeout))
    (fun e => ret (PyStr ("Error waiting for nodes: " ++ str_exn e))).

(* ===================================================================== *)
(** ** Client initialisation *)
(* ===================================================================== *)

(** The constructors [ConsoleManager], [NetworkDiagnostics] and
    [TroubleshootingFramework] of the [tshoot] modules, when the import at
    the top of the file succeeded: what building the three on the session
    does. *)
Variable troubleshooting_tools : option (M unit).

(** [if not base_url.startswith(('http://', 'https://')): base_url =
    f"https://{base_url}"]. *)
Definition with_scheme (base_url : string) : string :=
  if prefix "http://" base_url || prefix "https://" base_url
  then base_url
  else "https://" ++ base_url.

(** [httpx.AsyncClient(base_url=base_url, verify=verify_ssl)]: the
    exception the constructor raises, if it raises one --
    [httpx.InvalidURL] for a base URL that httpx cannot parse, such as
    one with a port that is not a number. *)
Variable AsyncClient : string -> bool -> option exn.

(** [CMLAuth.__init__]: the object holds no token; building the httpx
    client sends nothing, and may raise. *)
Definition CMLAuth_init (base_url username password : string)
    (verify_ssl : bool) : M CMLAuth :=
  match AsyncClient base_url verify_ssl with
  | Some e => raise e
  | None => ret (mkCMLAuth base_url username password None verify_ssl None)
  end.

(** [initialize_client]: [cml_auth = CMLAuth(...)] is before the [try]. *)
Definition initialize_client (base_url username password : string)
    (verify_ssl : bool) : M pyval :=
  let base_url := with_scheme base_url in
  self <- CMLAuth_init base_url username password verify_ssl ;;
  set_self self ;;
  try_except
    (authenticate ;;
     match troubleshooting_tools with
     | Some build => build
     | None => ret tt
     end ;;
     let ssl_status :=
       if verify_ssl then "enabled"
       else "disabled (accepting self-signed certificates)" in
     ret (PyStr ("Successfully authenticated with CML at " ++ base_url
                 ++ " (SSL verification: " ++ ssl_status ++ ")")))
    (fun e =>
       match e with
       | HTTPStatusError _ =>
           ret (PyStr ("Authentication failed: " ++ str_exn e))
       | _ => ret (PyStr ("Error connecting to CML: " ++ str_exn e))
       end).

(* ===================================================================== *)
(** ** Node creation tools *)
(* ===================================================================== *)

(** [create_node] of the module [cml_node_creation_fix], when the import
    at the top of the file succeeded, applied to the positional arguments
    that follow [cml_auth] and to the keyword arguments. *)
Variable create_node : option (list pyval -> list (string * pyval) -> M pyval).

(** [KeyError(k)], raised by [d[k]] for a missing key, and
    [IndexError(msg)], raised by [l[0]] on an empty list: the handlers of
    the tools do not tell them from other exceptions. *)
Variable KeyError : string -> exn.
Variable IndexError : string -> exn.

(** [str(n)] for an int. *)
Definition str_int (n : Z) : string := NilZero.string_of_int (Z.to_int n).

(** [k in v] for a str [k]. *)
Definition py_in (k : string) (v : pyval) : M bool :=
  match v with
  | PyDict d => ret (dict_mem d k)
  | PyList l => ret (existsb (py_eqb (PyStr k)) l)
  | PyStr s => ret (contains k s)
  | _ => raise (TypeError "argument is not iterable" v)
  end.

(** [v[k]] for a str [k]. *)
Definition py_getitem (v : pyval) (k : string) : M pyval :=
  match v with
  | PyDict d =>
      match dict_get d k with
      | Some x => ret x
      | None => raise (KeyError k)
      end
  | PyList _ | PyStr _ => raise (TypeError "indices must be integers" v)
  | _ => raise (TypeError "object is not subscriptable" v)
  end.

(** The loop of [list_node_definitions] over a dict of definitions. *)
Fixpoint summarize_definitions (items : list (pyval * pyval))
    (result : list (pyval * pyval)) : M (list (pyval * pyval)) :=
  match items with
  | [] => ret result
  | (node_id, node_info) :: rest =>
      description <- py_get_default node_info "description" (PyStr "") ;;
      kind <- py_get_default node_info "type" (PyStr "") ;;
      interfaces <- py_get_default node_info "interfaces" (PyList []) ;;
      summarize_definitions rest
        (dict_set result node_id
           (PyDict [(PyStr "description", description);
                    (PyStr "type", kind);
                    (PyStr "interfaces", interfaces)]))
  end.

(** [list_node_definitions]. *)
Definition list_node_definitions : M pyval :=
  absent <- session_absent ;;
  if absent then ret init_error_str else
  try_except
    (response <- request "GET" "/api/v0/node_definitions" no_kwargs ;;
     node_defs <- json response ;;
     match node_defs with
     | PyList l => result <- index_by_id l [] ;; ret (PyDict result)
     | _ =>
         items <- py_items node_defs ;;
         result <- summarize_definitions items [] ;;
         ret (PyDict result)
     end)
    (fun e => ret (PyStr ("Error listing node definitions: " ++ str_exn e))).

(** The payload [add_node] builds; [ram], [cpu_limit] and [parameters]
    are [PyNone] when not given. *)
Definition node_data_of (label node_definition : string) (x y : Z)
    (ram cpu_limit parameters : pyval) : list (pyval * pyval) :=
  let node_data :=
    [(PyStr "label", PyStr label);
     (PyStr "node_definition", PyStr node_definition);
     (PyStr "x", PyInt x);
     (PyStr "y", PyInt y);
     (PyStr "parameters",
      if truthy parameters then parameters else PyDict [])] in
  let node_data :=
    match ram with
    | PyNone => node_data
    | _ => dict_set node_data (PyStr "ram") ram
    end in
  let node_data :=
    match cpu_limit with
    | PyNone => node_data
    | _ => dict_set node_data (PyStr "cpu_limit") cpu_limit
    end in
  let node_data := dict_set node_data (PyStr "tags") (PyList []) in
  dict_set node_data (PyStr "hide_links") (PyBool false).

Definition nodes_endpoint (lab_id : pyval) (populate_interfaces : bool)
    : string :=
  let endpoint := "/api/v0/labs/" ++ fmt lab_id ++ "/nodes" in
  if populate_interfaces then endpoint ++ "?populate_interfaces=true"
  else endpoint.

Definition json_headers : option (list (string * string)) :=
  Some [("Content-Type", "application/json")].

(** Lines 427-472 of [add_node], the implementation used when
    [create_node] was not imported.  A tool called by another tool gets
    the identifiers as the platform gave them, hence [lab_id] is a
    value. *)
Definition add_node_fallback (lab_id : pyval) (label node_definition : string)
    (x y : Z) (populate_interfaces : bool) (ram cpu_limit parameters : pyval)
    : M pyval :=
  let node_data :=
    node_data_of label node_definition x y ram cpu_limit parameters in
  response <- request "POST" (nodes_endpoint lab_id populate_interfaces)
    (mkKwargs (Some (PyDict node_data)) None json_headers) ;;
  result <- json response ;;
  node_id <- py_get result "id" ;;
  if negb (truthy node_id)
  then ret (PyDict [(PyStr "error",
                     PyStr "Failed to create node, no node ID returned");
                    (PyStr "response", result)])
  else ret (PyDict
    [(PyStr "node_id", node_id);
     (PyStr "message",
      PyStr ("Added node '" ++ label ++ "' with ID: " ++ fmt node_id));
     (PyStr "status", PyStr "success");
     (PyStr "details", result)]).

(** [add_node]. *)
Definition add_node (lab_id : pyval) (label node_definition : string)
    (x y : Z) (populate_interfaces : bool) (ram cpu_limit parameters : pyval)
    : M pyval :=
  absent <- session_absent ;;
  if absent then ret init_error_dict else
  try_except
    (match create_node with
     | Some imported =>
         imported [lab_id; PyStr label; PyStr node_definition; PyInt x;
                   PyInt y; PyBool populate_interfaces; ram; cpu_limit;
                   parameters] []
     | None =>
         add_node_fallback lab_id label node_definition x y
           populate_interfaces ram cpu_limit parameters
     end)
    (fun e => ret (error_dict ("Error adding node: " ++ str_exn e))).

Definition interface_created (interface_id interface_label : pyval)
    (node_id : string) (slot : Z) (result : pyval) : pyval :=
  PyDict
    [(PyStr "interface_id", interface_id);
     (PyStr "message",
      PyStr ("Created interface " ++ fmt interface_label ++ " on node "
             ++ node_id ++ ", slot " ++ str_int slot));
     (PyStr "status", PyStr "success");
     (PyStr "details", result)].

Definition unexpected_interface_response (result : pyval) : pyval :=
  PyDict [(PyStr "error",
           PyStr "Failed to create interface, unexpected response format");
          (PyStr "response", result)].

Definition lab_is_running : pyval :=
  error_dict
    "Cannot create interfaces while the lab is running. Please stop the lab first.".

(** [create_interface]. *)
Definition create_interface (lab_id node_id : string) (slot : Z) : M pyval :=
  absent <- session_absent ;;
  if absent then ret init_error_dict else
  try_except
    (lab_details <- get_lab_details lab_id ;;
     if lab_is_started lab_details then ret lab_is_running else
     response <- request "POST" ("/api/v0/labs/" ++ lab_id ++ "/interfaces")
       (mkKwargs (Some (PyDict [(PyStr "node", PyStr node_id);
                                (PyStr "slot", PyInt slot)]))
                 None None) ;;
     result <- json response ;;
     match result with
     | PyList (first :: _) =>
         interface_id <- py_get first "id" ;;
         interface_label <- py_get first "label" ;;
         ret (interface_created interface_id interface_label node_id slot
                                result)
     | PyDict d =>
         let interface_id := dict_get_default d "id" PyNone in
         let interface_label := dict_get_default d "label" PyNone in
         if truthy interface_id
         then ret (interface_created interface_id interface_label node_id
                                     slot result)
         else ret (unexpected_interface_response result)
     | _ => ret (unexpected_interface_response result)
     end)
    (fun e => ret (error_dict ("Error creating interface: " ++ str_exn e))).

(** [create_router]: no [try] around the call. *)
Definition create_router (lab_id : pyval) (label : string) (x y : Z)
    : M pyval :=
  absent <- session_absent ;;
  if absent then ret init_error_dict else
  match create_node with
  | Some imported =>
      imported [lab_id; PyStr label; PyStr "iosv"; PyInt x; PyInt y;
                PyBool true] []
  | None => add_node lab_id label "iosv" x y true PyNone PyNone PyNone
  end.

(** [create_switch]. *)
Definition create_switch (lab_id : pyval) (label : string) (x y : Z)
    : M pyval :=
  absent <- session_absent ;;
  if absent then ret init_error_dict else
  match create_node with
  | Some imported =>
      imported [lab_id; PyStr label; PyStr "iosvl2"; PyInt x; PyInt y;
                PyBool true] []
  | None => add_node lab_id label "iosvl2" x y true PyNone PyNone PyNone
  end.

(** [create_switch_with_interfaces]. *)
Definition create_switch_with_interfaces (lab_id : pyval) (label : string)
    (num_interfaces x y : Z) : M pyval :=
  absent <- session_absent ;;
  if absent then ret init_error_dict else
  let parameters := PyDict [(PyStr "slot1", PyStr (str_int num_interfaces))] in
  try_except
    (match create_node with
     | Some imported =>
         imported [lab_id; PyStr label; PyStr "iosvl2"; PyInt x; PyInt y;
                   PyBool true]
                  [("ram", PyNone); ("cpu_limit", PyNone);
                   ("parameters", parameters)]
     | None =>
         let node_data :=
           PyDict [(PyStr "label", PyStr label);
                   (PyStr "node_definition", PyStr "iosvl2");
                   (PyStr "x", PyInt x);
                   (PyStr "y", PyInt y);
                   (PyStr "parameters", parameters);
                   (PyStr "tags", PyList []);
                   (PyStr "hide_links", PyBool false)] in
         response <- request "POST"
           ("/api/v0/labs/" ++ fmt lab_id ++ "/nodes?populate_interfaces=true")
           (mkKwargs (Some node_data) None json_headers) ;;
         result <- json response ;;
         node_id <- py_get result "id" ;;
         if negb (truthy node_id)
         then ret (PyDict
           [(PyStr "error",
             PyStr "Failed to create switch, no node ID returned");
            (PyStr "response", result)])
         else ret (PyDict
           [(PyStr "node_id", node_id);
            (PyStr "message",
             PyStr ("Added switch '" ++ label ++ "' with "
                    ++ str_int num_interfaces ++ " interfaces (ID: "
                    ++ fmt node_id ++ ")"));
            (PyStr "status", PyStr "success");
            (PyStr "details", result)])
     end)
    (fun e => ret (error_dict ("Error creating switch: " ++ str_exn e))).

(* ===================================================================== *)
(** ** Lab builders *)
(* ===================================================================== *)

(** The builders hand the identifiers the platform gave to [link_nodes]
    and [configure_node], which use them in f-strings only: they get
    their rendering. *)

Definition lab_payload (title description : string) : Kwargs :=
  mkKwargs (Some (PyDict [(PyStr "title", PyStr title);
                          (PyStr "description", PyStr description)]))
           None None.

Definition no_lab_id : pyval :=
  error_dict "Failed to create lab, no lab ID returned".

(** [create_simple_network]. *)
Definition create_simple_network (title description : string) : M pyval :=
  absent <- session_absent ;;
  if absent then ret init_error_dict else
  try_except
    (lab_response <- request "POST" "/api/v0/labs"
                       (lab_payload title description) ;;
     lab_data <- json lab_response ;;
     lab_id <- py_get lab_data "id" ;;
     if negb (truthy lab_id) then ret no_lab_id else
     router_result <- create_router lab_id "Router1" 50 50 ;;
     failed <- py_in "error" router_result ;;
     if failed then
       (reason <- py_getitem router_result "error" ;;
        ret (error_dict ("Failed to create router: " ++ fmt reason)))
     else
     switch_result <- create_switch lab_id "Switch1" 50 150 ;;
     failed <- py_in "error" switch_result ;;
     if failed then
       (reason <- py_getitem switch_result "error" ;;
        ret (error_dict ("Failed to create switch: " ++ fmt reason)))
     else
     router_id <- py_getitem router_result "node_id" ;;
     switch_id <- py_getitem switch_result "node_id" ;;
     link_result <- link_nodes (fmt lab_id) (fmt router_id) (fmt switch_id) ;;
     linked <- py_in "link_id" link_result ;;
     ret (PyDict
       [(PyStr "lab_id", lab_id);
        (PyStr "title", PyStr title);
        (PyStr "router_id", router_id);
        (PyStr "switch_id", switch_id);
        (PyStr "link_status",
         PyStr (if linked then "success" else "failed"));
        (PyStr "link_details", link_result)]))
    (fun e => ret (error_dict ("Error creating simple network: "
                               ++ str_exn e))).

(** ["\n" + "\n".join(lines) + "\n"], a triple-quoted text. *)
Definition text_of_lines (lines : list string) : string :=
  nl ++ concat nl lines ++ nl.

Definition router1_config : string :=
  text_of_lines
    ["! Basic Router1 Configuration with OSPF";
     "!";
     "hostname Router1";
     "!";
     "interface GigabitEthernet0/0";
     " ip address 10.0.0.1 255.255.255.0";
     " no shutdown";
     "!";
     "router ospf 1";
     " network 10.0.0.0 0.0.0.255 area 0";
     "!"].

Definition router2_config : string :=
  text_of_lines
    ["! Basic Router2 Configuration with OSPF";
     "!";
     "hostname Router2";
     "!";
     "interface GigabitEthernet0/0";
     " ip address 10.0.0.2 255.255.255.0";
     " no shutdown";
     "!";
     "router ospf 1";
     " network 10.0.0.0 0.0.0.255 area 0";
     "!"].

Definition ospf_instructions : string :=
  "Lab created with OSPF routing between Router1 (10.0.0.1) and Router2 (10.0.0.2). Start the lab to test connectivity.".

(** The dict [create_ospf_lab] returns at its last line. *)
Definition ospf_lab_created (lab_id : pyval) (title : string)
    (router1_id router2_id link_id : pyval) : pyval :=
  PyDict
    [(PyStr "lab_id", lab_id);
     (PyStr "title", PyStr title);
     (PyStr "router1_id", router1_id);
     (PyStr "router2_id", router2_id);
     (PyStr "link_id", link_id);
     (PyStr "status", PyStr "success");
     (PyStr "instructions", PyStr ospf_instructions)].

(** [create_ospf_lab]. *)
Definition create_ospf_lab (title description : string) : M pyval :=
  absent <- session_absent ;;
  if absent then ret init_error_dict else
  try_except
    (lab_response <- request "POST" "/api/v0/labs"
                       (lab_payload title description) ;;
     lab_data <- json lab_response ;;
     lab_id <- py_get lab_data "id" ;;
     if negb (truthy lab_id) then ret no_lab_id else
     router1_result <- create_router lab_id "Router1" 50 50 ;;
     failed <- py_in "error" router1_result ;;
     if failed then
       (reason <- py_getitem router1_result "error" ;;
        ret (error_dict ("Failed to create Router1: " ++ fmt reason)))
     else
     router2_result <- create_router lab_id "Router2" 200 50 ;;
     failed <- py_in "error" router2_result ;;
     if failed then
       (reason <- py_getitem router2_result "error" ;;
        ret (error_dict ("Failed to create Router2: " ++ fmt reason)))
     else
     router1_id <- py_getitem router1_result "node_id" ;;
     router2_id <- py_getitem router2_result "node_id" ;;
     link_result <- link_nodes (fmt lab_id) (fmt router1_id)
                               (fmt router2_id) ;;
     failed <- py_in "error" link_result ;;
     if failed then
       (reason <- py_getitem link_result "error" ;;
        ret (error_dict ("Failed to link routers: " ++ fmt reason)))
     else
     configure_node (fmt lab_id) (fmt router1_id) router1_config ;;
     configure_node (fmt lab_id) (fmt router2_id) router2_config ;;
     link_id <- py_get link_result "link_id" ;;
     ret (ospf_lab_created lab_id title router1_id router2_id link_id))
    (fun e => ret (error_dict ("Error creating OSPF lab: " ++ str_exn e))).

(** One switch of [create_stp_lab]: the call of
    [create_switch_with_interfaces] and the [switches.append] that
    follows it, which reads [node_id] in the result without a look at an
    [error]. *)
Definition stp_switch (lab_id : pyval) (interfaces_per_switch : Z)
    (switches : list pyval) (name layer : string) (x y : Z)
    : M (list pyval) :=
  sw_result <- create_switch_with_interfaces lab_id name
                 interfaces_per_switch x y ;;
  node_id <- py_getitem sw_result "node_id" ;;
  ret (switches ++ [PyDict [(PyStr "name", PyStr name);
                            (PyStr "id", node_id);
                            (PyStr "layer", PyStr layer)]])%list.

(** [switches[i][k]]. *)
Definition switch_field (switches : list pyval) (i : nat) (k : string)
    : M pyval :=
  match nth_error switches i with
  | Some switch => py_getitem switch k
  | None => raise (IndexError "list index out of range")
  end.

(** One link of [create_stp_lab]: the call of [link_nodes] on the
    switches [i] and [j] and the [links.append] that follows it. *)
Definition stp_link (lab_id : pyval) (switches links : list pyval)
    (i j : nat) : M (list pyval) :=
  node_id_a <- switch_field switches i "id" ;;
  node_id_b <- switch_field switches j "id" ;;
  link <- link_nodes (fmt lab_id) (fmt node_id_a) (fmt node_id_b) ;;
  name_a <- switch_field switches i "name" ;;
  name_b <- switch_field switches j "name" ;;
  link_id <- py_get link "link_id" ;;
  ret (links ++ [PyDict [(PyStr "from", name_a);
                         (PyStr "to", name_b);
                         (PyStr "id", link_id)]])%list.

(** The dict [create_stp_lab] returns at its last line. *)
Definition stp_lab_created (lab_id : pyval) (title : string)
    (switches links : list pyval) (interfaces_per_switch : Z) : pyval :=
  PyDict
    [(PyStr "lab_id", lab_id);
     (PyStr "title", PyStr title);
     (PyStr "switches", PyList switches);
     (PyStr "links", PyList links);
     (PyStr "status", PyStr "success");
     (PyStr "message",
      PyStr ("Created STP lab with "
             ++ str_int (Z.of_nat (List.length switches))
             ++ " switches, each having " ++ str_int interfaces_per_switch
             ++ " interfaces"))].

(** [create_stp_lab]. *)
Definition create_stp_lab (title description : string)
    (num_switches interfaces_per_switch : Z) : M pyval :=
  absent <- session_absent ;;
  if absent then ret init_error_dict else
  try_except
    (lab_response <- create_lab title description ;;
     failed <- py_in "error" lab_response ;;
     if failed then ret lab_response else
     lab_id <- py_getitem lab_response "lab_id" ;;
     let switch := stp_switch lab_id interfaces_per_switch in
     let switches := [] in
     switches <- switch switches "SW1-Core" "core" 100 100 ;;
     switches <- switch switches "SW2-Core" "core" 300 100 ;;
     switches <-
       (if num_switches >? 2 then
          switches <- switch switches "SW3-Distribution" "distribution"
                        50 200 ;;
          switch switches "SW4-Distribution" "distribution" 350 200
        else ret switches) ;;
     switches <-
       (if num_switches >? 4 then
          switches <- switch switches "SW5-Access" "access" 150 300 ;;
          switch switches "SW6-Access" "access" 250 300
        else ret switches) ;;
     let link := stp_link lab_id switches in
     let links := [] in
     links <-
       (if (2 <=? List.length switches)%nat then link links 0%nat 1%nat
        else ret links) ;;
     links <-
       (if (4 <=? List.length switches)%nat then
          links <- link links 0%nat 2%nat ;;
          links <- link links 0%nat 3%nat ;;
          links <- link links 1%nat 2%nat ;;
          links <- link links 1%nat 3%nat ;;
          link links 2%nat 3%nat
        else ret links) ;;
     links <-
       (if (6 <=? List.length switches)%nat then
          links <- link links 2%nat 4%nat ;;
          links <- link links 2%nat 5%nat ;;
          links <- link links 3%nat 4%nat ;;
          links <- link links 3%nat 5%nat ;;
          link links 4%nat 5%nat
        else ret links) ;;
     ret (stp_lab_created lab_id title switches links interfaces_per_switch))
    (fun e => ret (error_dict ("Error creating STP lab: " ++ str_exn e))).

(* ===================================================================== *)
(** ** Spanning-tree configuration *)
(* ===================================================================== *)

(** [config_lines.extend(block)]; [config_lines.append(line)] is
    [extend config_lines [line]]. *)
Definition extend (config_lines block : list string) : list string :=
  (config_lines ++ block)%list.
Arguments extend config_lines block : clear scopes.

(** The [for vlan_id in vlans] loops of the per-VLAN modes. *)
Fixpoint vlan_priorities (config_lines : list string) (vlans : list Z)
    (priority : string) : list string :=
  match vlans with
  | [] => config_lines
  | vlan_id :: rest =>
      vlan_priorities
        (extend config_lines
           ["spanning-tree vlan " ++ str_int vlan_id ++ " priority "
            ++ priority])
        rest priority
  end.

(** The [if role == "root": ... elif role == "secondary": ... else: ...]
    of the per-VLAN modes. *)
Definition per_vlan_priorities (config_lines : list string) (role : string)
    (vlans : list Z) : list string :=
  if (role =? "root")%string then vlan_priorities config_lines vlans "4096"
  else if (role =? "secondary")%string
  then vlan_priorities config_lines vlans "8192"
  else vlan_priorities config_lines vlans "32768".

(** The loop that declares the VLANs. *)
Fixpoint vlan_declarations (config_lines : list string) (vlans : list Z)
    : list string :=
  match vlans with
  | [] => config_lines
  | vlan_id :: rest =>
      if vlan_id =? 1 then vlan_declarations config_lines rest
      else
        vlan_declarations
          (extend config_lines
             ["vlan " ++ str_int vlan_id;
              " name VLAN" ++ str_int vlan_id;
              "!"])
          rest
  end.

(** The loop over [mst_instance_mapping.items()]. *)
Fixpoint mst_instances (config_lines : list string)
    (items : list (Z * list Z)) : list string :=
  match items with
  | [] => config_lines
  | (instance, mapped_vlans) :: rest =>
      let vlan_list := concat "," (map str_int mapped_vlans) in
      mst_instances
        (extend config_lines
           [" instance " ++ str_int instance ++ " vlan " ++ vlan_list])
        rest
  end.

(** The blocks of lines of [generate_switch_stp_config], in the order of
    the source. *)
Definition header_lines (switch_name : string) : list string :=
  ["! " ++ switch_name ++ " Configuration";
   "!";
   "hostname " ++ switch_name;
   "!";
   "! VLANs Configuration"].

Definition mst_region_lines (switch_name : string) : list string :=
  ["!";
   "! Configure MST instance to VLAN mapping";
   "spanning-tree mst configuration";
   " name " ++ switch_name ++ "-REGION";
   " revision 1"].

Definition default_mst_instances : list string :=
  [" instance 1 vlan 10, 20";
   " instance 2 vlan 30, 40"].

Definition mst_root_lines : list string :=
  ["!";
   "! Set as MST root for instance 0 (CST)";
   "spanning-tree mst 0 priority 4096";
   "spanning-tree mst 1 priority 4096";
   "spanning-tree mst 2 priority 4096"].

Definition mst_secondary_lines : list string :=
  ["!";
   "! Set as MST secondary root";
   "spanning-tree mst 0 priority 8192";
   "spanning-tree mst 1 priority 8192";
   "spanning-tree mst 2 priority 8192"].

Definition mst_normal_lines : list string :=
  ["!";
   "! Normal switch (not root)";
   "spanning-tree mst 0 priority 32768";
   "spanning-tree mst 1 priority 32768";
   "spanning-tree mst 2 priority 32768"].

Definition common_stp_lines : list string :=
  ["!";
   "! Common STP features";
   "spanning-tree extend system-id";
   "spanning-tree portfast edge default";
   "spanning-tree portfast bpduguard default"].

Definition interface_lines : list string :=
  ["!";
   "! Configure interfaces";
   "!";
   "interface range GigabitEthernet0/0 - 7";
   " switchport trunk encapsulation dot1q";
   " switchport mode trunk";
   " switchport trunk allowed vlan all";
   " no shutdown"].

(** [config_lines] of [generate_switch_stp_config] before its last
    [extend], the one that reads [vlans[0]]. *)
Definition stp_config_lines (switch_name stp_mode role : string)
    (vlans : list Z) (mst_instance_mapping : option (list (Z * list Z)))
    : list string :=
  let config_lines := header_lines switch_name in
  let config_lines := vlan_declarations config_lines vlans in
  let config_lines := extend config_lines ["! Spanning-tree Configuration"] in
  let config_lines :=
    if (stp_mode =? "mst")%string then
      let config_lines := extend config_lines ["spanning-tree mode mst"] in
      let config_lines :=
        extend config_lines (mst_region_lines switch_name) in
      let config_lines :=
        match mst_instance_mapping with
        | Some ((_ :: _) as mapping) => mst_instances config_lines mapping
        | _ => extend config_lines default_mst_instances
        end in
      if (role =? "root")%string then extend config_lines mst_root_lines
      else if (role =? "secondary")%string
      then extend config_lines mst_secondary_lines
      else extend config_lines mst_normal_lines
    else if (stp_mode =? "rapid-pvst")%string then
      per_vlan_priorities
        (extend config_lines ["spanning-tree mode rapid-pvst"]) role vlans
    else
      per_vlan_priorities
        (extend config_lines ["spanning-tree mode pvst"]) role vlans in
  let config_lines := extend config_lines common_stp_lines in
  extend config_lines interface_lines.

(** The last [extend]: the management interface, addressed after the
    first VLAN of the list. *)
Definition management_lines (first_vlan : Z) : list string :=
  ["!";
   "! Management interface";
   "interface Vlan1";
   " ip address 10.0.0." ++ str_int first_vlan ++ " 255.255.255.0";
   " no shutdown";
   "!";
   "! End of configuration"].

(** [generate_switch_stp_config]: no [try] in this tool. *)
Definition generate_switch_stp_config (switch_name stp_mode role : string)
    (vlans : list Z) (mst_instance_mapping : option (list (Z * list Z)))
    : M pyval :=
  let config_lines :=
    stp_config_lines switch_name stp_mode role vlans mst_instance_mapping in
  match vlans with
  | [] => raise (IndexError "list index out of range")
  | first_vlan :: _ =>
      ret (PyStr (concat nl (extend config_lines
                               (management_lines first_vlan))))
  end.

(* ===================================================================== *)
(** ** Vocabulary of the statements *)
(* ===================================================================== *)

(** The world once the call [ev] has been made on the client. *)
Definition after (w : World) (ev : Event) : World :=
  mkWorld (cml_auth w) (trace w ++ [ev])
          (clock w + Z.of_N (fst (transport (trace w) ev))).

(** The [CMLAuth] object once [authenticate] has stored [tok] and has
    set the Authorization header of the client. *)
Definition authenticated (self : CMLAuth) (tok : string) : CMLAuth :=
  mkCMLAuth (base_url self) (username self) (password self) (Some tok)
            (verify_ssl self) (Some (bearer (Some tok))).

(** The [CMLAuth] object when [authenticate] has stored [tok] and could
    not set the header: the header of the client is the one it had. *)
Definition token_stored (self : CMLAuth) (tok : string) : CMLAuth :=
  mkCMLAuth (base_url self) (username self) (password self) (Some tok)
            (verify_ssl self) (client_authorization self).

Definition with_session (w : World) (self : CMLAuth) : World :=
  mkWorld (Some self) (trace w) (clock w).

(** The call [request] sends for a token. *)
Definition call (method endpoint : string) (kwargs : Kwargs)
    (tok : option string) : Event :=
  ClientRequest method endpoint (with_authorization kwargs (bearer tok)).

(** [request] after its first statement. *)
Definition send (method endpoint : string) (kwargs : Kwargs) : M Response :=
  self <- get_self ;;
  let kwargs := with_authorization kwargs (bearer (token self)) in
  try_except
    (response <- client_call (ClientRequest method endpoint kwargs) ;;
     response <-
       (if status_code response =? 401 then
          authenticate ;;
          self <- get_self ;;
          let kwargs := with_authorization kwargs (bearer (token self)) in
          client_call (ClientRequest method endpoint kwargs)
        else ret response) ;;
     raise_for_status response ;;
     ret response)
    (fun e => raise e).

(** A program that ends, and whose events all satisfy [P]; the clock never
    goes back and a session, once there, stays. *)
Definition grows (P : Event -> Prop) (w w' : World) : Prop :=
  clock w <= clock w'
  /\ (cml_auth w <> None -> cml_auth w' <> None)
  /\ exists evs, trace w' = (trace w ++ evs)%list /\ Forall P evs.

Definition runs {A} (P : Event -> Prop) (m : M A) : Prop :=
  forall w, grows P w (snd (m w)) /\ fst (m w) <> OutOfFuel.

(** Events of the credential exchange of [authenticate]. *)
Definition is_auth_event (ev : Event) : Prop :=
  match ev with
  | ClientPost _ _ | ClientGet _ => True
  | _ => False
  end.

(** Describing one interface: the detail request of the search loop of
    [link_nodes] and its decoding. *)
Definition describe (lab_id : string) (interface_id : pyval) : M pyval :=
  interface_detail <- request "GET"
    (interface_endpoint lab_id interface_id) no_kwargs ;;
  json interface_detail.

(** The world after describing the interfaces [l] one after the other. *)
Definition world_after_describing (lab_id : string) (l : list pyval)
    (w : World) : World :=
  fold_left (fun w i => snd (describe lab_id i w)) l w.

(** Described one after the other from [w], every interface of [l] shows
    a description that is not both physical and free. *)
Fixpoint none_available (lab_id : string) (l : list pyval) (w : World)
    : Prop :=
  match l with
  | [] => True
  | i :: rest =>
      match describe lab_id i w with
      | (Ok (PyDict d), w1) =>
          physical_and_free d = false /\ none_available lab_id rest w1
      | _ => False
      end
  end.

(** Either node lacks an available interface: searched from [w], the
    interfaces [ids_a] of the first node show none that is physical and
    free; or they show a first one, [found], and then the interfaces
    [ids_b] of the second node show none. *)
Definition lacks_available (lab_id : string) (ids_a ids_b : list pyval)
    (w : World) : Prop :=
  none_available lab_id ids_a w
  \/ exists before found rest d,
       ids_a = (before ++ found :: rest)%list
       /\ none_available lab_id before w
       /\ fst (describe lab_id found (world_after_describing lab_id before w))
          = Ok (PyDict d)
       /\ physical_and_free d = true
       /\ truthy found = true
       /\ none_available lab_id ids_b
            (world_after_describing lab_id (before ++ [found]) w).

(** The endpoint [link_nodes] lists the interfaces of a node from. *)
Definition node_interfaces_endpoint (lab_id node_id : string) : string :=
  "/api/v0/labs/" ++ lab_id ++ "/nodes/" ++ node_id
  ++ "/interfaces?operational=true".

(** Events that are not a POST made through [request]. *)
Definition no_post (ev : Event) : Prop := is_post_request ev = false.

(** Events of one round of the poller for [lab_id]: the state request of
    a node, or the credential exchange of a re-authentication. *)
Definition node_poll_event (lab_id : string) (ev : Event) : Prop :=
  match ev with
  | ClientPost _ _ | ClientGet _ => True
  | ClientRequest m _ _ => m = "GET" /\ is_node_poll lab_id ev = true
  | Sleep _ => False
  end.

(** Events of the polling loop: those of its rounds, and sleeps of 5. *)
Definition poller_event (lab_id : string) (ev : Event) : Prop :=
  node_poll_event lab_id ev \/ ev = Sleep 5.

(** Events that are neither a per-node state request nor a sleep. *)
Definition not_polling (lab_id : string) (ev : Event) : Prop :=
  is_node_poll lab_id ev = false /\ is_sleep ev = false.

(** Events of describing interfaces of [l]: a detail request for one of
    them, or the credential exchange of a re-authentication. *)
Definition detail_request_of (lab_id : string) (l : list pyval)
    (ev : Event) : Prop :=
  match ev with
  | ClientPost _ _ | ClientGet _ => True
  | ClientRequest m e _ =>
      m = "GET" /\ In e (map (interface_endpoint lab_id) l)
  | Sleep _ => False
  end.

(** The link identifier an answer of the link endpoint carries, with the
    decoded answer. *)
Definition link_id_of (r : result Response) : option (pyval * pyval) :=
  match r with
  | Ok response =>
      match resp_json response with
      | Some (PyDict d) =>
          let link_id := dict_get_default d "id" PyNone in
          if truthy link_id then Some (link_id, PyDict d) else None
      | _ => None
      end
  | _ => None
  end.

(** The JSON payloads POSTed through [request], in order. *)
Definition payloads (evs : list Event) : list pyval :=
  flat_map (fun ev =>
    match ev with
    | ClientRequest m _ kw =>
        if (m =? "POST")%string
        then match kw_json kw with Some j => [j] | None => [] end
        else []
    | _ => []
    end) evs.

(** [s.startswith(c)] and [s.endswith(c)] for one character. *)
Definition starts_with (c : ascii) (s : string) : bool :=
  match s with
  | String c' _ => Ascii.eqb c' c
  | EmptyString => false
  end.

Definition ends_with (c : ascii) (s : string) : bool :=
  starts_with c (string_rev s).

(** The keywords of a call are those of the caller, but for the
    Authorization header, which is the bearer of some token. *)
Definition keeps_keywords (kwargs : Kwargs) (kw : Kwargs) : Prop :=
  kw_json kw = kw_json kwargs
  /\ kw_content kw = kw_content kwargs
  /\ (exists tok, authorization_of kw = Some (bearer tok))
  /\ forall k, k <> "Authorization" ->
       headers_get (match kw_headers kw with Some h => h | None => [] end) k
       = headers_get (match kw_headers kwargs with Some h => h | None => [] end)
                     k.

(** Events of a call of [request]: the credential exchange, or the call
    with the keywords of the caller. *)
Definition request_event (method endpoint : string) (kwargs : Kwargs)
    (ev : Event) : Prop :=
  match ev with
  | ClientPost url _ => url = "/api/v0/authenticate"
  | ClientGet url => url = "/api/v0/authok"
  | ClientRequest m e kw =>
      m = method /\ e = endpoint /\ keeps_keywords kwargs kw
  | Sleep _ => False
  end.

(** What a call of the client raises when it is not answered 2xx. *)
Definition failure (out : Outcome) : exn :=
  match out with
  | Responded r => HTTPStatusError r
  | Failed msg => TransportError msg
  end.

(** A coroutine that never raises: every exception is handled inside. *)
Definition never_raises {A} (m : M A) : Prop :=
  forall w e, fst (m w) <> Raise e.

(** Whatever a coroutine returns satisfies [Q]. *)
Definition returns {A} (Q : A -> Prop) (m : M A) : Prop :=
  forall w a w', m w = (Ok a, w') -> Q a.

(** The entry [index_by_id] makes for an item whose [id] is a non-empty
    str; no entry for an item without one. *)
Definition entry_of (item : pyval) : list (pyval * pyval) :=
  match item with
  | PyDict d =>
      match dict_get d "id" with
      | Some (PyStr k) => if (k =? "")%string then [] else [(PyStr k, item)]
      | _ => []
      end
  | _ => []
  end.

(** An object whose [id] is a str, [None] or absent. *)
Definition has_plain_id (item : pyval) : Prop :=
  exists d,
    item = PyDict d
    /\ (dict_get d "id" = None \/ dict_get d "id" = Some PyNone
        \/ exists k, dict_get d "id" = Some (PyStr k)).

(** What [get_physical_interfaces] may return: a text, or a non-empty
    list of interface descriptions each found physical. *)
Definition physical_listing (v : pyval) : Prop :=
  (exists s, v = PyStr s)
  \/ exists l,
       v = PyList l /\ l <> []
       /\ Forall (fun x => exists d, x = PyDict d /\ is_physical d = true) l.

(** A str with a white-space character. *)
Definition has_space (s : string) : bool :=
  existsb py_isspace (list_ascii_of_string s).

(** The three results of [create_link_v3]. *)
Definition link_v3_result (a b : string) (v : pyval) : Prop :=
  v = init_error_dict
  \/ v = all_formats_failed
  \/ exists link_id result,
       truthy link_id = true /\ v = link_created link_id result a b.

(** The session [initialize_client] installs before it authenticates. *)
Definition installed (base_url username password : string)
    (verify_ssl : bool) : CMLAuth :=
  mkCMLAuth (with_scheme base_url) username password None verify_ssl None.

(** [url.startswith(('http://', 'https://'))]. *)
Definition has_scheme (url : string) : bool :=
  prefix "http://" url || prefix "https://" url.

(** The text [initialize_client] returns for an exception. *)
Definition initialize_error (e : exn) : pyval :=
  match e with
  | HTTPStatusError _ => PyStr ("Authentication failed: " ++ str_exn e)
  | _ => PyStr ("Error connecting to CML: " ++ str_exn e)
  end.

(** The text [initialize_client] returns once authenticated. *)
Definition initialized_message (base_url : string) (verify_ssl : bool)
    : pyval :=
  PyStr ("Successfully authenticated with CML at " ++ base_url
         ++ " (SSL verification: "
         ++ (if verify_ssl then "enabled"
             else "disabled (accepting self-signed certificates)")
         ++ ")").

(** What [list_node_definitions] keeps of a definition given in a dict:
    three fields, with defaults. *)
Definition summary_of (node_info : pyval) : pyval :=
  match node_info with
  | PyDict d =>
      PyDict [(PyStr "description", dict_get_default d "description" (PyStr ""));
              (PyStr "type", dict_get_default d "type" (PyStr ""));
              (PyStr "interfaces", dict_get_default d "interfaces" (PyList []))]
  | _ => node_info
  end.

Definition summaries (d : list (pyval * pyval)) : list (pyval * pyval) :=
  map (fun kv => (fst kv, summary_of (snd kv))) d.

(** An entry of a JSON object of objects: a str key and a dict. *)
Definition object_entry (kv : pyval * pyval) : Prop :=
  (exists k, fst kv = PyStr k) /\ exists info, snd kv = PyDict info.

(** The success dict of [add_node] around the answer [d] of the platform,
    whose [id] is truthy. *)
Definition node_created (label : string) (v : pyval) : Prop :=
  exists d,
    truthy (dict_get_default d "id" PyNone) = true
    /\ v = PyDict
         [(PyStr "node_id", dict_get_default d "id" PyNone);
          (PyStr "message",
           PyStr ("Added node '" ++ label ++ "' with ID: "
                  ++ fmt (dict_get_default d "id" PyNone)));
          (PyStr "status", PyStr "success");
          (PyStr "details", PyDict d)].

(** The results of [add_node] when [create_node] was not imported. *)
Definition add_node_result (label : string) (v : pyval) : Prop :=
  v = init_error_dict
  \/ (exists e, v = error_dict ("Error adding node: " ++ str_exn e))
  \/ (exists d,
        truthy (dict_get_default d "id" PyNone) = false
        /\ v = PyDict
             [(PyStr "error",
               PyStr "Failed to create node, no node ID returned");
              (PyStr "response", PyDict d)])
  \/ node_created label v.

(** The keywords of the POST of [add_node]. *)
Definition add_node_kwargs (label node_definition : string) (x y : Z)
    (ram cpu_limit parameters : pyval) : Kwargs :=
  mkKwargs
    (Some (PyDict (node_data_of label node_definition x y ram cpu_limit
                                parameters)))
    None json_headers.

(** What [create_interface] returns for the decoded answer [result] of
    the platform. *)
Definition interface_result (node_id : string) (slot : Z) (result : pyval)
    : pyval :=
  match result with
  | PyList (PyDict first :: _) =>
      interface_created (dict_get_default first "id" PyNone)
                        (dict_get_default first "label" PyNone)
                        node_id slot result
  | PyList (first :: _) =>
      error_dict ("Error creating interface: "
                  ++ str_exn (AttributeError first "get"))
  | PyDict d =>
      if truthy (dict_get_default d "id" PyNone)
      then interface_created (dict_get_default d "id" PyNone)
                             (dict_get_default d "label" PyNone)
                             node_id slot result
      else unexpected_interface_response result
  | _ => unexpected_interface_response result
  end.

(** The keywords of the POST of [create_interface]. *)
Definition interface_kwargs (node_id : string) (slot : Z) : Kwargs :=
  mkKwargs (Some (PyDict [(PyStr "node", PyStr node_id);
                          (PyStr "slot", PyInt slot)]))
           None None.

(** The lines of a configuration that begin with [p]. *)
Definition lines_starting (p : string) (lines : list string) : list string :=
  filter (prefix p) lines.

(** The priority [generate_switch_stp_config] gives a role, and the mode
    it configures for a mode name. *)
Definition priority_of (role : string) : string :=
  if (role =? "root")%string then "4096"
  else if (role =? "secondary")%string then "8192"
  else "32768".

Definition mode_of (stp_mode : string) : string :=
  if (stp_mode =? "mst")%string then "mst"
  else if (stp_mode =? "rapid-pvst")%string then "rapid-pvst"
  else "pvst".

(** The lines the loops of [generate_switch_stp_config] add for a VLAN
    they declare, for a VLAN they give a priority, and for an MST
    instance. *)
Definition vlan_declaration (vlan_id : Z) : list string :=
  ["vlan " ++ str_int vlan_id; " name VLAN" ++ str_int vlan_id; "!"].

Definition vlan_priority (priority : string) (vlan_id : Z) : string :=
  "spanning-tree vlan " ++ str_int vlan_id ++ " priority " ++ priority.

Definition mst_instance (item : Z * list Z) : string :=
  " instance " ++ str_int (fst item) ++ " vlan "
  ++ concat "," (map str_int (snd item)).

(** Events that are not a DELETE made through [request]. *)
Definition no_delete (ev : Event) : Prop :=
  match ev with
  | ClientRequest m _ _ => m <> "DELETE"
  | _ => True
  end.

(** A result of a creation tool that the builders take for a success: a
    dict without the key [error], with the identifier under [node_id]. *)
Definition created_as (v node_id : pyval) : Prop :=
  exists d,
    v = PyDict d /\ dict_mem d "error" = false
    /\ dict_get d "node_id" = Some node_id.

(** The lab the platform answers the POST of a builder with. *)
Definition lab_created_as (response : Response) (lab_id : pyval) : Prop :=
  exists d,
    resp_json response = Some (PyDict d)
    /\ lab_id = dict_get_default d "id" PyNone
    /\ truthy lab_id = true.

(** ["error" in v] holds. *)
Definition has_error (v : pyval) : Prop :=
  forall w, py_in "error" v w = (Ok true, w).

(** The numbers of switches and of links of an STP lab asked for
    [num_switches] switches. *)
Definition stp_switches (num_switches : Z) : nat :=
  if num_switches >? 4 then 6 else if num_switches >? 2 then 4 else 2.

Definition stp_links (num_switches : Z) : nat :=
  if num_switches >? 4 then 11 else if num_switches >? 2 then 6 else 1.

(** What [create_stp_lab] returns: a value with an [error], or the dict
    of a lab with the switches and links of its size. *)
Definition stp_lab_result (title : string)
    (num_switches interfaces_per_switch : Z) (v : pyval) : Prop :=
  has_error v
  \/ exists lab_id switches links,
       v = stp_lab_created lab_id title switches links interfaces_per_switch
       /\ List.length switches = stp_switches num_switches
       /\ List.length links = stp_links num_switches.

(** A coroutine that always ends with a value: it neither raises nor
    runs for ever. *)
Definition always_returns {A} (m : M A) : Prop :=
  forall w, exists a w', m w = (Ok a, w').

(* ===================================================================== *)
(** ** Properties *)
(* ===================================================================== *)

(** *** Running coroutines *)

Lemma bind_ok {A B} (m : M A) (k : A -> M B) w a w' :
  m w = (Ok a, w') -> bind m k w = k a w'.
Proof. intros H. unfold bind. now rewrite H. Qed.

Lemma try_except_ok {A} (body : M A) handler w a w' :
  body w = (Ok a, w') -> try_except body handler w = (Ok a, w').
Proof. intros H. unfold try_except. now rewrite H. Qed.

(** The guard [if not cml_auth: return error] of every tool. *)
Lemma guard_absent {A} (err : A) (body : M A) w :
  cml_auth w = None ->
  (absent <- session_absent ;; if absent then ret err else body) w = (Ok err, w).
Proof. intros H. unfold bind, session_absent. now rewrite H. Qed.

Lemma guard_present {A} (err : A) (body : M A) w self :
  cml_auth w = Some self ->
  (absent <- session_absent ;; if absent then ret err else body) w = body w.
Proof. intros H. unfold bind, session_absent. now rewrite H. Qed.

(** *** Strings *)

Lemma substring_zero_zero s : substring 0 0 s = "".
Proof. now destruct s. Qed.

Lemma substring_split s : forall n m,
  substring 0 n s ++ substring n m s = substring 0 (n + m) s.
Proof.
  induction s as [|c s IH]; intros n m.
  - destruct n, m; reflexivity.
  - destruct n as [|n].
    + rewrite substring_zero_zero. reflexivity.
    + cbn [substring Nat.add append]. now rewrite IH.
Qed.

Lemma substring_all s : substring 0 (String.length s) s = s.
Proof. induction s as [|c s IH]; cbn; [reflexivity | now rewrite IH]. Qed.

Lemma substring_length s : forall n m,
  (n + m <= String.length s)%nat -> String.length (substring n m s) = m.
Proof.
  induction s as [|c s IH]; intros n m H; cbn in H.
  - assert (n = 0 /\ m = 0)%nat as [-> ->] by lia. reflexivity.
  - destruct n as [|n].
    + destruct m as [|m]; [reflexivity|].
      cbn. f_equal. apply (IH 0%nat m). lia.
    + cbn. apply IH. lia.
Qed.

Lemma py_range_36 k :
  py_range 0 (36 * k) 36 = map (fun j => (j * 36)%nat) (seq 0 k).
Proof.
  unfold py_range.
  replace ((36 * k - 0 + (36 - 1)) / 36)%nat with k; [reflexivity|].
  apply Nat.div_unique with (r := 35%nat); lia.
Qed.

Lemma uuid_chunks_36 s k :
  String.length s = (36 * k)%nat ->
  uuid_chunks s = map (fun j => substring (j * 36) 36 s) (seq 0 k).
Proof.
  intros H. unfold uuid_chunks, py_slice. rewrite H, py_range_36, map_map.
  apply map_ext. intros j. f_equal. lia.
Qed.

Lemma join_app l1 l2 : join (l1 ++ l2) = join l1 ++ join l2.
Proof.
  induction l1 as [|x l1 IH]; cbn; [reflexivity|].
  unfold join in IH. rewrite IH.
  clear. induction x as [|c x IHx]; cbn; [reflexivity | now rewrite IHx].
Qed.

Lemma append_empty_r s : s ++ "" = s.
Proof. induction s as [|c s IH]; cbn; [reflexivity | now rewrite IH]. Qed.

Lemma join_chunks s : forall k,
  join (map (fun j => substring (j * 36) 36 s) (seq 0 k))
  = substring 0 (k * 36) s.
Proof.
  induction k as [|k IH].
  - cbn. now rewrite substring_zero_zero.
  - rewrite seq_S, map_app, join_app, IH. cbn [map join fold_right Nat.add].
    rewrite append_empty_r, substring_split. f_equal. lia.
Qed.

(** The chunks of a string whose length is a multiple of 36. *)
Lemma uuid_chunks_spec s :
  (String.length s mod 36 = 0)%nat ->
  List.length (uuid_chunks s) = (String.length s / 36)%nat
  /\ Forall (fun c => String.length c = 36%nat) (uuid_chunks s)
  /\ join (uuid_chunks s) = s.
Proof.
  intros Hmod.
  assert (Hlen : String.length s = (36 * (String.length s / 36))%nat).
  { pose proof (Nat.div_mod_eq (String.length s) 36). lia. }
  set (k := (String.length s / 36)%nat) in *.
  rewrite (uuid_chunks_36 s k Hlen). repeat split.
  - now rewrite length_map, length_seq.
  - apply Forall_forall. intros c Hc. apply in_map_iff in Hc.
    destruct Hc as (j & <- & Hj). apply in_seq in Hj.
    apply substring_length. nia.
  - rewrite join_chunks. replace (k * 36)%nat with (String.length s) by lia.
    apply substring_all.
Qed.

(** *** Events, clock and termination of the calls *)

Lemma grows_refl P w : grows P w w.
Proof.
  repeat split; [lia | auto | exists []; split; [now rewrite app_nil_r | constructor]].
Qed.

Lemma grows_trans P w1 w2 w3 : grows P w1 w2 -> grows P w2 w3 -> grows P w1 w3.
Proof.
  intros (Hc1 & Hs1 & evs1 & Ht1 & Hp1) (Hc2 & Hs2 & evs2 & Ht2 & Hp2).
  repeat split; [lia | auto |].
  exists (evs1 ++ evs2)%list. split.
  - now rewrite Ht2, Ht1, app_assoc.
  - now apply Forall_app.
Qed.

Lemma runs_ret {A} P (a : A) : runs P (ret a).
Proof. intros w. cbn. split; [apply grows_refl | discriminate]. Qed.

Lemma runs_raise {A} P e : runs P (@raise A e).
Proof. intros w. cbn. split; [apply grows_refl | discriminate]. Qed.

Lemma runs_bind {A B} P (m : M A) (k : A -> M B) :
  runs P m -> (forall a, runs P (k a)) -> runs P (bind m k).
Proof.
  intros Hm Hk w. unfold bind. specialize (Hm w).
  destruct (m w) as [[a|e|] w1]; cbn in Hm; destruct Hm as [Hg Hf].
  - destruct (Hk a w1) as [Hg' Hf']. split; [|assumption].
    eapply grows_trans; eassumption.
  - split; [assumption | discriminate].
  - congruence.
Qed.

Lemma runs_try_except {A} P (body : M A) handler :
  runs P body -> (forall e, runs P (handler e)) ->
  runs P (try_except body handler).
Proof.
  intros Hm Hk w. unfold try_except. specialize (Hm w).
  destruct (body w) as [[a|e|] w1]; cbn in Hm; destruct Hm as [Hg Hf].
  - split; [assumption | discriminate].
  - destruct (Hk e w1) as [Hg' Hf']. split; [|assumption].
    eapply grows_trans; eassumption.
  - congruence.
Qed.

Lemma after_grows P w ev : P ev -> grows P w (after w ev).
Proof.
  intros Hev. repeat split; cbn; [lia | auto |].
  exists [ev]. split; [reflexivity | now constructor].
Qed.

Lemma client_call_eq ev w :
  client_call ev w
  = (match snd (transport (trace w) ev) with
     | Responded r => Ok r
     | Failed msg => Raise (TransportError msg)
     end, after w ev).
Proof.
  unfold client_call, after. destruct (transport (trace w) ev) as [lat [r|msg]];
    reflexivity.
Qed.

Lemma runs_client_call P ev : P ev -> runs P (client_call ev).
Proof.
  intros Hev w. rewrite client_call_eq. cbn. split.
  - now apply after_grows.
  - destruct (snd (transport (trace w) ev)); discriminate.
Qed.

Lemma runs_get_self P : runs P get_self.
Proof.
  intros w. unfold get_self. destruct (cml_auth w); cbn;
    (split; [apply grows_refl | discriminate]).
Qed.

Lemma runs_set_self P self : runs P (set_self self).
Proof.
  intros w. cbn. split; [|discriminate].
  repeat split; cbn; [lia | discriminate |].
  exists []. split; [now rewrite app_nil_r | constructor].
Qed.

Lemma runs_update_client_authorization P value :
  runs P (update_client_authorization value).
Proof.
  unfold update_client_authorization. destruct (header_encodable value).
  - apply runs_bind; [apply runs_get_self | intros; apply runs_set_self].
  - apply runs_raise.
Qed.

Lemma runs_session_absent P : runs P session_absent.
Proof. intros w. cbn. split; [apply grows_refl | discriminate]. Qed.

Lemma runs_loop_time P : runs P loop_time.
Proof. intros w. cbn. split; [apply grows_refl | discriminate]. Qed.

Lemma runs_raise_for_status P r : runs P (raise_for_status r).
Proof.
  unfold raise_for_status. destruct (is_success r);
    [apply runs_ret | apply runs_raise].
Qed.

Lemma runs_json P r : runs P (json r).
Proof.
  unfold json. destruct (resp_json r); [apply runs_ret | apply runs_raise].
Qed.

Lemma runs_py_get P v k : runs P (py_get v k).
Proof. destruct v; cbn; first [apply runs_ret | apply runs_raise]. Qed.

Lemma runs_py_get_default P v k d : runs P (py_get_default v k d).
Proof. destruct v; cbn; first [apply runs_ret | apply runs_raise]. Qed.

Lemma runs_py_items P v : runs P (py_items v).
Proof. destruct v; cbn; first [apply runs_ret | apply runs_raise]. Qed.

Lemma runs_py_iter P v : runs P (py_iter v).
Proof. destruct v; cbn; first [apply runs_ret | apply runs_raise]. Qed.

Lemma runs_py_len P v : runs P (py_len v).
Proof. destruct v; cbn; first [apply runs_ret | apply runs_raise]. Qed.

Create HintDb runs.
#[local] Hint Resolve runs_ret runs_raise runs_get_self runs_set_self
  runs_update_client_authorization runs_session_absent runs_loop_time runs_raise_for_status runs_json
  runs_py_get runs_py_get_default runs_py_items runs_py_iter runs_py_len
  : runs.

(** Decomposes a goal [runs P m] along the structure of [m]. *)
Ltac runs_step :=
  lazymatch goal with
  | |- runs _ (bind _ _) => apply runs_bind; [|intros]
  | |- runs _ (try_except _ _) => apply runs_try_except; [|intros]
  | |- runs _ (if ?b then _ else _) => destruct b
  | |- runs _ (match ?x with _ => _ end) => destruct x
  | |- runs _ _ => solve [auto with runs]
  end.

Lemma runs_authenticate P :
  (forall ev, is_auth_event ev -> P ev) -> runs P authenticate.
Proof.
  intros HP. unfold authenticate.
  repeat first
    [ apply runs_client_call; apply HP; exact I
    | runs_step ].
Qed.

Lemma headers_set_twice h k v v' :
  headers_set (headers_set h k v) k v' = headers_set h k v'.
Proof.
  induction h as [|[k' x] h IH]; cbn.
  - now rewrite String.eqb_refl.
  - destruct (k' =? k)%string eqn:E; cbn; rewrite E; [reflexivity|].
    now rewrite IH.
Qed.

Lemma with_authorization_twice kw v v' :
  with_authorization (with_authorization kw v) v' = with_authorization kw v'.
Proof.
  unfold with_authorization. cbn. now rewrite headers_set_twice.
Qed.

Lemma runs_request P method endpoint kwargs :
  (forall ev, is_auth_event ev -> P ev) ->
  (forall tok, P (call method endpoint kwargs tok)) ->
  runs P (request method endpoint kwargs).
Proof.
  intros HP Hcall. unfold request.
  repeat first
    [ apply runs_client_call; apply Hcall
    | apply runs_client_call; rewrite with_authorization_twice; apply Hcall
    | apply runs_authenticate; exact HP
    | runs_step ].
Qed.

(** *** Session manager *)

Lemma headers_get_set h k v : headers_get (headers_set h k v) k = Some v.
Proof.
  induction h as [|[k' x] h IH]; cbn.
  - now rewrite String.eqb_refl.
  - destruct (k' =? k)%string eqn:E; cbn; now rewrite E.
Qed.

Lemma authenticate_eq w self :
  cml_auth w = Some self ->
  authenticate w =
    let post := authenticate_post self in
    match snd (transport (trace w) post) with
    | Responded r =>
        if is_success r then
          let tok := strip_char dquote (text r) in
          if header_encodable (bearer (Some tok)) then
            (Ok tok,
             after (with_session (after w post) (authenticated self tok))
                   (ClientGet "/api/v0/authok"))
          else
            (Raise (UnicodeEncodeError (bearer (Some tok))),
             with_session (after w post) (token_stored self tok))
        else (Raise (HTTPStatusError r), after w post)
    | Failed msg => (Raise (TransportError msg), after w post)
    end.
Proof.
  intros Hs. unfold authenticate, bind at 1. unfold get_self. rewrite Hs.
  unfold bind at 1. fold (authenticate_post self). rewrite client_call_eq.
  cbv zeta.
  destruct (snd (transport (trace w) (authenticate_post self))) as [r|msg];
    [|reflexivity].
  unfold raise_for_status at 1, bind at 1.
  destruct (is_success r); [|reflexivity].
  cbn [ret]. unfold bind at 1. cbn [set_self]. unfold bind at 1.
  unfold update_client_authorization.
  destruct (header_encodable (bearer (Some (strip_char dquote (text r)))));
    [|reflexivity].
  unfold bind at 1. cbn [get_self set_self cml_auth token].
  unfold bind at 1.
  unfold try_except, bind at 1. rewrite client_call_eq.
  match goal with
  | |- context [snd (transport ?t ?e)] =>
      destruct (snd (transport t e)) as [r'|msg']; [|reflexivity]
  end.
  unfold raise_for_status. destruct (is_success r'); reflexivity.
Qed.

Lemma request_eq method endpoint kwargs w :
  request method endpoint kwargs w
  = (ensure_token ;; send method endpoint kwargs) w.
Proof.
  unfold request, ensure_token, send, bind, get_self.
  destruct (cml_auth w) as [self|]; [|reflexivity].
  destruct (no_token (token self)); [|reflexivity].
  destruct (authenticate w) as [[tok|e|] w1]; reflexivity.
Qed.

Lemma send_eq method endpoint kwargs w self :
  cml_auth w = Some self ->
  send method endpoint kwargs w =
    let first := call method endpoint kwargs (token self) in
    match snd (transport (trace w) first) with
    | Responded r1 =>
        if status_code r1 =? 401 then
          match authenticate (after w first) with
          | (Ok tok, w2) =>
              let retry := call method endpoint kwargs (Some tok) in
              (surfaced (snd (transport (trace w2) retry)), after w2 retry)
          | (Raise e, w2) => (Raise e, w2)
          | (OutOfFuel, w2) => (OutOfFuel, w2)
          end
        else (surfaced (Responded r1), after w first)
    | Failed msg => (Raise (TransportError msg), after w first)
    end.
Proof.
  intros Hs. unfold send, bind at 1. unfold get_self. rewrite Hs.
  cbv zeta. unfold try_except, bind at 1. fold (call method endpoint kwargs (token self)).
  rewrite client_call_eq.
  destruct (snd (transport (trace w) (call method endpoint kwargs (token self))))
    as [r1|msg]; [|reflexivity].
  destruct (status_code r1 =? 401) eqn:E401.
  - unfold bind at 1. unfold bind at 1.
    assert (Hs1 : cml_auth (after w (call method endpoint kwargs (token self)))
                  = Some self) by exact Hs.
    rewrite (authenticate_eq _ _ Hs1). cbv zeta.
    match goal with
    | |- context [snd (transport ?t ?e)] =>
        destruct (snd (transport t e)) as [ra|msga]; [|reflexivity]
    end.
    destruct (is_success ra); [|reflexivity].
    destruct (header_encodable (bearer (Some (strip_char dquote (text ra)))));
      [|reflexivity].
    unfold bind at 1. cbn [cml_auth after with_session token authenticated].
    rewrite with_authorization_twice.
    fold (call method endpoint kwargs (Some (strip_char dquote (text ra)))).
    rewrite client_call_eq.
    match goal with
    | |- context [snd (transport ?t ?e)] =>
        destruct (snd (transport t e)) as [r2|msg2]; [|reflexivity]
    end.
    unfold bind, raise_for_status, surfaced.
    destruct (is_success r2); reflexivity.
  - unfold bind, ret, raise_for_status, surfaced.
    destruct (is_success r1); reflexivity.
Qed.

(** C1 (as amended).  Take a call of [request] whose first statement left
    a session [self] in the world [w0] (with a token held, [w0] is the
    world of the call), and let the platform answer 401 to the call sent
    with the token of [self].  Then [authenticate] runs once more, and only
    once.  When the credentials are accepted, the call is sent a second
    time with the token just obtained in its Authorization header, the
    answer to that second call is what [request] returns or raises -- a
    second 401 is raised as an [HTTPStatusError] -- and nothing is sent
    after it.  When the credential exchange fails, its failure is raised
    and the call is not sent again; so it is when the token obtained
    cannot be encoded for the Authorization header of the client:
    [authenticate] raises [UnicodeEncodeError] with the token stored, and
    neither the token check nor the second call is made.  Either way the
    call is sent at most twice. *)
Theorem request_reauthenticates_once :
  forall method endpoint kwargs w w0 self r1,
    ensure_token w = (Ok tt, w0) ->
    cml_auth w0 = Some self ->
    snd (transport (trace w0) (call method endpoint kwargs (token self)))
      = Responded r1 ->
    status_code r1 = 401 ->
    let first := call method endpoint kwargs (token self) in
    let post := authenticate_post self in
    exists res w' evs,
      request method endpoint kwargs w = (res, w')
      /\ trace w' = (trace w0 ++ first :: post :: evs)%list
      /\ count is_authenticate_post (first :: post :: evs) = 1%nat
      /\ (count (is_call method endpoint) (first :: post :: evs) <= 2)%nat
      /\ match snd (transport (trace w0 ++ [first]) post) with
         | Responded ra =>
             if is_success ra then
               let tok := strip_char dquote (text ra) in
               let retry := call method endpoint kwargs (Some tok) in
               if header_encodable (bearer (Some tok)) then
                 evs = [ClientGet "/api/v0/authok"; retry]
                 /\ (exists kw,
                       retry = ClientRequest method endpoint kw
                       /\ authorization_of kw = Some ("Bearer " ++ tok))
                 /\ option_map token (cml_auth w') = Some (Some tok)
                 /\ res = surfaced
                      (snd (transport
                              (trace w0
                               ++ [first; post; ClientGet "/api/v0/authok"])
                              retry))
                 /\ (forall r2,
                       snd (transport
                              (trace w0
                               ++ [first; post; ClientGet "/api/v0/authok"])
                              retry) = Responded r2 ->
                       status_code r2 = 401 ->
                       res = Raise (HTTPStatusError r2))
               else
                 evs = []
                 /\ res = Raise (UnicodeEncodeError (bearer (Some tok)))
                 /\ option_map token (cml_auth w') = Some (Some tok)
             else evs = [] /\ res = Raise (HTTPStatusError ra)
         | Failed msg => evs = [] /\ res = Raise (TransportError msg)
         end.
Proof.
  intros method endpoint kwargs w w0 self r1 Hensure Hs Hfirst H401 first post.
  pose proof (send_eq method endpoint kwargs w0 self Hs) as Hsend.
  cbv zeta in Hsend. rewrite Hfirst, H401 in Hsend.
  cbn [Z.eqb Pos.eqb] in Hsend.
  assert (Hs1 : cml_auth (after w0 (call method endpoint kwargs (token self)))
                = Some self) by exact Hs.
  rewrite (authenticate_eq _ _ Hs1) in Hsend. cbv zeta in Hsend.
  cbn [trace after] in Hsend. fold first post in Hsend.
  rewrite request_eq, (bind_ok _ _ _ _ _ Hensure), Hsend. clear Hsend.
  assert (Hcall : forall tok, is_call method endpoint
                                (call method endpoint kwargs tok) = true).
  { intros tok. cbn. now rewrite !String.eqb_refl. }
  destruct (snd (transport (trace w0 ++ [first]) post)) as [ra|msg].
  - destruct (is_success ra);
      [destruct (header_encodable
                   (bearer (Some (strip_char dquote (text ra))))) eqn:Henc|].
    + set (tok := strip_char dquote (text ra)) in *.
      set (retry := call method endpoint kwargs (Some tok)).
      eexists _, _, [ClientGet "/api/v0/authok"; retry]. split; [reflexivity|].
      cbn [trace after with_session]. rewrite <- !app_assoc. cbn [app].
      split; [reflexivity|].
      split; [reflexivity|].
      split.
      { unfold count. cbn [filter]. unfold first, retry. rewrite !Hcall.
        cbn. lia. }
      rewrite Henc.
      split; [reflexivity|].
      split; [eexists; split; [reflexivity | apply headers_get_set]|].
      split; [reflexivity|]. split; [reflexivity|].
      intros r2 Hr2 Hc2. fold retry in Hr2. rewrite Hr2.
      unfold surfaced, is_success. rewrite Hc2. reflexivity.
    + eexists _, _, []. split; [reflexivity|].
      cbn [trace after with_session].
      rewrite <- !app_assoc. cbn [app]. split; [reflexivity|].
      split; [reflexivity|].
      split; [|rewrite Henc; repeat split].
      unfold count. cbn [filter]. unfold first. rewrite Hcall. cbn. lia.
    + eexists _, _, []. split; [reflexivity|]. cbn [trace after].
      rewrite <- !app_assoc. cbn [app]. split; [reflexivity|].
      split; [reflexivity|].
      split; [|split; reflexivity].
      unfold count. cbn [filter]. unfold first. rewrite Hcall. cbn. lia.
  - eexists _, _, []. split; [reflexivity|]. cbn [trace after].
    rewrite <- !app_assoc. cbn [app]. split; [reflexivity|].
    split; [reflexivity|].
    split; [|split; reflexivity].
    unfold count. cbn [filter]. unfold first. rewrite Hcall. cbn. lia.
Qed.

(** *** The guard of the tools *)


(** *** Shapes of the interface-list responses *)

Lemma present_some w : cml_auth w <> None -> exists self, cml_auth w = Some self.
Proof. destruct (cml_auth w) as [self|]; [eauto | congruence]. Qed.

(** What [get_node_interfaces] returns once its request is answered with
    a body that decodes. *)
Lemma get_node_interfaces_ok lab_id node_id w response w' v :
  cml_auth w <> None ->
  request "GET"
    ("/api/v0/labs/" ++ lab_id ++ "/nodes/" ++ node_id ++ "/interfaces")
    no_kwargs w = (Ok response, w') ->
  resp_json response = Some v ->
  get_node_interfaces lab_id node_id w = (Ok (node_interfaces_result v), w').
Proof.
  intros Hs Hreq Hjson. destruct (present_some w Hs) as [self Hself].
  unfold get_node_interfaces. rewrite (guard_present _ _ _ _ Hself).
  apply try_except_ok. rewrite (bind_ok _ _ _ _ _ Hreq).
  unfold bind, json. now rewrite Hjson.
Qed.

(** C3 (as amended).  Let the interface-list endpoint answer with a single
    string [s].  When the length of [s] is a multiple of 36,
    [get_node_interfaces] returns the [len(s)/36] chunks of 36 characters
    of [s], in order (their concatenation is [s]), and
    [get_physical_interfaces] takes these chunks as its interface ids.
    For any other length [get_node_interfaces] returns [s] itself, not a
    list, and [get_physical_interfaces] returns [s] when it contains
    "Error" and otherwise the text "Unexpected interface response format"
    followed by [s]. *)
Theorem string_response_normalization :
  forall lab_id node_id w response w' s,
    cml_auth w <> None ->
    request "GET"
      ("/api/v0/labs/" ++ lab_id ++ "/nodes/" ++ node_id ++ "/interfaces")
      no_kwargs w = (Ok response, w') ->
    resp_json response = Some (PyStr s) ->
    if (String.length s mod 36 =? 0)%nat then
      get_node_interfaces lab_id node_id w
        = (Ok (PyList (map PyStr (uuid_chunks s))), w')
      /\ List.length (uuid_chunks s) = (String.length s / 36)%nat
      /\ Forall (fun c => String.length c = 36%nat) (uuid_chunks s)
      /\ join (uuid_chunks s) = s
      /\ physical_interface_ids (PyList (map PyStr (uuid_chunks s)))
         = inr (map PyStr (uuid_chunks s))
    else
      get_node_interfaces lab_id node_id w = (Ok (PyStr s), w')
      /\ get_physical_interfaces lab_id node_id w
         = (Ok (PyStr (if contains "Error" s then s
                       else "Unexpected interface response format: " ++ s)),
            w').
Proof.
  intros lab_id node_id w response w' s Hs Hreq Hjson.
  pose proof (get_node_interfaces_ok _ _ _ _ _ _ Hs Hreq Hjson) as Hget.
  unfold node_interfaces_result in Hget.
  destruct (String.length s mod 36 =? 0)%nat eqn:Emod.
  - apply Nat.eqb_eq in Emod.
    destruct (uuid_chunks_spec s Emod) as (Hlen & Hall & Hjoin).
    repeat split; assumption.
  - split; [assumption|].
    destruct (present_some w Hs) as [self Hself].
    unfold get_physical_interfaces. rewrite (guard_present _ _ _ _ Hself).
    apply try_except_ok. rewrite (bind_ok _ _ _ _ _ Hget).
    unfold physical_interface_ids. rewrite Emod.
    destruct (contains "Error" s); reflexivity.
Qed.

(** C10.  When the interface-list endpoint answers with the empty string,
    [get_node_interfaces] returns the empty list. *)
Theorem get_node_interfaces_empty_string :
  forall lab_id node_id w response w',
    cml_auth w <> None ->
    request "GET"
      ("/api/v0/labs/" ++ lab_id ++ "/nodes/" ++ node_id ++ "/interfaces")
      no_kwargs w = (Ok response, w') ->
    resp_json response = Some (PyStr "") ->
    get_node_interfaces lab_id node_id w = (Ok (PyList []), w').
Proof.
  intros lab_id node_id w response w' Hs Hreq Hjson.
  exact (get_node_interfaces_ok _ _ _ _ _ _ Hs Hreq Hjson).
Qed.

(** C4 (as amended).  The three call sites agree on a list, which each
    keeps as it is.  On a dict, [get_physical_interfaces] and [link_nodes]
    take the keys in insertion order while [get_node_interfaces] returns
    the dict itself.  On a string, [get_node_interfaces] (and
    [get_physical_interfaces] after it) cut chunks of 36 characters when
    the length is a multiple of 36; otherwise the former keeps the string
    and the latter returns a text instead of interface ids. *)
Theorem response_shapes_per_call_site :
  (forall l,
     node_interfaces_result (PyList l) = PyList l
     /\ physical_interface_ids (node_interfaces_result (PyList l)) = inr l
     /\ ensure_interface_list (PyList l) = PyList l)
  /\ (forall d,
        node_interfaces_result (PyDict d) = PyDict d
        /\ physical_interface_ids (node_interfaces_result (PyDict d))
           = inr (dict_keys d)
        /\ ensure_interface_list (PyDict d) = PyList (dict_keys d)
        /\ dict_keys d = map fst d)
  /\ (forall s,
        node_interfaces_result (PyStr s)
          = (if (String.length s mod 36 =? 0)%nat
             then PyList (map PyStr (uuid_chunks s)) else PyStr s)
        /\ physical_interface_ids (node_interfaces_result (PyStr s))
           = (if (String.length s mod 36 =? 0)%nat
              then inr (map PyStr (uuid_chunks s))
              else inl (PyStr (if contains "Error" s then s
                               else "Unexpected interface response format: "
                                    ++ s)))).
Proof.
  repeat split.
  unfold node_interfaces_result.
  destruct (String.length s mod 36 =? 0)%nat eqn:Emod.
  - reflexivity.
  - unfold physical_interface_ids. rewrite Emod.
    destruct (contains "Error" s); reflexivity.
Qed.

(** *** Link negotiation *)

Lemma request_not_out_of_fuel method endpoint kwargs w :
  fst (request method endpoint kwargs w) <> OutOfFuel.
Proof.
  apply (runs_request (fun _ => True)); auto.
Qed.

Lemma try_link_format_eq lab_id link_data a b w r w1 :
  request "POST" (links_endpoint lab_id) (mkKwargs (Some link_data) None None) w
    = (r, w1) ->
  try_link_format lab_id link_data a b w
  = (Ok (option_map (fun '(link_id, result) => link_created link_id result a b)
                    (link_id_of r)), w1).
Proof.
  intros Hreq.
  pose proof (request_not_out_of_fuel "POST" (links_endpoint lab_id)
                (mkKwargs (Some link_data) None None) w) as Hfuel.
  rewrite Hreq in Hfuel. cbn in Hfuel.
  unfold try_link_format, try_except, bind at 1. rewrite Hreq.
  destruct r as [response|e|]; [|reflexivity|congruence].
  unfold link_id_of, json, bind at 1.
  destruct (resp_json response) as [result|]; [|reflexivity].
  destruct result; try reflexivity.
  cbn. destruct (truthy (dict_get_default d "id" PyNone)); reflexivity.
Qed.

Lemma payloads_cons ev evs : payloads (ev :: evs) = (payloads [ev] ++ payloads evs)%list.
Proof. unfold payloads. cbn. now rewrite app_nil_r. Qed.

Lemma payloads_repeat d evs :
  Forall (fun ev => payloads [ev] = [] \/ payloads [ev] = [d]) evs ->
  exists n, payloads evs = repeat d n.
Proof.
  induction 1 as [|ev evs Hev _ [n IH]].
  - now exists 0%nat.
  - rewrite payloads_cons, IH. destruct Hev as [-> | ->].
    + now exists n.
    + now exists (S n).
Qed.

(** The POSTs of one attempt all carry the payload of the attempt. *)
Lemma request_post_payloads endpoint link_data w :
  exists evs n,
    trace (snd (request "POST" endpoint (mkKwargs (Some link_data) None None) w))
      = (trace w ++ evs)%list
    /\ payloads evs = repeat link_data n.
Proof.
  destruct (runs_request
              (fun ev => payloads [ev] = [] \/ payloads [ev] = [link_data])
              "POST" endpoint (mkKwargs (Some link_data) None None)) with (w := w)
    as [(_ & _ & evs & Htrace & Hall) _].
  - intros [] Hev; cbn in Hev; try contradiction; now left.
  - intros tok. now right.
  - destruct (payloads_repeat _ _ Hall) as [n Hn]. now exists evs, n.
Qed.

(** C2 (as amended).  [create_link_v3] first requests the link with the
    payload [{i1, i2}]; when that request brings a link identifier, the
    identifier is returned and nothing else is sent.  Whatever else
    happens to the first request -- a transport failure, a status error, a
    body that does not decode or has no identifier -- the link is
    requested again with the payload [{src_int, dst_int}], from the world
    the first request left, and the identifier of that answer is returned.
    When neither brings an identifier the tool returns the error "Failed to
    create link - all payload formats were tried and failed", which does
    not name the formats.  The POSTs of the first request all carry
    [{i1, i2}] and those of the second all carry [{src_int, dst_int}]. *)
Theorem create_link_v3_tries_formats_in_order :
  forall lab_id a b w r1 w1 r2 w2,
    cml_auth w <> None ->
    request "POST" (links_endpoint lab_id)
            (mkKwargs (Some (link_data_1 a b)) None None) w = (r1, w1) ->
    request "POST" (links_endpoint lab_id)
            (mkKwargs (Some (link_data_2 a b)) None None) w1 = (r2, w2) ->
    create_link_v3 lab_id a b w =
      match link_id_of r1 with
      | Some (link_id, result) => (Ok (link_created link_id result a b), w1)
      | None =>
          match link_id_of r2 with
          | Some (link_id, result) => (Ok (link_created link_id result a b), w2)
          | None => (Ok all_formats_failed, w2)
          end
      end
    /\ exists evs1 evs2 n1 n2,
         trace w1 = (trace w ++ evs1)%list
         /\ trace w2 = (trace w1 ++ evs2)%list
         /\ payloads evs1 = repeat (link_data_1 a b) n1
         /\ payloads evs2 = repeat (link_data_2 a b) n2.
Proof.
  intros lab_id a b w r1 w1 r2 w2 Hs H1 H2. split.
  - destruct (present_some w Hs) as [self Hself].
    unfold create_link_v3. rewrite (guard_present _ _ _ _ Hself).
    unfold try_except, bind at 1.
    rewrite (try_link_format_eq _ _ a b _ _ _ H1).
    destruct (link_id_of r1) as [[link_id result]|]; [reflexivity|].
    cbn [option_map]. unfold bind at 1.
    rewrite (try_link_format_eq _ _ a b _ _ _ H2).
    destruct (link_id_of r2) as [[link_id result]|]; reflexivity.
  - destruct (request_post_payloads (links_endpoint lab_id) (link_data_1 a b) w)
      as (evs1 & n1 & Ht1 & Hp1).
    destruct (request_post_payloads (links_endpoint lab_id) (link_data_2 a b) w1)
      as (evs2 & n2 & Ht2 & Hp2).
    rewrite H1 in Ht1. rewrite H2 in Ht2.
    now exists evs1, evs2, n1, n2.
Qed.

(** *** Interface resolution *)

Lemma find_available_interface_step lab_id i rest w :
  find_available_interface lab_id (i :: rest) w =
    match describe lab_id i w with
    | (Ok (PyDict d), w1) =>
        if physical_and_free d then (Ok (Some i), w1)
        else find_available_interface lab_id rest w1
    | (Ok v, w1) => (Raise (AttributeError v "get"), w1)
    | (Raise e, w1) => (Raise e, w1)
    | (OutOfFuel, w1) => (OutOfFuel, w1)
    end.
Proof.
  cbn [find_available_interface]. unfold describe, bind.
  destruct (request "GET" (interface_endpoint lab_id i) no_kwargs w)
    as [[response|e|] w1]; try reflexivity.
  unfold json. destruct (resp_json response) as [v|]; [|reflexivity].
  destruct v; cbn; try reflexivity.
  destruct (physical_and_free d); reflexivity.
Qed.

(** A search over interfaces none of which is available describes them
    all and finds nothing. *)
Lemma find_available_interface_none lab_id l : forall w,
  none_available lab_id l w ->
  find_available_interface lab_id l w
  = (Ok None, world_after_describing lab_id l w).
Proof.
  induction l as [|i rest IH]; intros w Hnone.
  - reflexivity.
  - rewrite find_available_interface_step. cbn [none_available] in Hnone.
    cbn [world_after_describing fold_left].
    destruct (describe lab_id i w) as [[v|e|] w1]; try contradiction.
    destruct v; try contradiction. destruct Hnone as [Hfree Hrest].
    rewrite Hfree. cbn [snd]. now apply IH.
Qed.

(** A search whose first available interface is [found] selects it, in
    the world left by describing the interfaces up to it. *)
Lemma find_available_interface_found lab_id before : forall found rest w d w',
  none_available lab_id before w ->
  describe lab_id found (world_after_describing lab_id before w)
    = (Ok (PyDict d), w') ->
  physical_and_free d = true ->
  find_available_interface lab_id (before ++ found :: rest) w
    = (Ok (Some found), w')
  /\ w' = world_after_describing lab_id (before ++ [found]) w.
Proof.
  induction before as [|i before IH];
    intros found rest w d w' Hnone Hfound Hfree.
  - cbn [app world_after_describing fold_left] in *.
    rewrite find_available_interface_step, Hfound, Hfree. now split.
  - cbn [app]. rewrite find_available_interface_step.
    cbn [none_available] in Hnone.
    cbn [world_after_describing fold_left] in *.
    destruct (describe lab_id i w) as [[v|e|] w1]; try contradiction.
    destruct v; try contradiction. destruct Hnone as [Hi Hnone].
    rewrite Hi. cbn [snd] in *. now apply (IH found rest w1 d w').
Qed.

Lemma runs_describe_detail lab_id l i :
  In i l -> runs (detail_request_of lab_id l) (describe lab_id i).
Proof.
  intros Hin. unfold describe. apply runs_bind; [|intros; apply runs_json].
  apply runs_request.
  - intros [] Hev; cbn in Hev; try contradiction; exact I.
  - intros tok. split; [reflexivity|]. now apply in_map.
Qed.

Lemma world_after_describing_detail lab_id l0 l : forall w,
  incl l l0 ->
  grows (detail_request_of lab_id l0) w (world_after_describing lab_id l w).
Proof.
  induction l as [|i l IH]; intros w Hincl.
  - apply grows_refl.
  - cbn [world_after_describing fold_left].
    eapply grows_trans.
    + apply (runs_describe_detail lab_id l0 i); apply Hincl; now left.
    + apply IH. intros x Hx. apply Hincl. now right.
Qed.

(** The search loop of [link_nodes] stops at the first interface that
    passes its test, [physical_and_free]: the type field of the
    description is "physical" and [is_connected] is [False].  Let the
    interfaces of a node be [before], then [found], then [rest], where the
    interfaces of [before], described one after the other, do not pass the
    test and [found], described next, passes it.  The loop selects
    [found], and the world it leaves is the world left by describing
    [before] and [found]: the requests it made are detail requests for the
    interfaces of [before] and for [found] (with the credential exchanges
    of re-authentications), and nothing is requested for the interfaces of
    [rest].  The test has no rule for a description without a type, which
    [is_physical] of [get_physical_interfaces] counts as physical when it
    has a slot. *)
Theorem find_available_interface_first :
  forall lab_id before found rest w d w',
    none_available lab_id before w ->
    describe lab_id found (world_after_describing lab_id before w)
      = (Ok (PyDict d), w') ->
    physical_and_free d = true ->
    find_available_interface lab_id (before ++ found :: rest) w
      = (Ok (Some found), w')
    /\ w' = world_after_describing lab_id (before ++ [found]) w
    /\ exists evs,
         trace w' = (trace w ++ evs)%list
         /\ Forall (detail_request_of lab_id (before ++ [found])) evs.
Proof.
  intros lab_id before found rest w d w' Hnone Hfound Hfree.
  destruct (find_available_interface_found lab_id before found rest w d w'
              Hnone Hfound Hfree) as [Hfind Hw'].
  split; [exact Hfind|]. split; [exact Hw'|].
  destruct (world_after_describing_detail lab_id (before ++ [found])
              (before ++ [found]) w (incl_refl _)) as (_ & _ & evs & Ht & Hall).
  exists evs. rewrite Hw'. now split.
Qed.

Lemma runs_get_no_post endpoint kwargs :
  runs no_post (request "GET" endpoint kwargs).
Proof.
  apply runs_request.
  - intros [] Hev; cbn in Hev; try contradiction; reflexivity.
  - intros tok. reflexivity.
Qed.

Lemma runs_describe_no_post lab_id i : runs no_post (describe lab_id i).
Proof.
  unfold describe. apply runs_bind; [apply runs_get_no_post | intros; apply runs_json].
Qed.

Lemma world_after_describing_no_post lab_id l : forall w,
  grows no_post w (world_after_describing lab_id l w).
Proof.
  induction l as [|i l IH]; intros w.
  - apply grows_refl.
  - cbn [world_after_describing fold_left].
    eapply grows_trans; [apply (runs_describe_no_post lab_id i w) | apply IH].
Qed.

Lemma grows_no_post w w' :
  grows no_post w w' ->
  filter is_post_request (trace w') = filter is_post_request (trace w).
Proof.
  intros (_ & _ & evs & -> & Hall). rewrite filter_app.
  assert (H : filter is_post_request evs = []).
  { induction Hall as [|ev evs Hev _ IH]; [reflexivity|].
    cbn. unfold no_post in Hev. now rewrite Hev. }
  rewrite H. apply app_nil_r.
Qed.

Lemma request_grows_eq P method endpoint kwargs w r w' :
  runs P (request method endpoint kwargs) ->
  request method endpoint kwargs w = (r, w') -> grows P w w'.
Proof. intros Hruns Hreq. destruct (Hruns w) as [Hg _]. now rewrite Hreq in Hg. Qed.


(** *** Lab readiness poller *)

Lemma append_assoc_str (a b c : string) : (a ++ b) ++ c = a ++ (b ++ c).
Proof. induction a as [|x a IH]; cbn; [reflexivity | now rewrite IH]. Qed.

Lemma prefix_app s t : prefix s (s ++ t) = true.
Proof.
  induction s as [|c s IH]; cbn.
  - now destruct t.
  - destruct (ascii_dec c c); [exact IH | congruence].
Qed.

Lemma prefix_longer s c t : prefix (s ++ String c t) s = false.
Proof.
  induction s as [|x s IH]; cbn; [reflexivity|].
  destruct (ascii_dec x x); [exact IH | reflexivity].
Qed.

Lemma lab_endpoint_not_node_poll lab_id :
  prefix ("/api/v0/labs/" ++ lab_id ++ "/nodes/") ("/api/v0/labs/" ++ lab_id)
  = false.
Proof. rewrite <- append_assoc_str. apply prefix_longer. Qed.

Lemma nodes_endpoint_not_node_poll lab_id :
  prefix ("/api/v0/labs/" ++ lab_id ++ "/nodes/")
         ("/api/v0/labs/" ++ lab_id ++ "/nodes") = false.
Proof.
  replace ("/api/v0/labs/" ++ lab_id ++ "/nodes/")
    with (("/api/v0/labs/" ++ lab_id ++ "/nodes") ++ "/").
  - apply prefix_longer.
  - now rewrite !append_assoc_str.
Qed.

Lemma node_endpoint_is_node_poll lab_id x :
  prefix ("/api/v0/labs/" ++ lab_id ++ "/nodes/")
         ("/api/v0/labs/" ++ lab_id ++ "/nodes/" ++ x) = true.
Proof.
  replace ("/api/v0/labs/" ++ lab_id ++ "/nodes/" ++ x)
    with (("/api/v0/labs/" ++ lab_id ++ "/nodes/") ++ x).
  - apply prefix_app.
  - now rewrite !append_assoc_str.
Qed.

Lemma runs_get_lab_details lab_id :
  runs (not_polling lab_id) (get_lab_details lab_id).
Proof.
  unfold get_lab_details.
  repeat first
    [ apply runs_request;
      [ intros [] Hev; cbn in Hev; try contradiction; now split
      | intros tok; split; [apply lab_endpoint_not_node_poll | reflexivity] ]
    | runs_step ].
Qed.

Lemma count_app {A} (p : A -> bool) l1 l2 :
  count p (l1 ++ l2) = (count p l1 + count p l2)%nat.
Proof. unfold count. now rewrite filter_app, length_app. Qed.

Lemma count_none {A} (p : A -> bool) l :
  Forall (fun x => p x = false) l -> count p l = 0%nat.
Proof.
  unfold count. induction 1 as [|x l Hx _ IH]; cbn; [reflexivity|].
  now rewrite Hx.
Qed.

(** C7.  On a session, when the lab details do not show the state
    STARTED (the answer is not a dict, or its [state] is not "STARTED"),
    [wait_for_lab_nodes] returns "Lab is not in STARTED state. Start the
    lab first." in the world the lab-details request left: among the
    events of the call there is no per-node state request and no sleep. *)
Theorem wait_for_lab_nodes_not_started :
  forall fuel lab_id timeout w details w1,
    cml_auth w <> None ->
    get_lab_details lab_id w = (Ok details, w1) ->
    lab_is_started details = false ->
    wait_for_lab_nodes fuel lab_id timeout w = (Ok not_started_message, w1)
    /\ exists evs,
         trace w1 = (trace w ++ evs)%list
         /\ count (is_node_poll lab_id) evs = 0%nat
         /\ count is_sleep evs = 0%nat.
Proof.
  intros fuel lab_id timeout w details w1 Hs Hdetails Hstate. split.
  - destruct (present_some w Hs) as [self Hself].
    unfold wait_for_lab_nodes. rewrite (guard_present _ _ _ _ Hself).
    apply try_except_ok. rewrite (bind_ok _ _ _ _ _ Hdetails).
    now rewrite Hstate.
  - destruct (runs_get_lab_details lab_id w) as [(_ & _ & evs & Htrace & Hall) _].
    rewrite Hdetails in Htrace. exists evs. split; [exact Htrace|].
    split; apply count_none; eapply Forall_impl; try exact Hall;
      intros ev [H1 H2]; assumption.
Qed.

Lemma runs_poll_nodes lab_id items : forall all_ready,
  runs (node_poll_event lab_id) (poll_nodes lab_id items all_ready).
Proof.
  induction items as [|[node_id node] items IH]; intros all_ready.
  - apply runs_ret.
  - cbn [poll_nodes].
    repeat first
      [ apply IH
      | apply runs_request;
        [ intros [] Hev; cbn in Hev; try contradiction; exact I
        | intros tok; split; [reflexivity | apply node_endpoint_is_node_poll] ]
      | runs_step ].
Qed.

Lemma node_poll_event_not_sleep lab_id ev :
  node_poll_event lab_id ev -> is_sleep ev = false.
Proof. destruct ev; cbn; intros H; try reflexivity; contradiction. Qed.

Lemma wait_loop_ready fuel lab_id timeout nodes start w :
  wait_loop fuel lab_id timeout nodes start true w = (Ok true, w).
Proof. destruct fuel; reflexivity. Qed.

Lemma wait_loop_deadline fuel lab_id timeout nodes start w :
  timeout <= clock w - start ->
  wait_loop fuel lab_id timeout nodes start false w = (Ok false, w).
Proof.
  intros H. assert (E : (clock w - start <? timeout) = false)
    by (apply Z.ltb_ge; lia).
  destruct fuel; cbn; unfold bind, loop_time; now rewrite E.
Qed.

Lemma wait_loop_round fuel lab_id timeout nodes start w :
  clock w - start < timeout ->
  wait_loop (S fuel) lab_id timeout nodes start false w =
    match nodes with
    | PyDict items =>
        match poll_nodes lab_id items true w with
        | (Ok true, w1) => (Ok true, w1)
        | (Ok false, w1) =>
            wait_loop fuel lab_id timeout nodes start false
              (mkWorld (cml_auth w1) (trace w1 ++ [Sleep 5]) (clock w1 + 5))
        | (Raise e, w1) => (Raise e, w1)
        | (OutOfFuel, w1) => (OutOfFuel, w1)
        end
    | _ => (Raise (AttributeError nodes "items"), w)
    end.
Proof.
  intros H. assert (E : (clock w - start <? timeout) = true)
    by (apply Z.ltb_lt; lia).
  cbn [wait_loop]. unfold bind at 1. unfold loop_time at 1. rewrite E.
  cbn [negb]. unfold bind at 1.
  destruct nodes; try reflexivity. cbn [py_items ret]. unfold bind at 1.
  destruct (poll_nodes lab_id d true w) as [[[|]|e|] w1]; try reflexivity.
  cbn [negb]. unfold bind at 1. cbn [ret]. apply wait_loop_ready.
Qed.

(** The polling loop ends within the rounds its deadline allows. *)
Lemma wait_loop_ends lab_id timeout nodes start : forall fuel w,
  timeout - (clock w - start) <= 5 * Z.of_nat fuel ->
  exists r w' evs,
    wait_loop fuel lab_id timeout nodes start false w = (r, w')
    /\ trace w' = (trace w ++ evs)%list
    /\ Forall (poller_event lab_id) evs
    /\ clock w <= clock w'
    /\ 5 * Z.of_nat (count is_sleep evs)
       < Z.max 0 (timeout - (clock w - start)) + 5
    /\ match r with
       | Ok true =>
           exists items w_round,
             nodes = PyDict items
             /\ poll_nodes lab_id items true w_round = (Ok true, w')
       | Ok false => timeout <= clock w' - start
       | Raise _ => True
       | OutOfFuel => False
       end.
Proof.
  induction fuel as [|fuel IH]; intros w Hfuel.
  - exists (Ok false), w, []. rewrite wait_loop_deadline by lia.
    rewrite app_nil_r. repeat split; try constructor; cbn; lia.
  - destruct (Z_lt_le_dec (clock w - start) timeout) as [Hlt | Hge].
    2:{ exists (Ok false), w, []. rewrite wait_loop_deadline by lia.
        rewrite app_nil_r. repeat split; try constructor; cbn; lia. }
    rewrite (wait_loop_round _ _ _ _ _ _ Hlt).
    destruct nodes as [| | | | | |items];
      try (eexists (Raise _), w, []; rewrite app_nil_r;
           repeat split; try constructor; cbn; lia).
    destruct (runs_poll_nodes lab_id items true w)
      as [(Hclock & _ & evs1 & Htrace1 & Hall1) Hfuel1].
    destruct (poll_nodes lab_id items true w) as [[[|]|e|] w1] eqn:Epoll;
      cbn [fst snd] in *.
    + exists (Ok true), w1, evs1. repeat split; try assumption.
      * eapply Forall_impl; [|exact Hall1]. intros ev Hev. now left.
      * rewrite count_none; [lia|].
        eapply Forall_impl; [|exact Hall1]. apply node_poll_event_not_sleep.
      * now exists items, w.
    + set (w2 := mkWorld (cml_auth w1) (trace w1 ++ [Sleep 5]) (clock w1 + 5)).
      destruct (IH w2) as (r & w' & evs2 & Hrun & Htrace2 & Hall2 & Hclock2
                           & Hsleeps & Hres).
      { unfold w2. cbn [clock]. lia. }
      unfold w2 in Htrace2, Hclock2, Hsleeps.
      cbn [trace clock] in Htrace2, Hclock2, Hsleeps.
      exists r, w', (evs1 ++ Sleep 5 :: evs2)%list. split; [exact Hrun|].
      split.
      { rewrite Htrace2, Htrace1. rewrite <- !app_assoc. reflexivity. }
      split.
      { apply Forall_app. split.
        - eapply Forall_impl; [|exact Hall1]. intros ev Hev. now left.
        - constructor; [now right | exact Hall2]. }
      split; [lia|].
      split.
      { rewrite count_app. rewrite (count_none is_sleep evs1).
        2:{ eapply Forall_impl; [|exact Hall1].
            apply node_poll_event_not_sleep. }
        change (count is_sleep (Sleep 5 :: evs2))
          with (S (count is_sleep evs2)).
        lia. }
      exact Hres.
    + exists (Raise e), w1, evs1. repeat split; try assumption.
      * eapply Forall_impl; [|exact Hall1]. intros ev Hev. now left.
      * rewrite count_none; [lia|].
        eapply Forall_impl; [|exact Hall1]. apply node_poll_event_not_sleep.
    + congruence.
Qed.

(** More fuel does not change a wait that ended. *)
Lemma wait_loop_more_fuel lab_id timeout nodes start : forall fuel w r w',
  wait_loop fuel lab_id timeout nodes start false w = (r, w') ->
  r <> OutOfFuel ->
  wait_loop (S fuel) lab_id timeout nodes start false w = (r, w').
Proof.
  induction fuel as [|fuel IH]; intros w r w' Hrun Hr;
    destruct (Z_lt_le_dec (clock w - start) timeout) as [Hlt | Hge];
    try (rewrite wait_loop_deadline in * by lia; exact Hrun).
  - exfalso. apply Hr.
    assert (E : (clock w - start <? timeout) = true) by (apply Z.ltb_lt; lia).
    cbn in Hrun. unfold bind, loop_time in Hrun. rewrite E in Hrun.
    unfold out_of_fuel in Hrun. cbn in Hrun. congruence.
  - rewrite (wait_loop_round fuel _ _ _ _ _ Hlt) in Hrun.
    rewrite (wait_loop_round (S fuel) _ _ _ _ _ Hlt).
    destruct nodes; try exact Hrun.
    destruct (poll_nodes lab_id d true w) as [[[|]|e|] w1]; try exact Hrun.
    now apply IH.
Qed.

Lemma poller_event_not_node_set lab_id ev :
  poller_event lab_id ev ->
  is_call "GET" ("/api/v0/labs/" ++ lab_id ++ "/nodes") ev = false.
Proof.
  intros [Hev | ->]; [|reflexivity].
  destruct ev as [| |m e kw|]; try reflexivity.
  destruct Hev as [_ Hpoll]. unfold is_node_poll in Hpoll. unfold is_call.
  destruct (e =? "/api/v0/labs/" ++ lab_id ++ "/nodes")%string eqn:E.
  - apply String.eqb_eq in E. subst e.
    rewrite nodes_endpoint_not_node_poll in Hpoll. discriminate.
  - apply andb_false_r.
Qed.


(** *** More on the session manager *)

Lemma ensure_token_present w self :
  cml_auth w = Some self -> no_token (token self) = false ->
  ensure_token w = (Ok tt, w).
Proof.
  intros Hs Htok. unfold ensure_token, bind, get_self. now rewrite Hs, Htok.
Qed.

(** X1.  With a token held, a call that is not answered 401 is sent once:
    no credential exchange takes place, the session is left as it was,
    and the answer is returned when its status is 2xx and raised
    otherwise (a transport failure is raised as it is). *)
Theorem request_sends_once :
  forall method endpoint kwargs w self,
    cml_auth w = Some self ->
    no_token (token self) = false ->
    (forall r,
       snd (transport (trace w) (call method endpoint kwargs (token self)))
         = Responded r -> status_code r <> 401) ->
    request method endpoint kwargs w
    = (surfaced (snd (transport (trace w)
                        (call method endpoint kwargs (token self)))),
       after w (call method endpoint kwargs (token self))).
Proof.
  intros method endpoint kwargs w self Hs Htok Hnot.
  rewrite request_eq, (bind_ok _ _ _ _ _ (ensure_token_present _ _ Hs Htok)).
  rewrite (send_eq _ _ _ _ _ Hs). cbv zeta.
  destruct (snd (transport (trace w) (call method endpoint kwargs (token self))))
    as [r|msg]; [|reflexivity].
  specialize (Hnot r eq_refl).
  destruct (status_code r =? 401) eqn:E; [|reflexivity].
  apply Z.eqb_eq in E. contradiction.
Qed.

Lemma authenticate_failure_session w self :
  cml_auth w = Some self ->
  (forall r,
     snd (transport (trace w) (authenticate_post self)) = Responded r ->
     is_success r = false) ->
  authenticate w
  = (Raise (failure (snd (transport (trace w) (authenticate_post self)))),
     after w (authenticate_post self)).
Proof.
  intros Hs Hfail. rewrite (authenticate_eq _ _ Hs). cbv zeta.
  destruct (snd (transport (trace w) (authenticate_post self))) as [r|msg].
  - now rewrite (Hfail r eq_refl).
  - reflexivity.
Qed.

(** X2.  When the credential exchange fails -- the POST does not get
    through, or its status is not 2xx -- [authenticate] raises, the
    session keeps the token and the headers it had, and the token check
    [/api/v0/authok] is not requested. *)
Theorem authenticate_failure_keeps_session :
  forall w self,
    cml_auth w = Some self ->
    (forall r,
       snd (transport (trace w) (authenticate_post self)) = Responded r ->
       is_success r = false) ->
    exists e,
      authenticate w = (Raise e, after w (authenticate_post self))
      /\ cml_auth (after w (authenticate_post self)) = Some self
      /\ trace (after w (authenticate_post self))
         = (trace w ++ [authenticate_post self])%list.
Proof.
  intros w self Hs Hfail. rewrite (authenticate_eq _ _ Hs). cbv zeta.
  destruct (snd (transport (trace w) (authenticate_post self))) as [r|msg].
  - rewrite (Hfail r eq_refl). eexists. repeat split. exact Hs.
  - eexists. repeat split. exact Hs.
Qed.

(** X3.  Without a token, [request] authenticates first, and when that
    fails it raises the failure without sending the call at all. *)
Theorem request_not_sent_when_authentication_fails :
  forall method endpoint kwargs w self,
    cml_auth w = Some self ->
    no_token (token self) = true ->
    (forall r,
       snd (transport (trace w) (authenticate_post self)) = Responded r ->
       is_success r = false) ->
    exists e,
      request method endpoint kwargs w
        = (Raise e, after w (authenticate_post self))
      /\ count (is_call method endpoint)
               (trace (after w (authenticate_post self)))
         = count (is_call method endpoint) (trace w).
Proof.
  intros method endpoint kwargs w self Hs Htok Hfail.
  assert (Hauth : exists e,
            authenticate w = (Raise e, after w (authenticate_post self))).
  { rewrite (authenticate_eq _ _ Hs). cbv zeta.
    destruct (snd (transport (trace w) (authenticate_post self))) as [r|msg].
    - rewrite (Hfail r eq_refl). eauto.
    - eauto. }
  destruct Hauth as [e Hauth]. exists e. split.
  - unfold request, bind at 1. unfold get_self. rewrite Hs, Htok.
    unfold bind at 1. unfold bind at 1. now rewrite Hauth.
  - cbn [trace after]. unfold count. rewrite filter_app. cbn.
    now rewrite app_nil_r.
Qed.

Lemma runs_authenticate_events (P : Event -> Prop) :
  (forall j, P (ClientPost "/api/v0/authenticate" j)) ->
  P (ClientGet "/api/v0/authok") ->
  runs P authenticate.
Proof.
  intros Hpost Hget. unfold authenticate.
  repeat first
    [ apply runs_client_call; first [apply Hpost | exact Hget]
    | runs_step ].
Qed.

Lemma headers_get_set_other h k v k' :
  k' <> k -> headers_get (headers_set h k v) k' = headers_get h k'.
Proof.
  intros Hk. induction h as [|[k0 x] h IH]; cbn.
  - destruct (k =? k')%string eqn:E; [|reflexivity].
    apply String.eqb_eq in E. congruence.
  - destruct (k0 =? k)%string eqn:E0; cbn.
    + apply String.eqb_eq in E0. subst k0.
      destruct (k =? k')%string eqn:E; [|reflexivity].
      apply String.eqb_eq in E. congruence.
    + now rewrite IH.
Qed.

Lemma call_keeps_keywords kwargs tok :
  keeps_keywords kwargs (with_authorization kwargs (bearer tok)).
Proof.
  repeat split.
  - exists tok. cbn. apply headers_get_set.
  - intros k Hk. cbn. now apply headers_get_set_other.
Qed.

(** X4.  Whatever happens, the calls [request] makes for a method and an
    endpoint are for that method and endpoint, carry the [json] and
    [content] of the caller and its headers, and carry an Authorization
    header "Bearer ..." that replaces any the caller gave; the only other
    requests are the POST to [/api/v0/authenticate] and the GET of
    [/api/v0/authok]. *)
Theorem request_keeps_keywords :
  forall method endpoint kwargs w,
    exists evs,
      trace (snd (request method endpoint kwargs w)) = (trace w ++ evs)%list
      /\ Forall (request_event method endpoint kwargs) evs.
Proof.
  intros method endpoint kwargs w.
  assert (Hcall : forall tok,
            request_event method endpoint kwargs
              (ClientRequest method endpoint
                 (with_authorization kwargs (bearer tok)))).
  { intros tok. cbn. repeat split; apply call_keeps_keywords. }
  assert (Hauth : runs (request_event method endpoint kwargs) authenticate).
  { apply runs_authenticate_events; reflexivity. }
  assert (Hruns : runs (request_event method endpoint kwargs)
                       (request method endpoint kwargs)).
  { unfold request.
    repeat first
      [ apply runs_client_call; apply Hcall
      | apply runs_client_call; rewrite with_authorization_twice; apply Hcall
      | exact Hauth
      | runs_step ]. }
  destruct (Hruns w) as [(_ & _ & evs & Ht & Hall) _]. now exists evs.
Qed.

Lemma list_ascii_of_string_app a b :
  list_ascii_of_string (a ++ b)
  = (list_ascii_of_string a ++ list_ascii_of_string b)%list.
Proof. induction a as [|c a IH]; cbn; [reflexivity | now rewrite IH]. Qed.

Lemma string_of_list_ascii_app l1 l2 :
  string_of_list_ascii (l1 ++ l2)
  = string_of_list_ascii l1 ++ string_of_list_ascii l2.
Proof. induction l1 as [|c l1 IH]; cbn; [reflexivity | now rewrite IH]. Qed.

Lemma string_rev_involutive s : string_rev (string_rev s) = s.
Proof.
  unfold string_rev. rewrite list_ascii_of_string_of_list_ascii, rev_involutive.
  apply string_of_list_ascii_of_string.
Qed.

Lemma string_rev_app a b : string_rev (a ++ b) = string_rev b ++ string_rev a.
Proof.
  unfold string_rev.
  now rewrite list_ascii_of_string_app, rev_app_distr, string_of_list_ascii_app.
Qed.

Lemma lstrip_char_no_start c s : starts_with c (lstrip_char c s) = false.
Proof.
  induction s as [|a s IH]; cbn; [reflexivity|].
  destruct (Ascii.eqb a c) eqn:E; [exact IH | cbn; exact E].
Qed.

Lemma lstrip_char_id c s : starts_with c s = false -> lstrip_char c s = s.
Proof. destruct s as [|a s]; cbn; [reflexivity | now intros ->]. Qed.

(** What [lstrip_char] removes is a run of the character. *)
Lemma lstrip_char_prefix c s :
  exists k, s = string_of_list_ascii (repeat c k) ++ lstrip_char c s.
Proof.
  induction s as [|a s [k IH]]; cbn.
  - now exists 0%nat.
  - destruct (Ascii.eqb a c) eqn:E.
    + apply Ascii.eqb_eq in E. subst a. exists (S k). cbn. now rewrite <- IH.
    + now exists 0%nat.
Qed.

Lemma string_rev_repeat c k :
  string_rev (string_of_list_ascii (repeat c k))
  = string_of_list_ascii (repeat c k).
Proof.
  unfold string_rev. rewrite list_ascii_of_string_of_list_ascii.
  f_equal. induction k as [|k IH]; cbn; [reflexivity|].
  rewrite IH. clear IH. induction k as [|k IH]; cbn; [reflexivity|].
  now rewrite <- IH.
Qed.

Lemma strip_char_no_end c s : ends_with c (strip_char c s) = false.
Proof.
  unfold ends_with, strip_char. rewrite string_rev_involutive.
  apply lstrip_char_no_start.
Qed.

Lemma strip_char_no_start c s : starts_with c (strip_char c s) = false.
Proof.
  unfold strip_char.
  destruct (lstrip_char_prefix c (string_rev (lstrip_char c s))) as [k Hk].
  pose proof (lstrip_char_no_start c s) as Hstart.
  apply (f_equal string_rev) in Hk.
  rewrite string_rev_involutive, string_rev_app, string_rev_repeat in Hk.
  set (R := string_rev (lstrip_char c (string_rev (lstrip_char c s)))) in *.
  rewrite Hk in Hstart. destruct R as [|a R]; [reflexivity|].
  exact Hstart.
Qed.

(** A text in quotes is stripped to the text. *)
Lemma strip_char_quoted c t :
  starts_with c t = false -> ends_with c t = false ->
  strip_char c (String c (t ++ String c EmptyString)) = t.
Proof.
  intros Hstart Hend. unfold strip_char. cbn [lstrip_char].
  rewrite Ascii.eqb_refl.
  destruct t as [|a t].
  - cbn. now rewrite Ascii.eqb_refl.
  - cbn [append lstrip_char]. cbn in Hstart. rewrite Hstart.
    change (String a (t ++ String c ""))
      with (String a t ++ String c "").
    rewrite string_rev_app.
    change (string_rev (String c "")) with (String c "").
    cbn [append lstrip_char]. rewrite Ascii.eqb_refl.
    rewrite (lstrip_char_id c _ Hend). apply string_rev_involutive.
Qed.

Lemma header_encodable_bearer tok :
  header_encodable (bearer (Some tok)) = header_encodable tok.
Proof. reflexivity. Qed.

(** X5.  When the credentials are accepted, [authenticate] stores the
    text of the answer without the double quotes around it.  When every
    character of that token has a code below 128, it sets the
    Authorization header of the client to its bearer, requests
    [/api/v0/authok] once and returns the token whatever the answer to
    that request.  When the token has a character of code 128 or more,
    the header cannot be encoded: [authenticate] raises
    [UnicodeEncodeError] with the token stored, the header of the client
    as it was and [/api/v0/authok] not requested.  The token stored
    neither begins nor ends with a double quote, and is the token itself
    when the platform sent it in quotes. *)
Theorem authenticate_stores_token :
  forall w self r,
    cml_auth w = Some self ->
    snd (transport (trace w) (authenticate_post self)) = Responded r ->
    is_success r = true ->
    exists w',
      (if header_encodable (strip_char dquote (text r)) then
         authenticate w = (Ok (strip_char dquote (text r)), w')
         /\ cml_auth w'
            = Some (authenticated self (strip_char dquote (text r)))
         /\ client_authorization
              (authenticated self (strip_char dquote (text r)))
            = Some ("Bearer " ++ strip_char dquote (text r))
         /\ trace w'
            = (trace w ++ [authenticate_post self;
                           ClientGet "/api/v0/authok"])%list
       else
         authenticate w
         = (Raise (UnicodeEncodeError
                     ("Bearer " ++ strip_char dquote (text r))), w')
         /\ cml_auth w'
            = Some (token_stored self (strip_char dquote (text r)))
         /\ token (token_stored self (strip_char dquote (text r)))
            = Some (strip_char dquote (text r))
         /\ client_authorization
              (token_stored self (strip_char dquote (text r)))
            = client_authorization self
         /\ trace w' = (trace w ++ [authenticate_post self])%list)
      /\ starts_with dquote (strip_char dquote (text r)) = false
      /\ ends_with dquote (strip_char dquote (text r)) = false
      /\ (forall t,
            starts_with dquote t = false -> ends_with dquote t = false ->
            text r = String dquote (t ++ String dquote EmptyString) ->
            strip_char dquote (text r) = t).
Proof.
  intros w self r Hs Hpost Hok. rewrite (authenticate_eq _ _ Hs). cbv zeta.
  rewrite Hpost, Hok, header_encodable_bearer.
  assert (Hrest :
            starts_with dquote (strip_char dquote (text r)) = false
            /\ ends_with dquote (strip_char dquote (text r)) = false
            /\ (forall t,
                  starts_with dquote t = false -> ends_with dquote t = false ->
                  text r = String dquote (t ++ String dquote EmptyString) ->
                  strip_char dquote (text r) = t)).
  { split; [apply strip_char_no_start|]. split; [apply strip_char_no_end|].
    intros t Hstart Hend ->. now apply strip_char_quoted. }
  destruct (header_encodable (strip_char dquote (text r))).
  - eexists. split; [|exact Hrest]. split; [reflexivity|].
    split; [reflexivity|]. split; [reflexivity|].
    cbn. now rewrite <- app_assoc.
  - eexists. split; [|exact Hrest]. repeat split.
Qed.

(** *** Lab tools *)

Lemma runs_request_event method endpoint kwargs :
  runs (request_event method endpoint kwargs)
       (request method endpoint kwargs).
Proof.
  assert (Hcall : forall tok,
            request_event method endpoint kwargs
              (ClientRequest method endpoint
                 (with_authorization kwargs (bearer tok)))).
  { intros tok. cbn. repeat split; apply call_keeps_keywords. }
  unfold request.
  repeat first
    [ apply runs_client_call; apply Hcall
    | apply runs_client_call; rewrite with_authorization_twice; apply Hcall
    | apply runs_authenticate_events; reflexivity
    | runs_step ].
Qed.

(** X6.  What [list_labs] makes of the decoded lab list when it is not a
    non-empty object: an empty dict, list or str reads as "No labs found
    in CML."; [None], a bool or a number has no [len()] and a non-empty
    list or str has no [items()], and both give the error text. *)
Theorem list_labs_without_labs :
  forall w response w' labs,
    cml_auth w <> None ->
    request "GET" "/api/v0/labs" no_kwargs w = (Ok response, w') ->
    resp_json response = Some labs ->
    match labs with
    | PyDict [] | PyList [] | PyStr EmptyString =>
        list_labs w = (Ok (PyStr "No labs found in CML."), w')
    | PyList _ | PyStr _ =>
        list_labs w
        = (Ok (PyStr ("Error listing labs: "
                      ++ str_exn (AttributeError labs "items"))), w')
    | PyNone | PyBool _ | PyInt _ | PyFloat _ =>
        list_labs w
        = (Ok (PyStr ("Error listing labs: "
                      ++ str_exn (TypeError "object has no len()" labs))), w')
    | PyDict _ => True
    end.
Proof.
  intros w response w' labs Hs Hreq Hjson.
  destruct (present_some w Hs) as [self Hself].
  unfold list_labs. rewrite (guard_present _ _ _ _ Hself).
  assert (Hj : json response w' = (Ok labs, w'))
    by (unfold json; now rewrite Hjson).
  unfold try_except. rewrite (bind_ok _ _ _ _ _ Hreq), (bind_ok _ _ _ _ _ Hj).
  destruct labs as [| | | |s|l|d]; try reflexivity.
  - destruct s; reflexivity.
  - destruct l; reflexivity.
  - destruct d; [reflexivity | exact I].
Qed.

Lemma stop_lab_never_out_of_fuel lab_id w :
  exists v w', stop_lab lab_id w = (Ok v, w').
Proof.
  unfold stop_lab, bind at 1, session_absent.
  destruct (cml_auth w); [|eexists _, _; reflexivity].
  unfold try_except, bind.
  pose proof (request_not_out_of_fuel "PUT"
                ("/api/v0/labs/" ++ lab_id ++ "/stop") no_kwargs w) as Hfuel.
  destruct (request "PUT" ("/api/v0/labs/" ++ lab_id ++ "/stop") no_kwargs w)
    as [[r|e|] w1]; cbn [fst] in Hfuel;
    [eexists _, _; reflexivity | eexists _, _; reflexivity | congruence].
Qed.

(** X7.  [delete_lab] first reads the lab details; when they show the
    state STARTED it stops the lab, and then -- whether or not the stop
    succeeded, [stop_lab] returning its failure as a text -- it requests
    the deletion.  The answer to the DELETE alone decides between "Lab ...
    deleted successfully" and "Error deleting lab: ...".  A lab that is
    not shown as started is not stopped, and the requests of the stop
    come before those of the deletion. *)
Theorem delete_lab_stops_then_deletes :
  forall lab_id w details w1 r w3,
    cml_auth w <> None ->
    get_lab_details lab_id w = (Ok details, w1) ->
    request "DELETE" ("/api/v0/labs/" ++ lab_id) no_kwargs
      (if lab_is_started details then snd (stop_lab lab_id w1) else w1)
      = (r, w3) ->
    delete_lab lab_id w
    = (Ok (PyStr match r with
                 | Raise e => "Error deleting lab: " ++ str_exn e
                 | _ => "Lab " ++ lab_id ++ " deleted successfully"
                 end), w3)
    /\ exists stops deletes,
         trace w3 = (trace w1 ++ stops ++ deletes)%list
         /\ Forall (request_event "PUT" ("/api/v0/labs/" ++ lab_id ++ "/stop")
                                  no_kwargs) stops
         /\ Forall (request_event "DELETE" ("/api/v0/labs/" ++ lab_id)
                                  no_kwargs) deletes
         /\ (lab_is_started details = false -> stops = []).
Proof.
  intros lab_id w details w1 r w3 Hs Hdetails Hdelete.
  destruct (present_some w Hs) as [self Hself].
  pose proof (request_not_out_of_fuel "DELETE" ("/api/v0/labs/" ++ lab_id)
                no_kwargs
                (if lab_is_started details then snd (stop_lab lab_id w1)
                 else w1)) as Hfuel.
  rewrite Hdelete in Hfuel. cbn in Hfuel.
  split.
  - unfold delete_lab. rewrite (guard_present _ _ _ _ Hself).
    unfold try_except. rewrite (bind_ok _ _ _ _ _ Hdetails).
    destruct (lab_is_started details).
    + destruct (stop_lab_never_out_of_fuel lab_id w1) as (v & w2 & Hstop).
      rewrite Hstop in Hdelete. cbn [snd] in Hdelete.
      unfold bind at 1. unfold bind at 1. rewrite Hstop. cbn [ret].
      unfold bind. rewrite Hdelete.
      destruct r as [x|e|]; [reflexivity | reflexivity | congruence].
    + unfold bind at 1. cbn [ret]. unfold bind. rewrite Hdelete.
      destruct r as [x|e|]; [reflexivity | reflexivity | congruence].
  - destruct (runs_request_event "DELETE" ("/api/v0/labs/" ++ lab_id) no_kwargs
                (if lab_is_started details then snd (stop_lab lab_id w1)
                 else w1)) as [(_ & _ & deletes & Hd & Hdall) _].
    rewrite Hdelete in Hd. cbn [snd] in Hd.
    destruct (lab_is_started details).
    + assert (Hstop : runs (request_event "PUT"
                              ("/api/v0/labs/" ++ lab_id ++ "/stop") no_kwargs)
                           (stop_lab lab_id)).
      { unfold stop_lab.
        repeat first [ apply runs_request_event | runs_step ]. }
      destruct (Hstop w1) as [(_ & _ & stops & Hst & Hsall) _].
      exists stops, deletes. rewrite Hd, Hst, app_assoc.
      repeat split; try assumption. discriminate.
    + exists [], deletes. rewrite Hd. repeat split; try assumption.
      constructor.
Qed.

Lemma dict_set_fresh d k v :
  Forall (fun kv => py_eqb (fst kv) k = false) d ->
  dict_set d k v = (d ++ [(k, v)])%list.
Proof.
  induction 1 as [|[k' v'] d Hk _ IH]; cbn; [reflexivity|].
  cbn in Hk. now rewrite Hk, IH.
Qed.

Lemma py_eqb_str a b : py_eqb (PyStr a) (PyStr b) = (a =? b)%string.
Proof. reflexivity. Qed.

Lemma entry_of_keys item kv :
  In kv (entry_of item) -> exists k, kv = (PyStr k, item) /\ k <> "".
Proof.
  unfold entry_of. destruct item; try contradiction.
  destruct (dict_get d "id") as [[| | | |k| |]|]; try contradiction.
  destruct (k =? "")%string eqn:E; [contradiction|].
  intros [<- | []]. exists k. split; [reflexivity|].
  intros ->. discriminate.
Qed.

Lemma index_by_id_entries items : forall acc,
  Forall has_plain_id items ->
  Forall (fun kv => exists k, fst kv = PyStr k) acc ->
  NoDup (map fst acc ++ map fst (flat_map entry_of items)) ->
  index_by_id items acc = ret (acc ++ flat_map entry_of items)%list.
Proof.
  induction items as [|item items IH]; intros acc Hitems Hacc Hnodup.
  - cbn. now rewrite app_nil_r.
  - inversion Hitems as [|? ? (d & -> & Hid) Hrest]; subst.
    cbn [flat_map] in *.
    assert (Hskip : entry_of (PyDict d) = [] ->
                    truthy (dict_get_default d "id" PyNone) = false ->
                    index_by_id (PyDict d :: items) acc
                    = ret (acc ++ entry_of (PyDict d)
                               ++ flat_map entry_of items)%list).
    { intros He Hfalsy. rewrite He in *. cbn [app] in *.
      cbn [index_by_id]. unfold py_get, bind at 1. cbn [ret].
      rewrite Hfalsy. now apply IH. }
    destruct Hid as [Hid | [Hid | [k Hid]]].
    + apply Hskip; unfold entry_of, dict_get_default; now rewrite Hid.
    + apply Hskip; unfold entry_of, dict_get_default; now rewrite Hid.
    + destruct (k =? "")%string eqn:Ek.
      * apply Hskip; unfold entry_of, dict_get_default; rewrite Hid;
          [now rewrite Ek | cbn; now rewrite Ek].
      * assert (He : entry_of (PyDict d) = [(PyStr k, PyDict d)])
          by (unfold entry_of; now rewrite Hid, Ek).
        rewrite He in *. clear Hskip.
        cbn [index_by_id]. unfold py_get, bind at 1. cbn [ret].
        unfold dict_get_default. rewrite Hid. cbn [truthy hashable].
        rewrite Ek. cbn [negb]. cbn [app map fst] in Hnodup.
        rewrite dict_set_fresh.
        -- rewrite IH; try assumption.
           ++ now rewrite <- app_assoc.
           ++ apply Forall_app. split; [assumption|].
              constructor; [|constructor]. now exists k.
           ++ rewrite map_app, <- app_assoc. exact Hnodup.
        -- apply Forall_forall. intros [k' v'] Hin.
           destruct (proj1 (Forall_forall _ _) Hacc _ Hin) as [k0 Hk0].
           cbn in Hk0. subst k'. cbn [fst]. rewrite py_eqb_str.
           apply String.eqb_neq. intros ->.
           apply NoDup_remove_2 in Hnodup. apply Hnodup.
           apply in_or_app. left. apply in_map_iff.
           now exists (PyStr k, v').
Qed.

Lemma dict_get_unique d : forall k v,
  Forall (fun kv => exists k', fst kv = PyStr k') d ->
  NoDup (map fst d) -> In (PyStr k, v) d -> dict_get d k = Some v.
Proof.
  induction d as [|[k0 v0] d IH]; intros k v Hkeys Hnodup Hin;
    [contradiction|].
  inversion Hkeys as [|? ? [k' Hk'] Hrest]; subst. cbn in Hk'. subst k0.
  inversion Hnodup as [|? ? Hnotin Hnodup']; subst.
  cbn [dict_get]. rewrite py_eqb_str. destruct Hin as [Heq | Hin].
  - injection Heq as -> ->. now rewrite String.eqb_refl.
  - destruct (k' =? k)%string eqn:E.
    + apply String.eqb_eq in E. subst k'. exfalso. apply Hnotin.
      apply in_map_iff. now exists (PyStr k, v).
    + now apply IH.
Qed.

(** X8.  When the platform answers the node list as a list of objects
    whose [id] is a str (or [None], or absent) and no two carry the same
    id, [get_lab_nodes] returns the dict of the objects that have a
    non-empty id, keyed by it and in the order of the list; an object
    without one is left out, and each object kept is found again under
    its id. *)
Theorem get_lab_nodes_indexes_list :
  forall lab_id w response w' items,
    cml_auth w <> None ->
    request "GET" ("/api/v0/labs/" ++ lab_id ++ "/nodes") no_kwargs w
      = (Ok response, w') ->
    resp_json response = Some (PyList items) ->
    Forall has_plain_id items ->
    NoDup (map fst (flat_map entry_of items)) ->
    get_lab_nodes lab_id w = (Ok (PyDict (flat_map entry_of items)), w')
    /\ (forall item, In item items -> entry_of item = [] \/
          exists k, entry_of item = [(PyStr k, item)]
                    /\ dict_get (flat_map entry_of items) k = Some item).
Proof.
  intros lab_id w response w' items Hs Hreq Hjson Hitems Hnodup.
  destruct (present_some w Hs) as [self Hself]. split.
  - unfold get_lab_nodes. rewrite (guard_present _ _ _ _ Hself).
    apply try_except_ok. rewrite (bind_ok _ _ _ _ _ Hreq).
    unfold json. rewrite Hjson. unfold bind at 1. cbn [ret].
    rewrite (index_by_id_entries items []); try assumption; [reflexivity|].
    constructor.
  - intros item Hin. destruct (entry_of item) as [|kv rest] eqn:E;
      [now left | right].
    destruct (entry_of_keys item kv) as (k & -> & Hk); [rewrite E; now left|].
    assert (rest = []) as ->.
    { unfold entry_of in E. destruct item; try discriminate.
      destruct (dict_get d "id") as [[| | | |k0| |]|]; try discriminate.
      destruct (k0 =? "")%string; [discriminate|]. now injection E. }
    exists k. split; [reflexivity|].
    apply dict_get_unique; try assumption.
    + apply Forall_forall. intros kv Hkv. apply in_flat_map in Hkv.
      destruct Hkv as (item' & _ & Hkv).
      destruct (entry_of_keys _ _ Hkv) as (k' & -> & _). now exists k'.
    + apply in_flat_map. exists item. split; [assumption|].
      rewrite E. now left.
Qed.

(** *** More on the interface tools *)

Lemma returns_ret {A} (Q : A -> Prop) a : Q a -> returns Q (ret a).
Proof. intros HQ w a' w' H. injection H as <- _. exact HQ. Qed.

Lemma returns_raise {A} (Q : A -> Prop) e : returns Q (raise e).
Proof. intros w a w' H. discriminate. Qed.

Lemma returns_bind {A B} (Q : B -> Prop) (m : M A) (k : A -> M B) :
  (forall a, returns Q (k a)) -> returns Q (bind m k).
Proof.
  intros Hk w b w' H. unfold bind in H.
  destruct (m w) as [[a|e|] w1]; try discriminate. exact (Hk a w1 b w' H).
Qed.

Lemma returns_try_except {A} (Q : A -> Prop) (body : M A) handler :
  returns Q body -> (forall e, returns Q (handler e)) ->
  returns Q (try_except body handler).
Proof.
  intros Hbody Hh w a w' H. unfold try_except in H.
  destruct (body w) as [[x|e|] w1] eqn:E; try discriminate.
  - injection H as <- <-. exact (Hbody w x w1 E).
  - exact (Hh e w1 a w' H).
Qed.

Lemma never_raises_tool {A} (err : A) (body : M A) (handler : exn -> A) :
  never_raises
    (absent <- session_absent ;;
     if absent then ret err
     else try_except body (fun e => ret (handler e))).
Proof.
  intros w e. unfold bind, session_absent, try_except.
  destruct (cml_auth w); [|discriminate].
  destruct (body w) as [[a|x|] w1]; discriminate.
Qed.

Lemma runs_request_any method endpoint kwargs :
  runs (fun _ => True) (request method endpoint kwargs).
Proof. apply runs_request; auto. Qed.

(** A tool ends with a value when it neither raises nor runs out of
    fuel. *)
Lemma tool_returns {A} (m : M A) w :
  runs (fun _ => True) m -> never_raises m ->
  exists a w', m w = (Ok a, w').
Proof.
  intros Hruns Hnever. destruct (Hruns w) as [_ Hfuel].
  specialize (Hnever w).
  destruct (m w) as [[a|e|] w']; cbn in *; [eauto | | congruence].
  exfalso. now apply (Hnever e).
Qed.

Lemma runs_get_node_interfaces lab_id node_id :
  runs (fun _ => True) (get_node_interfaces lab_id node_id).
Proof.
  unfold get_node_interfaces.
  repeat first [ apply runs_request_any | runs_step ].
Qed.

Lemma runs_physical_interfaces_loop lab_id ids : forall acc,
  runs (fun _ => True) (physical_interfaces_loop lab_id ids acc).
Proof.
  induction ids as [|i ids IH]; intros acc; cbn [physical_interfaces_loop].
  - apply runs_ret.
  - repeat first [ apply IH | apply runs_request_any | runs_step ].
Qed.

Lemma returns_physical_interfaces_loop lab_id ids : forall acc,
  Forall (fun x => exists d, x = PyDict d /\ is_physical d = true) acc ->
  returns (Forall (fun x => exists d, x = PyDict d /\ is_physical d = true))
          (physical_interfaces_loop lab_id ids acc).
Proof.
  induction ids as [|i ids IH]; intros acc Hacc; cbn [physical_interfaces_loop].
  - now apply returns_ret.
  - apply returns_bind. intros response. apply returns_bind. intros data.
    destruct data; try apply returns_raise.
    apply IH. destruct (is_physical d) eqn:E; [|assumption].
    apply Forall_app. split; [assumption|].
    constructor; [|constructor]. now exists d.
Qed.

Lemma returns_bind_with {A B} (R : A -> Prop) (Q : B -> Prop)
    (m : M A) (k : A -> M B) :
  returns R m -> (forall a, R a -> returns Q (k a)) -> returns Q (bind m k).
Proof.
  intros Hm Hk w b w' H. unfold bind in H.
  destruct (m w) as [[a|e|] w1] eqn:E; try discriminate.
  exact (Hk a (Hm w a w1 E) w1 b w' H).
Qed.

Lemma physical_interface_ids_early response early :
  physical_interface_ids response = inl early -> exists s, early = PyStr s.
Proof.
  unfold physical_interface_ids.
  destruct response; try (intros H; injection H as <-; now eexists).
  - destruct (contains "Error" s); [intros H; injection H as <-; now eexists|].
    destruct (String.length s mod 36 =? 0)%nat;
      [discriminate | intros H; injection H as <-; now eexists].
  - discriminate.
  - discriminate.
Qed.

Lemma returns_get_physical_interfaces lab_id node_id :
  returns physical_listing (get_physical_interfaces lab_id node_id).
Proof.
  unfold get_physical_interfaces.
  apply returns_bind. intros [|].
  - apply returns_ret. left. now eexists.
  - apply returns_try_except.
    + apply returns_bind. intros response.
      destruct (physical_interface_ids response) as [early|ids] eqn:E.
      * apply returns_ret. left.
        exact (physical_interface_ids_early _ _ E).
      * eapply returns_bind_with.
        -- apply (returns_physical_interfaces_loop lab_id ids []).
           constructor.
        -- intros l Hl. destruct l as [|x l]; apply returns_ret.
           ++ left. now eexists.
           ++ right. exists (x :: l). split; [reflexivity|].
              split; [discriminate | exact Hl].
    + intros e. apply returns_ret. left. now eexists.
Qed.

(** X9.  On a session or without one, [get_physical_interfaces] ends
    with a value, and that value is either a text (an error, or "No
    physical interfaces found for node ...") or a non-empty list of
    interface descriptions each of which has the type "physical" or, for
    want of a type, a slot: it never returns an empty list, nor a
    description it did not find physical. *)
Theorem get_physical_interfaces_listing :
  forall lab_id node_id w,
    exists v w',
      get_physical_interfaces lab_id node_id w = (Ok v, w')
      /\ physical_listing v.
Proof.
  intros lab_id node_id w.
  destruct (tool_returns (get_physical_interfaces lab_id node_id) w)
    as (v & w' & Hrun).
  - unfold get_physical_interfaces.
    repeat first
      [ apply runs_get_node_interfaces
      | apply runs_physical_interfaces_loop
      | runs_step ].
  - apply never_raises_tool.
  - exists v, w'. split; [exact Hrun|].
    exact (returns_get_physical_interfaces lab_id node_id w v w' Hrun).
Qed.

(** X10.  An interface the search of [link_nodes] can select (type
    "physical", [is_connected == False]) is one that
    [get_physical_interfaces] lists as physical.  The converse fails:
    a description with a slot and no type is listed but never
    selected, even when it is not connected. *)
Theorem selected_interfaces_are_listed :
  (forall d, physical_and_free d = true -> is_physical d = true)
  /\ (forall slot,
        is_physical [(PyStr "slot", slot); (PyStr "is_connected", PyBool false)]
          = true
        /\ physical_and_free
             [(PyStr "slot", slot); (PyStr "is_connected", PyBool false)]
           = false).
Proof.
  split.
  - intros d H. unfold physical_and_free in H. apply andb_prop in H.
    destruct H as [Htype _]. unfold is_physical, dict_mem.
    unfold dict_get_default in *.
    destruct (dict_get d "type") as [v|]; [exact Htype | discriminate].
  - intros slot. split; reflexivity.
Qed.

Lemma split_ws_elements s : forall cur,
  Forall (fun c => py_isspace c = false) cur ->
  Forall (fun t => t <> "" /\ has_space t = false) (split_ws cur s).
Proof.
  assert (Hflush : forall cur,
            Forall (fun c => py_isspace c = false) cur -> cur <> [] ->
            string_of_list_ascii (rev cur) <> ""
            /\ has_space (string_of_list_ascii (rev cur)) = false).
  { intros cur Hcur Hne. split.
    - intros H. apply (f_equal list_ascii_of_string) in H.
      rewrite list_ascii_of_string_of_list_ascii in H. cbn in H.
      apply (f_equal (@rev ascii)) in H. rewrite rev_involutive in H.
      now apply Hne.
    - unfold has_space. rewrite list_ascii_of_string_of_list_ascii.
      apply not_true_is_false. intros H. apply existsb_exists in H.
      destruct H as (c & Hin & Hc). apply in_rev in Hin.
      rewrite (proj1 (Forall_forall _ _) Hcur c Hin) in Hc. discriminate. }
  induction s as [|c s IH]; intros cur Hcur; cbn [split_ws].
  - destruct cur as [|a cur]; [constructor|].
    constructor; [|constructor]. apply Hflush; [assumption | discriminate].
  - destruct (py_isspace c) eqn:Ec.
    + destruct cur as [|a cur]; [apply IH; constructor|].
      constructor; [|apply IH; constructor].
      apply Hflush; [assumption | discriminate].
    + apply IH. now constructor.
Qed.

Lemma split_ws_no_space s : forall cur,
  has_space s = false ->
  split_ws cur s
  = match (rev cur ++ list_ascii_of_string s)%list with
    | [] => []
    | l => [string_of_list_ascii l]
    end.
Proof.
  induction s as [|c s IH]; intros cur Hs; cbn [split_ws].
  - cbn [list_ascii_of_string]. rewrite app_nil_r.
    destruct cur as [|a cur]; [reflexivity|].
    destruct (rev (a :: cur)) eqn:E; [|reflexivity].
    apply (f_equal (@rev ascii)) in E. now rewrite rev_involutive in E.
  - unfold has_space in Hs. cbn in Hs. apply orb_false_iff in Hs.
    destruct Hs as [Hc Hs]. rewrite Hc. rewrite IH by exact Hs.
    cbn [rev list_ascii_of_string]. now rewrite <- app_assoc.
Qed.

(** X11.  For a str answer, [link_nodes] takes as interface ids the
    pieces of [interfaces.split()]: none is empty and none holds white
    space.  An answer without white space -- identifiers put end to end
    -- is therefore one single id, the whole str, and the empty str gives
    no id at all. *)
Theorem link_nodes_splits_at_white_space :
  forall s,
    ensure_interface_list (PyStr s) = PyList (map PyStr (py_split s))
    /\ Forall (fun t => t <> "" /\ has_space t = false) (py_split s)
    /\ (has_space s = false ->
        py_split s = match s with EmptyString => [] | _ => [s] end).
Proof.
  intros s. split; [reflexivity|]. split.
  - apply split_ws_elements. constructor.
  - intros Hs. unfold py_split. rewrite split_ws_no_space by exact Hs.
    cbn [rev app]. destruct s as [|c s]; [reflexivity|].
    cbn [list_ascii_of_string]. cbn. now rewrite string_of_list_ascii_of_string.
Qed.

(** *** More on the link tools *)

(** X12.  [create_link_v3] always ends with one of three values: the
    "initialize the client first" error, the error "all payload formats
    were tried and failed", or the success dict around a link identifier
    that is truthy.  It never raises, and its outer handler ("Error
    creating link: ...") never applies, the two attempts handling their
    own exceptions. *)
Theorem create_link_v3_results :
  forall lab_id a b w,
    exists v w',
      create_link_v3 lab_id a b w = (Ok v, w') /\ link_v3_result a b v.
Proof.
  intros lab_id a b w. unfold create_link_v3, bind at 1, session_absent.
  destruct (cml_auth w) as [self|] eqn:Hself.
  2:{ eexists _, _. split; [reflexivity | now left]. }
  assert (Hid : forall r link_id result,
            link_id_of r = Some (link_id, result) -> truthy link_id = true).
  { intros r link_id result H. unfold link_id_of in H.
    destruct r as [response|e|]; try discriminate.
    destruct (resp_json response) as [[| | | | | |d]|]; try discriminate.
    cbn zeta in H.
    destruct (truthy (dict_get_default d "id" PyNone)) eqn:E;
      [|discriminate].
    now injection H as <- _. }
  unfold try_except, bind at 1.
  destruct (request "POST" (links_endpoint lab_id)
              (mkKwargs (Some (link_data_1 a b)) None None) w)
    as [r1 w1] eqn:H1.
  rewrite (try_link_format_eq _ _ a b _ _ _ H1).
  destruct (link_id_of r1) as [[link_id result]|] eqn:E1; cbn [option_map].
  { eexists _, _. split; [reflexivity|]. right; right.
    exists link_id, result. split; [eapply Hid; eassumption | reflexivity]. }
  unfold bind at 1.
  destruct (request "POST" (links_endpoint lab_id)
              (mkKwargs (Some (link_data_2 a b)) None None) w1)
    as [r2 w2] eqn:H2.
  rewrite (try_link_format_eq _ _ a b _ _ _ H2).
  destruct (link_id_of r2) as [[link_id result]|] eqn:E2; cbn [option_map].
  - eexists _, _. split; [reflexivity|]. right; right.
    exists link_id, result. split; [eapply Hid; eassumption | reflexivity].
  - eexists _, _. split; [reflexivity|]. right; now left.
Qed.

(** *** More on the readiness poller *)

(** X13.  With a timeout of zero or less, [wait_for_lab_nodes] on a
    started lab returns the "Timeout reached" text straight after
    fetching the node set: it polls no node and does not sleep, whatever
    the state of the nodes. *)
Theorem wait_for_lab_nodes_without_patience :
  forall fuel lab_id timeout w details w1 nodes w2,
    cml_auth w <> None ->
    get_lab_details lab_id w = (Ok details, w1) ->
    lab_is_started details = true ->
    get_lab_nodes lab_id w1 = (Ok nodes, w2) ->
    is_error_text nodes = false ->
    timeout <= 0 ->
    wait_for_lab_nodes fuel lab_id timeout w = (Ok (timeout_message timeout), w2).
Proof.
  intros fuel lab_id timeout w details w1 nodes w2 Hs Hdetails Hstarted
         Hnodes Htext Htimeout.
  destruct (present_some w Hs) as [self Hself].
  unfold wait_for_lab_nodes. rewrite (guard_present _ _ _ _ Hself).
  apply try_except_ok. rewrite (bind_ok _ _ _ _ _ Hdetails), Hstarted.
  cbn [negb]. rewrite (bind_ok _ _ _ _ _ Hnodes), Htext.
  unfold bind at 1. cbn [loop_time]. unfold bind.
  rewrite wait_loop_deadline by lia. reflexivity.
Qed.

(** X14.  A started lab without nodes is ready at once: with a positive
    timeout and an empty node set, the first round has nothing to poll,
    and [wait_for_lab_nodes] returns "All nodes in the lab are
    initialized and ready" without a request or a sleep after the fetch
    of the node set. *)
Theorem wait_for_lab_nodes_without_nodes :
  forall fuel lab_id timeout w details w1 w2,
    cml_auth w <> None ->
    get_lab_details lab_id w = (Ok details, w1) ->
    lab_is_started details = true ->
    get_lab_nodes lab_id w1 = (Ok (PyDict []), w2) ->
    0 < timeout ->
    wait_for_lab_nodes (S fuel) lab_id timeout w = (Ok all_ready_message, w2).
Proof.
  intros fuel lab_id timeout w details w1 w2 Hs Hdetails Hstarted Hnodes
         Htimeout.
  destruct (present_some w Hs) as [self Hself].
  unfold wait_for_lab_nodes. rewrite (guard_present _ _ _ _ Hself).
  apply try_except_ok. rewrite (bind_ok _ _ _ _ _ Hdetails), Hstarted.
  cbn [negb]. rewrite (bind_ok _ _ _ _ _ Hnodes). cbn [is_error_text].
  unfold bind at 1. cbn [loop_time]. unfold bind.
  rewrite wait_loop_round by lia. reflexivity.
Qed.

Lemma poll_nodes_app lab_id l1 : forall l2 all_ready w,
  poll_nodes lab_id (l1 ++ l2) all_ready w
  = match poll_nodes lab_id l1 all_ready w with
    | (Ok b, w1) => poll_nodes lab_id l2 b w1
    | other => other
    end.
Proof.
  induction l1 as [|[node_id node] l1 IH]; intros l2 all_ready w.
  - reflexivity.
  - cbn [app poll_nodes]. unfold bind.
    destruct (request "GET"
                ("/api/v0/labs/" ++ lab_id ++ "/nodes/" ++ fmt node_id)
                no_kwargs w) as [[response|e|] w1]; try reflexivity.
    destruct (json response w1) as [[data|e|] w2]; try reflexivity.
    destruct (py_get_default data "state" (PyStr "UNKNOWN") w2)
      as [[state|e|] w3]; try reflexivity.
    apply IH.
Qed.

Lemma poll_nodes_stays_false lab_id items : forall w b w',
  poll_nodes lab_id items false w = (Ok b, w') -> b = false.
Proof.
  induction items as [|[node_id node] items IH]; intros w b w' H.
  - now injection H as <- _.
  - cbn [poll_nodes] in H. unfold bind in H.
    destruct (request "GET"
                ("/api/v0/labs/" ++ lab_id ++ "/nodes/" ++ fmt node_id)
                no_kwargs w) as [[response|e|] w1]; try discriminate.
    destruct (json response w1) as [[data|e|] w2]; try discriminate.
    destruct (py_get_default data "state" (PyStr "UNKNOWN") w2)
      as [[state|e|] w3]; try discriminate.
    destruct (negb (py_eqb state (PyStr "STARTED"))); eapply IH; exact H.
Qed.


(** *** Client initialisation *)

Lemma try_except_ext {A} (body : M A) handler handler' w :
  (forall e w', handler e w' = handler' e w') ->
  try_except body handler w = try_except body handler' w.
Proof.
  intros H. unfold try_except. destruct (body w) as [[a|e|] w1];
    [reflexivity | apply H | reflexivity].
Qed.

Lemma initialize_client_built base_url username password verify_ssl w :
  AsyncClient (with_scheme base_url) verify_ssl = None ->
  initialize_client base_url username password verify_ssl w
  = try_except
      (authenticate ;;
       match troubleshooting_tools with
       | Some build => build
       | None => ret tt
       end ;;
       ret (initialized_message (with_scheme base_url) verify_ssl))
      (fun e => ret (initialize_error e))
      (with_session w (installed base_url username password verify_ssl)).
Proof.
  intros Hbuilt. unfold initialize_client, CMLAuth_init. cbv zeta.
  rewrite Hbuilt.
  match goal with
  | |- _ = try_except ?body _ ?w0 =>
      transitivity (try_except body
                      (fun e =>
                         match e with
                         | HTTPStatusError _ =>
                             ret (PyStr ("Authentication failed: "
                                         ++ str_exn e))
                         | _ => ret (PyStr ("Error connecting to CML: "
                                            ++ str_exn e))
                         end) w0);
        [reflexivity|]
  end.
  apply try_except_ext. intros e w'. destruct e; reflexivity.
Qed.

(** X16.  [initialize_client] builds the client before its [try].  When
    the constructor raises -- [httpx.InvalidURL] for a base URL that
    cannot be parsed -- the tool raises that exception: nothing is sent
    and the session that was there, or none, stays.  When the client is
    built, the new session is installed before the authentication and is
    not taken back: if the credential exchange fails, the tool returns
    an error text -- "Authentication failed" for a status that is not
    2xx, "Error connecting to CML" when the POST did not get through --
    and leaves behind a session without a token, in place of whatever
    session there was.  The guard of the other tools then passes. *)
Theorem initialize_client_failure_installs_session :
  forall base_url username password verify_ssl w,
    match AsyncClient (with_scheme base_url) verify_ssl with
    | Some e =>
        initialize_client base_url username password verify_ssl w
        = (Raise e, w)
    | None =>
        (forall r,
           snd (transport (trace w)
                  (authenticate_post
                     (installed base_url username password verify_ssl)))
             = Responded r ->
           is_success r = false) ->
        exists w',
          initialize_client base_url username password verify_ssl w
            = (Ok (initialize_error
                     (failure
                        (snd (transport (trace w)
                                (authenticate_post
                                   (installed base_url username password
                                              verify_ssl)))))), w')
          /\ cml_auth w'
             = Some (installed base_url username password verify_ssl)
          /\ token (installed base_url username password verify_ssl) = None
          /\ session_absent w' = (Ok false, w')
          /\ trace w'
             = (trace w
                ++ [authenticate_post
                      (installed base_url username password verify_ssl)])%list
    end.
Proof.
  intros base_url username password verify_ssl w.
  destruct (AsyncClient (with_scheme base_url) verify_ssl) as [e|]
    eqn:Hbuilt.
  { unfold initialize_client, CMLAuth_init. cbv zeta. now rewrite Hbuilt. }
  intros Hfail.
  rewrite (initialize_client_built _ _ _ _ _ Hbuilt).
  set (self := installed base_url username password verify_ssl) in *.
  assert (Hs : cml_auth (with_session w self) = Some self) by reflexivity.
  pose proof (authenticate_failure_session (with_session w self) self Hs Hfail)
    as Hauth.
  exists (after (with_session w self) (authenticate_post self)).
  split; [|repeat split].
  unfold try_except, bind at 1. rewrite Hauth. reflexivity.
Qed.

Lemma has_scheme_with_scheme url : has_scheme (with_scheme url) = true.
Proof.
  unfold with_scheme. fold (has_scheme url).
  destruct (has_scheme url) eqn:E; [exact E|].
  unfold has_scheme. apply orb_true_iff. right. cbn.
  repeat match goal with
         | |- context [ascii_dec ?a ?a] =>
             destruct (ascii_dec a a); [|congruence]
         end.
  now destruct url.
Qed.

(** X17.  [initialize_client] completes a base URL that begins with
    neither [http://] nor [https://] by [https://] and leaves any other
    alone, so the URL of the session always begins with one of the two.
    When the client can be built for that URL and the credentials are
    accepted (and no troubleshooting module is loaded), the session
    holds that URL and the token.  If every character of the token has a
    code below 128, the text returned names the URL and tells whether
    certificates are verified; if not, the Authorization header cannot
    be encoded and the tool returns "Error connecting to CML" with the
    text of the [UnicodeEncodeError], the token staying in the
    session. *)
Theorem initialize_client_success :
  forall url username password verify_ssl w r,
    troubleshooting_tools = None ->
    AsyncClient (with_scheme url) verify_ssl = None ->
    snd (transport (trace w)
           (authenticate_post (installed url username password verify_ssl)))
      = Responded r ->
    is_success r = true ->
    exists self w',
      cml_auth w' = Some self
      /\ token self = Some (strip_char dquote (text r))
      /\ base_url self = with_scheme url
      /\ has_scheme (base_url self) = true
      /\ (has_scheme url = true -> base_url self = url)
      /\ (has_scheme url = false -> base_url self = "https://" ++ url)
      /\ if header_encodable (strip_char dquote (text r)) then
           initialize_client url username password verify_ssl w
           = (Ok (initialized_message (base_url self) verify_ssl), w')
           /\ client_authorization self
              = Some ("Bearer " ++ strip_char dquote (text r))
         else
           initialize_client url username password verify_ssl w
           = (Ok (PyStr ("Error connecting to CML: "
                         ++ str_exn (UnicodeEncodeError
                                       ("Bearer "
                                        ++ strip_char dquote (text r))))),
              w')
           /\ client_authorization self = None.
Proof.
  intros url username password verify_ssl w r Htools Hbuilt Hpost Hok.
  rewrite (initialize_client_built _ _ _ _ _ Hbuilt).
  set (self := installed url username password verify_ssl) in *.
  assert (Hs : cml_auth (with_session w self) = Some self) by reflexivity.
  pose proof (authenticate_eq (with_session w self) self Hs) as Hauth.
  cbv zeta in Hauth. cbn [trace with_session] in Hauth.
  rewrite Hpost, Hok, header_encodable_bearer in Hauth.
  assert (Hurl : has_scheme (with_scheme url) = true
                 /\ (has_scheme url = true -> with_scheme url = url)
                 /\ (has_scheme url = false ->
                     with_scheme url = "https://" ++ url)).
  { split; [apply has_scheme_with_scheme|].
    split; intros H; unfold with_scheme; fold (has_scheme url);
      now rewrite H. }
  destruct (header_encodable (strip_char dquote (text r))).
  - exists (authenticated self (strip_char dquote (text r))). eexists.
    split; [|split; [reflexivity|]; split; [reflexivity|];
             split; [apply Hurl|]; split; [apply Hurl|];
             split; [apply Hurl|]; split; [|reflexivity]].
    2:{ unfold try_except, bind at 1. rewrite Hauth, Htools. reflexivity. }
    reflexivity.
  - exists (token_stored self (strip_char dquote (text r))). eexists.
    split; [|split; [reflexivity|]; split; [reflexivity|];
             split; [apply Hurl|]; split; [apply Hurl|];
             split; [apply Hurl|]; split; [|reflexivity]].
    2:{ unfold try_except, bind at 1. rewrite Hauth. reflexivity. }
    reflexivity.
Qed.

(** *** Node definitions and node creation *)

Lemma summarize_definitions_summaries items : forall acc,
  Forall object_entry items ->
  Forall (fun kv => exists k, fst kv = PyStr k) acc ->
  NoDup (map fst acc ++ map fst items) ->
  summarize_definitions items acc = ret (acc ++ summaries items)%list.
Proof.
  induction items as [|[key info] items IH]; intros acc Hitems Hacc Hnodup.
  - cbn. now rewrite app_nil_r.
  - inversion Hitems as [|? ? [[k Hk] [d Hd]] Hrest]; subst.
    cbn in Hk, Hd. subst key info.
    cbn [summarize_definitions py_get_default]. unfold bind. cbn [ret].
    cbn [map fst] in Hnodup.
    rewrite dict_set_fresh.
    + rewrite IH; try assumption.
      * cbn [summaries map fst snd summary_of]. now rewrite <- app_assoc.
      * apply Forall_app. split; [assumption|].
        constructor; [|constructor]. now exists k.
      * rewrite map_app, <- app_assoc. exact Hnodup.
    + apply Forall_forall. intros [k' v'] Hin.
      destruct (proj1 (Forall_forall _ _) Hacc _ Hin) as [k0 Hk0].
      cbn in Hk0. subst k'. cbn [fst]. rewrite py_eqb_str.
      apply String.eqb_neq. intros ->.
      apply NoDup_remove_2 in Hnodup. apply Hnodup.
      apply in_or_app. left. apply in_map_iff.
      now exists (PyStr k, v').
Qed.

(** X18.  [list_node_definitions] returns two different things for the
    two shapes of the answer.  A dict of definitions is summarised: same
    keys, same order, and of each definition only [description], [type]
    and [interfaces], with defaults for the missing ones.  A list of
    definitions is returned whole, each definition under its [id], as
    [get_lab_nodes] does.  Any other JSON value gives the error text of
    the missing [items] method. *)
Theorem list_node_definitions_two_shapes :
  forall w response w' node_defs,
    cml_auth w <> None ->
    request "GET" "/api/v0/node_definitions" no_kwargs w = (Ok response, w') ->
    resp_json response = Some node_defs ->
    match node_defs with
    | PyDict d =>
        Forall object_entry d -> NoDup (map fst d) ->
        list_node_definitions w = (Ok (PyDict (summaries d)), w')
    | PyList items =>
        Forall has_plain_id items ->
        NoDup (map fst (flat_map entry_of items)) ->
        list_node_definitions w = (Ok (PyDict (flat_map entry_of items)), w')
    | _ =>
        list_node_definitions w
        = (Ok (PyStr ("Error listing node definitions: "
                      ++ str_exn (AttributeError node_defs "items"))), w')
    end.
Proof.
  intros w response w' node_defs Hs Hreq Hjson.
  destruct (present_some w Hs) as [self Hself].
  unfold list_node_definitions. rewrite (guard_present _ _ _ _ Hself).
  assert (Hj : json response w' = (Ok node_defs, w'))
    by (unfold json; now rewrite Hjson).
  unfold try_except. rewrite (bind_ok _ _ _ _ _ Hreq), (bind_ok _ _ _ _ _ Hj).
  destruct node_defs as [| | | |s|l|d]; try reflexivity.
  - intros Hitems Hnodup. unfold bind at 1.
    rewrite (index_by_id_entries l []); try assumption; [reflexivity|].
    constructor.
  - intros Hitems Hnodup. cbn [py_items]. unfold bind at 1. cbn [ret].
    unfold bind at 1.
    rewrite (summarize_definitions_summaries d []); try assumption;
      [reflexivity | constructor].
Qed.

Lemma returns_add_node_fallback lab_id label node_definition x y
    populate_interfaces ram cpu_limit parameters :
  returns (add_node_result label)
    (add_node_fallback lab_id label node_definition x y populate_interfaces
                       ram cpu_limit parameters).
Proof.
  unfold add_node_fallback. apply returns_bind. intros response.
  apply returns_bind. intros result.
  destruct result as [| | | | | |d]; try (apply returns_bind; intros;
    fail) ; try (intros w a w' H; discriminate).
  intros w a w' H. unfold bind in H. cbn [py_get ret] in H.
  destruct (truthy (dict_get_default d "id" PyNone)) eqn:E; cbn [negb] in H;
    injection H as <- _.
  - right; right; right. now exists d.
  - right; right; left. now exists d.
Qed.

Lemma add_node_without_create_node lab_id label node_definition x y
    populate_interfaces ram cpu_limit parameters :
  create_node = None ->
  add_node lab_id label node_definition x y populate_interfaces ram cpu_limit
           parameters
  = (absent <- session_absent ;;
     if absent then ret init_error_dict else
     try_except
       (add_node_fallback lab_id label node_definition x y
          populate_interfaces ram cpu_limit parameters)
       (fun e => ret (error_dict ("Error adding node: " ++ str_exn e)))).
Proof. intros H. unfold add_node. now rewrite H. Qed.

Lemma returns_add_node lab_id label node_definition x y
    populate_interfaces ram cpu_limit parameters :
  create_node = None ->
  returns (add_node_result label)
    (add_node lab_id label node_definition x y populate_interfaces ram
              cpu_limit parameters).
Proof.
  intros Hnone. rewrite add_node_without_create_node by exact Hnone.
  apply returns_bind. intros [|].
  - apply returns_ret. now left.
  - apply returns_try_except.
    + apply returns_add_node_fallback.
    + intros e. apply returns_ret. right; left. now exists e.
Qed.

Lemma runs_add_node P lab_id label node_definition x y
    populate_interfaces ram cpu_limit parameters :
  create_node = None ->
  runs P (request "POST" (nodes_endpoint lab_id populate_interfaces)
            (add_node_kwargs label node_definition x y ram cpu_limit
                             parameters)) ->
  runs P (add_node lab_id label node_definition x y populate_interfaces ram
                   cpu_limit parameters).
Proof.
  intros Hnone Hreq. rewrite add_node_without_create_node by exact Hnone.
  unfold add_node_fallback.
  repeat first [ exact Hreq | runs_step ].
Qed.

(** X19.  Without the imported [create_node], [add_node] never raises
    and always ends with a dict: the "initialize the client first" error,
    an error for an exception, the error "no node ID returned" around an
    answer whose [id] is falsy, or the success dict around an answer
    whose [id] is truthy.  Whatever it sends through [request] is a POST
    of the one payload to the nodes endpoint of the lab, with the query
    [?populate_interfaces=true] exactly when the flag is set, and with
    the JSON content type. *)
Theorem add_node_results :
  forall lab_id label node_definition x y populate_interfaces ram cpu_limit
         parameters w,
    create_node = None ->
    exists v w',
      add_node lab_id label node_definition x y populate_interfaces ram
               cpu_limit parameters w = (Ok v, w')
      /\ add_node_result label v
      /\ grows (request_event "POST"
                  ("/api/v0/labs/" ++ fmt lab_id ++ "/nodes"
                   ++ (if populate_interfaces
                       then "?populate_interfaces=true" else ""))
                  (add_node_kwargs label node_definition x y ram cpu_limit
                                   parameters)) w w'.
Proof.
  intros lab_id label node_definition x y populate_interfaces ram cpu_limit
         parameters w Hnone.
  assert (Hendpoint :
            "/api/v0/labs/" ++ fmt lab_id ++ "/nodes"
            ++ (if populate_interfaces then "?populate_interfaces=true" else "")
            = nodes_endpoint lab_id populate_interfaces).
  { unfold nodes_endpoint. destruct populate_interfaces.
    - now rewrite !append_assoc_str.
    - now rewrite append_empty_r. }
  rewrite Hendpoint.
  assert (Hruns :
            runs (request_event "POST"
                    (nodes_endpoint lab_id populate_interfaces)
                    (add_node_kwargs label node_definition x y ram cpu_limit
                                     parameters))
                 (add_node lab_id label node_definition x y
                           populate_interfaces ram cpu_limit parameters)).
  { apply runs_add_node; [exact Hnone | apply runs_request_event]. }
  destruct (Hruns w) as [Hgrows Hfuel].
  destruct (add_node lab_id label node_definition x y populate_interfaces
                     ram cpu_limit parameters w) as [[v|e|] w'] eqn:Hrun;
    cbn [fst snd] in *; [| |congruence].
  - exists v, w'. split; [reflexivity|]. split; [|exact Hgrows].
    exact (returns_add_node _ _ _ _ _ _ _ _ _ Hnone w v w' Hrun).
  - exfalso.
    rewrite add_node_without_create_node in Hrun by exact Hnone.
    exact (never_raises_tool _ _ _ w e (f_equal fst Hrun)).
Qed.

Lemma guard_twice {A} (err : A) (body : M A) w :
  (absent <- session_absent ;;
   if absent then ret err else
   (absent <- session_absent ;; if absent then ret err else body)) w
  = (absent <- session_absent ;; if absent then ret err else body) w.
Proof.
  unfold bind, session_absent.
  destruct (cml_auth w) eqn:E; cbn; rewrite ?E; reflexivity.
Qed.

(** X20.  Without the imported [create_node], [create_router] is
    [add_node] with the definition [iosv] and [create_switch] is
    [add_node] with [iosvl2], both with interfaces populated and no RAM,
    CPU limit or parameters -- also when no session is there, the guard
    being the same.  The two tools have no handler of their own; then
    they do not raise, [add_node] having one. *)
Theorem create_router_is_add_node :
  forall lab_id label x y w,
    create_node = None ->
    create_router lab_id label x y w
      = add_node lab_id label "iosv" x y true PyNone PyNone PyNone w
    /\ create_switch lab_id label x y w
       = add_node lab_id label "iosvl2" x y true PyNone PyNone PyNone w
    /\ (forall e, fst (create_router lab_id label x y w) <> Raise e)
    /\ (forall e, fst (create_switch lab_id label x y w) <> Raise e).
Proof.
  intros lab_id label x y w Hnone.
  assert (Hrouter : create_router lab_id label x y w
                    = add_node lab_id label "iosv" x y true PyNone PyNone
                               PyNone w).
  { unfold create_router. rewrite Hnone.
    rewrite add_node_without_create_node by exact Hnone.
    apply guard_twice. }
  assert (Hswitch : create_switch lab_id label x y w
                    = add_node lab_id label "iosvl2" x y true PyNone PyNone
                               PyNone w).
  { unfold create_switch. rewrite Hnone.
    rewrite add_node_without_create_node by exact Hnone.
    apply guard_twice. }
  split; [exact Hrouter|]. split; [exact Hswitch|].
  rewrite Hrouter, Hswitch.
  rewrite !add_node_without_create_node by exact Hnone.
  split; intros e; apply never_raises_tool.
Qed.

(** *** Interface creation *)

(** X21.  [create_interface] refuses a running lab: when the details of
    the lab show the state STARTED it returns the error "Cannot create
    interfaces while the lab is running" and has sent nothing but the
    request for the details -- no POST. *)
Theorem create_interface_refuses_running_lab :
  forall lab_id node_id slot w lab_details w1,
    cml_auth w <> None ->
    get_lab_details lab_id w = (Ok lab_details, w1) ->
    lab_is_started lab_details = true ->
    create_interface lab_id node_id slot w = (Ok lab_is_running, w1)
    /\ filter is_post_request (trace w1) = filter is_post_request (trace w).
Proof.
  intros lab_id node_id slot w lab_details w1 Hs Hdetails Hstarted.
  destruct (present_some w Hs) as [self Hself]. split.
  - unfold create_interface. rewrite (guard_present _ _ _ _ Hself).
    apply try_except_ok. rewrite (bind_ok _ _ _ _ _ Hdetails).
    now rewrite Hstarted.
  - apply grows_no_post.
    assert (Hruns : runs no_post (get_lab_details lab_id)).
    { unfold get_lab_details.
      repeat first [ apply runs_get_no_post | runs_step ]. }
    destruct (Hruns w) as [Hg _]. now rewrite Hdetails in Hg.
Qed.

(** X22.  On a lab that is not seen started -- stopped, or whose details
    could not be fetched, [get_lab_details] returning an error dict then
    -- [create_interface] POSTs [{node, slot}] and reads the answer by
    its shape.  A list is a success whatever its first object holds: the
    [id] reported may be [None].  A dict is a success only with a truthy
    [id].  An empty list, or a value that is neither, gives "unexpected
    response format"; a list of something else than objects gives the
    text of the exception. *)
Theorem create_interface_reads_answer :
  forall lab_id node_id slot w lab_details w1 response w2 result,
    cml_auth w <> None ->
    get_lab_details lab_id w = (Ok lab_details, w1) ->
    lab_is_started lab_details = false ->
    request "POST" ("/api/v0/labs/" ++ lab_id ++ "/interfaces")
            (interface_kwargs node_id slot) w1 = (Ok response, w2) ->
    resp_json response = Some result ->
    create_interface lab_id node_id slot w
    = (Ok (interface_result node_id slot result), w2).
Proof.
  intros lab_id node_id slot w lab_details w1 response w2 result
         Hs Hdetails Hstopped Hreq Hjson.
  destruct (present_some w Hs) as [self Hself].
  unfold create_interface. rewrite (guard_present _ _ _ _ Hself).
  assert (Hj : json response w2 = (Ok result, w2))
    by (unfold json; now rewrite Hjson).
  unfold interface_kwargs in Hreq.
  unfold try_except. rewrite (bind_ok _ _ _ _ _ Hdetails), Hstopped.
  rewrite (bind_ok _ _ _ _ _ Hreq), (bind_ok _ _ _ _ _ Hj).
  destruct result as [| | | |s|l|d]; try reflexivity.
  - destruct l as [|first l]; [reflexivity|].
    destruct first; reflexivity.
  - cbn zeta. cbn [interface_result].
    destruct (truthy (dict_get_default d "id" PyNone)); reflexivity.
Qed.

(** *** Spanning-tree configuration *)

Lemma vlan_declarations_lines vlans : forall config_lines,
  vlan_declarations config_lines vlans
  = (config_lines
     ++ flat_map vlan_declaration
                 (filter (fun vlan_id => negb (vlan_id =? 1)) vlans))%list.
Proof.
  induction vlans as [|v vlans IH]; intros config_lines;
    cbn [vlan_declarations filter flat_map].
  - now rewrite app_nil_r.
  - destruct (v =? 1); cbn [negb]; rewrite IH; [reflexivity|].
    unfold extend. cbn [flat_map]. now rewrite <- app_assoc.
Qed.

Lemma vlan_priorities_lines priority vlans : forall config_lines,
  vlan_priorities config_lines vlans priority
  = (config_lines
     ++ map (vlan_priority priority) vlans)%list.
Proof.
  induction vlans as [|v vlans IH]; intros config_lines;
    cbn [vlan_priorities map].
  - now rewrite app_nil_r.
  - rewrite IH. unfold extend. now rewrite <- app_assoc.
Qed.

Lemma per_vlan_priorities_lines role vlans config_lines :
  per_vlan_priorities config_lines role vlans
  = (config_lines
     ++ map (vlan_priority (priority_of role)) vlans)%list.
Proof.
  unfold per_vlan_priorities, priority_of.
  destruct (role =? "root")%string; [apply vlan_priorities_lines|].
  destruct (role =? "secondary")%string; apply vlan_priorities_lines.
Qed.

Lemma mst_instances_lines items : forall config_lines,
  mst_instances config_lines items
  = (config_lines
     ++ map mst_instance items)%list.
Proof.
  induction items as [|[instance mapped_vlans] items IH]; intros config_lines;
    cbn [mst_instances map].
  - now rewrite app_nil_r.
  - rewrite IH. unfold extend. now rewrite <- app_assoc.
Qed.

Lemma lines_starting_app p l1 l2 :
  lines_starting p (l1 ++ l2)
  = (lines_starting p l1 ++ lines_starting p l2)%list.
Proof. apply filter_app. Qed.

Lemma lines_starting_none {A} p (f : A -> string) l :
  (forall a, prefix p (f a) = false) -> lines_starting p (map f l) = [].
Proof.
  intros H. induction l as [|a l IH]; cbn; [reflexivity|]. now rewrite H.
Qed.

Lemma lines_starting_all {A} p (f : A -> string) l :
  (forall a, prefix p (f a) = true) -> lines_starting p (map f l) = map f l.
Proof.
  intros H. induction l as [|a l IH]; cbn; [reflexivity|].
  rewrite H. f_equal. exact IH.
Qed.

Lemma lines_starting_declarations vlans :
  lines_starting "vlan "
    (flat_map vlan_declaration vlans)
  = map (fun vlan_id => "vlan " ++ str_int vlan_id) vlans.
Proof.
  induction vlans as [|v vlans IH]; [reflexivity|].
  cbn [flat_map map]. rewrite lines_starting_app, IH.
  unfold vlan_declaration. generalize (str_int v). intros s.
  unfold lines_starting at 1. cbn [filter].
  rewrite (prefix_app "vlan " s). reflexivity.
Qed.

Lemma lines_starting_declarations_none p vlans :
  prefix p "!" = false ->
  (forall s, prefix p (" name VLAN" ++ s) = false) ->
  (forall s, prefix p ("vlan " ++ s) = false) ->
  lines_starting p
    (flat_map vlan_declaration vlans)
  = [].
Proof.
  intros Hbang Hname Hvlan.
  induction vlans as [|v vlans IH]; [reflexivity|].
  cbn [flat_map]. rewrite lines_starting_app, IH.
  unfold lines_starting, vlan_declaration. cbn [filter].
  now rewrite Hvlan, Hname, Hbang.
Qed.

Lemma stp_config_lines_starting switch_name stp_mode role vlans mapping :
  lines_starting "vlan "
    (stp_config_lines switch_name stp_mode role vlans mapping)
  = map (fun vlan_id => "vlan " ++ str_int vlan_id)
        (filter (fun vlan_id => negb (vlan_id =? 1)) vlans)
  /\ lines_starting "spanning-tree mode "
       (stp_config_lines switch_name stp_mode role vlans mapping)
     = ["spanning-tree mode " ++ mode_of stp_mode]
  /\ lines_starting "spanning-tree vlan "
       (stp_config_lines switch_name stp_mode role vlans mapping)
     = (if (stp_mode =? "mst")%string then []
        else map (vlan_priority (priority_of role)) vlans)
  /\ lines_starting " ip address "
       (stp_config_lines switch_name stp_mode role vlans mapping)
     = [].
Proof.
  unfold stp_config_lines, mode_of.
  rewrite vlan_declarations_lines.
  destruct (stp_mode =? "mst")%string;
    [ destruct mapping as [[|item items]|];
      rewrite ?mst_instances_lines;
      (destruct (role =? "root")%string;
       [|destruct (role =? "secondary")%string])
    | rewrite !per_vlan_priorities_lines;
      destruct (stp_mode =? "rapid-pvst")%string ];
    unfold extend;
    rewrite !lines_starting_app;
    rewrite ?lines_starting_declarations;
    rewrite ?lines_starting_declarations_none by (intros; reflexivity);
    rewrite ?(lines_starting_all "spanning-tree vlan " (vlan_priority _))
      by (intros; apply prefix_app);
    rewrite ?(lines_starting_none _ (vlan_priority _))
      by (intros; reflexivity);
    rewrite ?(lines_starting_none _ mst_instance) by (intros; reflexivity);
    repeat match goal with
           | |- context [lines_starting ?p ?l] =>
               lazymatch l with
               | map _ _ => fail
               | _ =>
                   let r := eval vm_compute in (lines_starting p l) in
                   change (lines_starting p l) with r
               end
           end;
    cbn [app]; rewrite ?app_nil_r; repeat split; reflexivity.
Qed.


(** *** Lab builders *)

Lemma runs_request_no_delete method endpoint kwargs :
  method <> "DELETE" -> runs no_delete (request method endpoint kwargs).
Proof.
  intros H. apply runs_request.
  - intros [] Hev; cbn in Hev; try contradiction; exact I.
  - intros tok. exact H.
Qed.

Lemma runs_py_in P k v : runs P (py_in k v).
Proof. destruct v; cbn; first [apply runs_ret | apply runs_raise]. Qed.

Lemma runs_py_getitem P v k : runs P (py_getitem v k).
Proof.
  destruct v; cbn; try first [apply runs_ret | apply runs_raise].
  destruct (dict_get d k); [apply runs_ret | apply runs_raise].
Qed.

Lemma runs_find_available_no_delete lab_id ids :
  runs no_delete (find_available_interface lab_id ids).
Proof.
  induction ids as [|i ids IH]; cbn [find_available_interface].
  - apply runs_ret.
  - repeat first
      [ exact IH
      | apply runs_request_no_delete; discriminate
      | runs_step ].
Qed.

Lemma runs_link_nodes_no_delete lab_id node_id_a node_id_b :
  connect_nodes = None ->
  runs no_delete (link_nodes lab_id node_id_a node_id_b).
Proof.
  intros Hnone. unfold link_nodes. rewrite Hnone. unfold link_nodes_fallback.
  repeat first
    [ apply runs_find_available_no_delete
    | apply runs_request_no_delete; discriminate
    | runs_step ].
Qed.

Lemma runs_create_router_no_delete lab_id label x y :
  create_node = None -> runs no_delete (create_router lab_id label x y).
Proof.
  intros Hnone. unfold create_router. rewrite Hnone.
  repeat first
    [ apply runs_add_node;
      [exact Hnone | apply runs_request_no_delete; discriminate]
    | runs_step ].
Qed.

Lemma runs_create_switch_no_delete lab_id label x y :
  create_node = None -> runs no_delete (create_switch lab_id label x y).
Proof.
  intros Hnone. unfold create_switch. rewrite Hnone.
  repeat first
    [ apply runs_add_node;
      [exact Hnone | apply runs_request_no_delete; discriminate]
    | runs_step ].
Qed.

Lemma runs_configure_node_no_delete lab_id node_id config :
  runs no_delete (configure_node lab_id node_id config).
Proof.
  unfold configure_node.
  repeat first [ apply runs_request_no_delete; discriminate | runs_step ].
Qed.

Lemma runs_create_simple_network title description :
  create_node = None -> connect_nodes = None ->
  runs no_delete (create_simple_network title description).
Proof.
  intros Hnode Hconnect. unfold create_simple_network.
  repeat first
    [ apply runs_create_router_no_delete; exact Hnode
    | apply runs_create_switch_no_delete; exact Hnode
    | apply runs_link_nodes_no_delete; exact Hconnect
    | apply runs_py_in
    | apply runs_py_getitem
    | apply runs_request_no_delete; discriminate
    | runs_step ].
Qed.

Lemma runs_create_ospf_lab title description :
  create_node = None -> connect_nodes = None ->
  runs no_delete (create_ospf_lab title description).
Proof.
  intros Hnode Hconnect. unfold create_ospf_lab.
  repeat first
    [ apply runs_create_router_no_delete; exact Hnode
    | apply runs_link_nodes_no_delete; exact Hconnect
    | apply runs_configure_node_no_delete
    | apply runs_py_in
    | apply runs_py_getitem
    | apply runs_request_no_delete; discriminate
    | runs_step ].
Qed.

(** X24.  The builders [create_simple_network] and [create_ospf_lab],
    running the implementations of this file, always end with a value,
    and send no DELETE: when a step fails after the lab was created, the
    lab and the nodes created so far are left on the platform. *)
Theorem builders_never_delete :
  forall title description w,
    create_node = None ->
    connect_nodes = None ->
    (exists v w',
       create_simple_network title description w = (Ok v, w')
       /\ grows no_delete w w')
    /\ (exists v w',
          create_ospf_lab title description w = (Ok v, w')
          /\ grows no_delete w w').
Proof.
  intros title description w Hnode Hconnect. split.
  - destruct (runs_create_simple_network title description Hnode Hconnect w)
      as [Hgrows Hfuel].
    destruct (create_simple_network title description w) as [[v|e|] w']
      eqn:Hrun; cbn [fst snd] in *; [eauto | | congruence].
    exfalso. exact (never_raises_tool _ _ _ w e (f_equal fst Hrun)).
  - destruct (runs_create_ospf_lab title description Hnode Hconnect w)
      as [Hgrows Hfuel].
    destruct (create_ospf_lab title description w) as [[v|e|] w']
      eqn:Hrun; cbn [fst snd] in *; [eauto | | congruence].
    exfalso. exact (never_raises_tool _ _ _ w e (f_equal fst Hrun)).
Qed.

Lemma py_in_dict k d w : py_in k (PyDict d) w = (Ok (dict_mem d k), w).
Proof. reflexivity. Qed.

Lemma py_getitem_dict d k v w :
  dict_get d k = Some v -> py_getitem (PyDict d) k w = (Ok v, w).
Proof. intros H. cbn. now rewrite H. Qed.

Lemma lab_created_as_id response lab_id w :
  lab_created_as response lab_id ->
  (lab_data <- json response ;; py_get lab_data "id") w = (Ok lab_id, w).
Proof.
  intros (d & Hjson & -> & _). unfold bind, json. now rewrite Hjson.
Qed.

(** X25.  [create_simple_network] does not treat a failed link as a
    failure.  Once the lab, the router and the switch are created, it
    returns the dict of the lab whatever [link_nodes] returned: the dict
    has no [error] key, its [link_status] is "success" when the result of
    [link_nodes] has a [link_id] and "failed" otherwise, and the result
    of [link_nodes], error included, is under [link_details]. *)
Theorem create_simple_network_reports_link :
  forall title description w response w1 lab_id router_result w2 router_id
         switch_result w3 switch_id link_details w4,
    cml_auth w <> None ->
    request "POST" "/api/v0/labs" (lab_payload title description) w
      = (Ok response, w1) ->
    lab_created_as response lab_id ->
    create_router lab_id "Router1" 50 50 w1 = (Ok router_result, w2) ->
    created_as router_result router_id ->
    create_switch lab_id "Switch1" 50 150 w2 = (Ok switch_result, w3) ->
    created_as switch_result switch_id ->
    link_nodes (fmt lab_id) (fmt router_id) (fmt switch_id) w3
      = (Ok (PyDict link_details), w4) ->
    exists result,
      create_simple_network title description w = (Ok (PyDict result), w4)
      /\ dict_mem result "error" = false
      /\ dict_get result "lab_id" = Some lab_id
      /\ dict_get result "link_status"
         = Some (PyStr (if dict_mem link_details "link_id"
                        then "success" else "failed"))
      /\ dict_get result "link_details" = Some (PyDict link_details).
Proof.
  intros title description w response w1 lab_id router_result w2 router_id
         switch_result w3 switch_id link_details w4
         Hs Hlab Hid Hrouter (r & -> & Hr_ok & Hr_id)
         Hswitch (s & -> & Hs_ok & Hs_id) Hlink.
  destruct (present_some w Hs) as [self Hself].
  assert (Htruthy : truthy lab_id = true) by (destruct Hid as (d & _ & _ & H); exact H).
  eexists. split.
  - unfold create_simple_network. rewrite (guard_present _ _ _ _ Hself).
    apply try_except_ok. rewrite (bind_ok _ _ _ _ _ Hlab).
    pose proof (lab_created_as_id _ _ w1 Hid) as Hget.
    unfold bind at 1 in Hget. unfold bind at 1.
    destruct (json response w1) as [[lab_data|e|] w1'] eqn:Hjson;
      try discriminate.
    rewrite (bind_ok _ _ _ _ _ Hget). rewrite Htruthy. cbn [negb].
    assert (w1' = w1) as ->.
    { unfold json in Hjson. destruct (resp_json response); [|discriminate].
      now injection Hjson as _ <-. }
    rewrite (bind_ok _ _ _ _ _ Hrouter).
    rewrite (bind_ok _ _ _ _ _ (py_in_dict _ _ _)), Hr_ok.
    rewrite (bind_ok _ _ _ _ _ Hswitch).
    rewrite (bind_ok _ _ _ _ _ (py_in_dict _ _ _)), Hs_ok.
    rewrite (bind_ok _ _ _ _ _ (py_getitem_dict _ _ _ _ Hr_id)).
    rewrite (bind_ok _ _ _ _ _ (py_getitem_dict _ _ _ _ Hs_id)).
    rewrite (bind_ok _ _ _ _ _ Hlink).
    rewrite (bind_ok _ _ _ _ _ (py_in_dict _ _ _)).
    reflexivity.
  - repeat split.
Qed.

Lemma configure_node_returns lab_id node_id config w :
  exists v, configure_node lab_id node_id config w
            = (Ok v, snd (configure_node lab_id node_id config w)).
Proof.
  destruct (tool_returns (configure_node lab_id node_id config) w)
    as (v & w' & Hrun).
  - unfold configure_node.
    repeat first [ apply runs_request_any | runs_step ].
  - apply never_raises_tool.
  - exists v. now rewrite Hrun.
Qed.

(** X26.  [create_ospf_lab] does not look at what [configure_node]
    returns.  Once the lab and the two routers are created and linked,
    it sends the two configurations and returns the success dict, with
    status "success" and the instructions, whether the configurations
    were accepted or not: the result does not depend on the two
    answers. *)
Theorem create_ospf_lab_ignores_configuration :
  forall title description w response w1 lab_id router1_result w2 router1_id
         router2_result w3 router2_id link_result w4,
    cml_auth w <> None ->
    request "POST" "/api/v0/labs" (lab_payload title description) w
      = (Ok response, w1) ->
    lab_created_as response lab_id ->
    create_router lab_id "Router1" 50 50 w1 = (Ok router1_result, w2) ->
    created_as router1_result router1_id ->
    create_router lab_id "Router2" 200 50 w2 = (Ok router2_result, w3) ->
    created_as router2_result router2_id ->
    link_nodes (fmt lab_id) (fmt router1_id) (fmt router2_id) w3
      = (Ok (PyDict link_result), w4) ->
    dict_mem link_result "error" = false ->
    create_ospf_lab title description w
    = (Ok (ospf_lab_created lab_id title router1_id router2_id
             (dict_get_default link_result "link_id" PyNone)),
       snd (configure_node (fmt lab_id) (fmt router2_id) router2_config
              (snd (configure_node (fmt lab_id) (fmt router1_id)
                      router1_config w4)))).
Proof.
  intros title description w response w1 lab_id router1_result w2 router1_id
         router2_result w3 router2_id link_result w4
         Hs Hlab Hid Hrouter1 (r1 & -> & Hr1_ok & Hr1_id)
         Hrouter2 (r2 & -> & Hr2_ok & Hr2_id) Hlink Hlinked.
  destruct (present_some w Hs) as [self Hself].
  assert (Htruthy : truthy lab_id = true)
    by (destruct Hid as (d & _ & _ & H); exact H).
  unfold create_ospf_lab. rewrite (guard_present _ _ _ _ Hself).
  apply try_except_ok. rewrite (bind_ok _ _ _ _ _ Hlab).
  pose proof (lab_created_as_id _ _ w1 Hid) as Hget.
  unfold bind at 1 in Hget. unfold bind at 1.
  destruct (json response w1) as [[lab_data|e|] w1'] eqn:Hjson;
    try discriminate.
  rewrite (bind_ok _ _ _ _ _ Hget). rewrite Htruthy. cbn [negb].
  assert (w1' = w1) as ->.
  { unfold json in Hjson. destruct (resp_json response); [|discriminate].
    now injection Hjson as _ <-. }
  rewrite (bind_ok _ _ _ _ _ Hrouter1).
  rewrite (bind_ok _ _ _ _ _ (py_in_dict _ _ _)), Hr1_ok.
  rewrite (bind_ok _ _ _ _ _ Hrouter2).
  rewrite (bind_ok _ _ _ _ _ (py_in_dict _ _ _)), Hr2_ok.
  rewrite (bind_ok _ _ _ _ _ (py_getitem_dict _ _ _ _ Hr1_id)).
  rewrite (bind_ok _ _ _ _ _ (py_getitem_dict _ _ _ _ Hr2_id)).
  rewrite (bind_ok _ _ _ _ _ Hlink).
  rewrite (bind_ok _ _ _ _ _ (py_in_dict _ _ _)), Hlinked.
  destruct (configure_node_returns (fmt lab_id) (fmt router1_id)
              router1_config w4) as [c1 Hc1].
  rewrite (bind_ok _ _ _ _ _ Hc1).
  destruct (configure_node_returns (fmt lab_id) (fmt router2_id)
              router2_config
              (snd (configure_node (fmt lab_id) (fmt router1_id)
                      router1_config w4))) as [c2 Hc2].
  rewrite (bind_ok _ _ _ _ _ Hc2).
  reflexivity.
Qed.

Lemma created_as_iff d d' node_id :
  dict_mem d "error" = dict_mem d' "error" ->
  dict_get d "node_id" = dict_get d' "node_id" ->
  created_as (PyDict d) node_id <-> created_as (PyDict d') node_id.
Proof.
  intros Herr Hid. split; intros (d0 & Heq & H1 & H2); injection Heq as <-.
  - exists d'. rewrite <- Herr, <- Hid. now repeat split.
  - exists d. rewrite Herr, Hid. now repeat split.
Qed.

(** X27.  Without the imported [create_node],
    [create_switch_with_interfaces] is [add_node] with the definition
    [iosvl2] and the parameters [{"slot1": str(num_interfaces)}] in all
    but the wording of its messages: from the same world the two send
    the same requests and end in the same world, and one has created a
    node, with some identifier, exactly when the other has. *)
Theorem create_switch_with_interfaces_is_add_node :
  forall lab_id label num_interfaces x y w,
    create_node = None ->
    exists v v' w',
      create_switch_with_interfaces lab_id label num_interfaces x y w
        = (Ok v, w')
      /\ add_node lab_id label "iosvl2" x y true PyNone PyNone
                  (PyDict [(PyStr "slot1", PyStr (str_int num_interfaces))]) w
         = (Ok v', w')
      /\ forall node_id, created_as v node_id <-> created_as v' node_id.
Proof.
  intros lab_id label num_interfaces x y w Hnone.
  rewrite add_node_without_create_node by exact Hnone.
  unfold create_switch_with_interfaces. rewrite Hnone.
  destruct (cml_auth w) as [self|] eqn:Hself.
  2:{ rewrite !guard_absent by exact Hself.
      eexists _, _, _. split; [reflexivity|]. split; [reflexivity|].
      intros node_id. now apply created_as_iff. }
  rewrite !(guard_present _ _ _ _ Hself).
  unfold add_node_fallback, nodes_endpoint.
  rewrite !append_assoc_str. cbn [append].
  change (PyDict (node_data_of label "iosvl2" x y PyNone PyNone
                    (PyDict [(PyStr "slot1", PyStr (str_int num_interfaces))])))
    with (PyDict [(PyStr "label", PyStr label);
                  (PyStr "node_definition", PyStr "iosvl2");
                  (PyStr "x", PyInt x);
                  (PyStr "y", PyInt y);
                  (PyStr "parameters",
                   PyDict [(PyStr "slot1", PyStr (str_int num_interfaces))]);
                  (PyStr "tags", PyList []);
                  (PyStr "hide_links", PyBool false)]).
  unfold try_except, bind at 1 4.
  match goal with
  | |- context [request ?m ?e ?k w] =>
      pose proof (request_not_out_of_fuel m e k w) as Hfuel;
      destruct (request m e k w) as [[response|e0|] w1]
  end; [| |now contradiction Hfuel].
  2:{ eexists _, _, _. split; [reflexivity|]. split; [reflexivity|].
      intros node_id. now apply created_as_iff. }
  unfold bind at 1 3, json.
  destruct (resp_json response) as [result|].
  2:{ eexists _, _, _. split; [reflexivity|]. split; [reflexivity|].
      intros node_id. now apply created_as_iff. }
  cbn [ret]. unfold bind.
  destruct result as [| | | | | |d];
    try (eexists _, _, _; split; [reflexivity|]; split; [reflexivity|];
         intros node_id; now apply created_as_iff).
  cbn [py_get ret].
  destruct (truthy (dict_get_default d "id" PyNone)); cbn [negb];
    eexists _, _, _; (split; [reflexivity|]); (split; [reflexivity|]);
    intros node_id; now apply created_as_iff.
Qed.

Lemma returns_stp_switch lab_id n switches name layer x y :
  returns (fun l => List.length l = S (List.length switches))
          (stp_switch lab_id n switches name layer x y).
Proof.
  unfold stp_switch. apply returns_bind. intros sw_result.
  apply returns_bind. intros node_id. apply returns_ret.
  rewrite length_app. cbn. lia.
Qed.

Lemma returns_stp_link lab_id switches links i j :
  returns (fun l => List.length l = S (List.length links))
          (stp_link lab_id switches links i j).
Proof.
  unfold stp_link. do 6 (apply returns_bind; intros ?). apply returns_ret.
  rewrite length_app. cbn. lia.
Qed.

Lemma has_error_dict msg : has_error (error_dict msg).
Proof. intros w. reflexivity. Qed.

Lemma py_in_true k v w w' : py_in k v w = (Ok true, w') ->
  forall w0, py_in k v w0 = (Ok true, w0).
Proof.
  intros H w0. destruct v; cbn in *; try discriminate;
    injection H as -> _; reflexivity.
Qed.

Lemma returns_bind_assoc {A B C} (Q : C -> Prop) (m : M A) (k : A -> M B)
    (h : B -> M C) :
  returns Q (bind m (fun a => bind (k a) h)) -> returns Q (bind (bind m k) h).
Proof.
  intros H w c w' Hrun. apply (H w c w'). unfold bind in *.
  destruct (m w) as [[a|e|] w1]; exact Hrun.
Qed.

Lemma returns_bind_ret {A B} (Q : B -> Prop) (a : A) (k : A -> M B) :
  returns Q (k a) -> returns Q (bind (ret a) k).
Proof. intros H w b w' Hrun. exact (H w b w' Hrun). Qed.

(** One step through the switches and links of [create_stp_lab], keeping
    the lengths of the two lists. *)
Ltac stp_step :=
  lazymatch goal with
  | |- returns _ (bind (bind _ _) _) => apply returns_bind_assoc
  | |- returns _ (bind (ret _) _) => apply returns_bind_ret
  | |- returns _ (bind (stp_switch _ _ ?s _ _ _ _) _) =>
      apply (returns_bind_with (fun l => List.length l = S (List.length s)));
      [ apply returns_stp_switch
      | let l := fresh "switches" in
        let H := fresh "Hswitches" in
        intros l H;
        repeat match goal with
               | Hp : List.length s = _ |- _ => rewrite Hp in H
               end;
        cbn [List.length] in H ]
  | |- returns _ (bind (stp_link _ _ ?s _ _) _) =>
      apply (returns_bind_with (fun l => List.length l = S (List.length s)));
      [ apply returns_stp_link
      | let l := fresh "links" in
        let H := fresh "Hlinks" in
        intros l H;
        repeat match goal with
               | Hp : List.length s = _ |- _ => rewrite Hp in H
               end;
        cbn [List.length] in H ]
  | |- returns _ (bind (if (?k <=? List.length ?s)%nat then _ else _) _) =>
      match goal with
      | Hp : List.length s = _ |- _ => rewrite Hp; cbn [Nat.leb]
      end
  end.

Lemma returns_create_stp_lab title description num_switches n :
  returns (stp_lab_result title num_switches n)
          (create_stp_lab title description num_switches n).
Proof.
  unfold create_stp_lab. apply returns_bind. intros [|].
  { apply returns_ret. left. intros w. reflexivity. }
  apply returns_try_except.
  2:{ intros e. apply returns_ret. left. apply has_error_dict. }
  apply returns_bind. intros lab_response.
  intros w v w' H. unfold bind at 1 in H.
  destruct (py_in "error" lab_response w) as [[[|]|e|] w1] eqn:Hin;
    try discriminate.
  { injection H as <- _. left. exact (py_in_true _ _ _ _ Hin). }
  clear Hin. revert w1 v w' H.
  match goal with
  | |- forall w1 v w', ?m w1 = (Ok v, w') -> ?Q v =>
      change (returns Q m)
  end.
  apply returns_bind. intros lab_id. cbv zeta.
  unfold stp_lab_result, stp_switches, stp_links.
  destruct (num_switches >? 2) eqn:E2; destruct (num_switches >? 4) eqn:E4;
    try (apply Z.gtb_lt in E4; rewrite Z.gtb_ltb in E2;
         apply Z.ltb_ge in E2; lia);
    repeat stp_step;
    apply returns_ret; right; eexists _, _, _;
    (split; [reflexivity|]); split; assumption.
Qed.



Lemma runs_create_lab_no_delete title description :
  runs no_delete (create_lab title description).
Proof.
  unfold create_lab.
  repeat first [ apply runs_request_no_delete; discriminate | runs_step ].
Qed.

Lemma runs_create_switch_with_interfaces_no_delete lab_id label n x y :
  create_node = None ->
  runs no_delete (create_switch_with_interfaces lab_id label n x y).
Proof.
  intros Hnone. unfold create_switch_with_interfaces. rewrite Hnone.
  repeat first [ apply runs_request_no_delete; discriminate | runs_step ].
Qed.

Lemma runs_switch_field P switches i k : runs P (switch_field switches i k).
Proof.
  unfold switch_field. destruct (nth_error switches i);
    [apply runs_py_getitem | apply runs_raise].
Qed.

Lemma runs_stp_switch lab_id n switches name layer x y :
  create_node = None ->
  runs no_delete (stp_switch lab_id n switches name layer x y).
Proof.
  intros Hnone. unfold stp_switch.
  repeat first
    [ apply runs_create_switch_with_interfaces_no_delete; exact Hnone
    | apply runs_py_getitem
    | runs_step ].
Qed.

Lemma runs_stp_link lab_id switches links i j :
  connect_nodes = None ->
  runs no_delete (stp_link lab_id switches links i j).
Proof.
  intros Hnone. unfold stp_link.
  repeat first
    [ apply runs_link_nodes_no_delete; exact Hnone
    | apply runs_switch_field
    | runs_step ].
Qed.

Lemma runs_create_stp_lab title description num_switches n :
  create_node = None -> connect_nodes = None ->
  runs no_delete (create_stp_lab title description num_switches n).
Proof.
  intros Hnode Hconnect. unfold create_stp_lab.
  repeat first
    [ apply runs_create_lab_no_delete
    | apply runs_stp_switch; exact Hnode
    | apply runs_stp_link; exact Hconnect
    | apply runs_py_in
    | apply runs_py_getitem
    | runs_step ].
Qed.

(** X28.  [create_stp_lab], running the implementations of this file,
    always ends with a value and sends no DELETE.  The value has an
    [error], or it is the dict of a lab with 2, 4 or 6 switches and 1, 6
    or 11 links: [num_switches] only chooses among the three sizes, 2
    for any number up to 2 (zero and negative numbers included), 4 for 3
    and 4, and 6 for any number from 5. *)
Theorem create_stp_lab_sizes :
  forall title description num_switches interfaces_per_switch w,
    create_node = None ->
    connect_nodes = None ->
    exists v w',
      create_stp_lab title description num_switches interfaces_per_switch w
        = (Ok v, w')
      /\ stp_lab_result title num_switches interfaces_per_switch v
      /\ grows no_delete w w'.
Proof.
  intros title description num_switches n w Hnode Hconnect.
  destruct (runs_create_stp_lab title description num_switches n
              Hnode Hconnect w) as [Hgrows Hfuel].
  destruct (create_stp_lab title description num_switches n w)
    as [[v|e|] w'] eqn:Hrun; cbn [fst snd] in *; [| |congruence].
  - exists v, w'. split; [reflexivity|]. split; [|exact Hgrows].
    exact (returns_create_stp_lab _ _ _ _ w v w' Hrun).
  - exfalso. exact (never_raises_tool _ _ _ w e (f_equal fst Hrun)).
Qed.

(** X29.  [create_stp_lab] reads [node_id] in the result of every
    switch creation without a look at an [error]: when the creation of
    the first switch returns a dict without [node_id] -- the error dict
    of [create_switch_with_interfaces] -- the tool returns "Error
    creating STP lab:" with the text of the [KeyError], in which the
    reason of the failure is lost, and stops there: no other switch is
    asked for, and the lab stays. *)
Theorem create_stp_lab_loses_switch_error :
  forall title description num_switches interfaces_per_switch w lab w1
         lab_id sw_result w2,
    cml_auth w <> None ->
    create_lab title description w = (Ok (PyDict lab), w1) ->
    dict_mem lab "error" = false ->
    dict_get lab "lab_id" = Some lab_id ->
    create_switch_with_interfaces lab_id "SW1-Core" interfaces_per_switch
                                  100 100 w1
      = (Ok (PyDict sw_result), w2) ->
    dict_get sw_result "node_id" = None ->
    create_stp_lab title description num_switches interfaces_per_switch w
    = (Ok (error_dict ("Error creating STP lab: "
                       ++ str_exn (KeyError "node_id"))), w2).
Proof.
  intros title description num_switches n w lab w1 lab_id sw_result w2
         Hs Hlab Hok Hid Hswitch Hmissing.
  destruct (present_some w Hs) as [self Hself].
  unfold create_stp_lab. rewrite (guard_present _ _ _ _ Hself).
  unfold try_except. rewrite (bind_ok _ _ _ _ _ Hlab).
  rewrite (bind_ok _ _ _ _ _ (py_in_dict _ _ _)), Hok.
  rewrite (bind_ok _ _ _ _ _ (py_getitem_dict _ _ _ _ Hid)).
  cbv zeta. unfold bind at 1. unfold stp_switch at 1.
  rewrite (bind_ok _ _ _ _ _ Hswitch).
  unfold bind at 1. cbn [py_getitem]. rewrite Hmissing. reflexivity.
Qed.

(** *** Tools and exceptions *)

Lemma runs_list_labs_loop items : forall result,
  runs (fun _ => True) (list_labs_loop result items).
Proof.
  induction items as [|[lab_id lab_info] items IH]; intros result;
    cbn [list_labs_loop].
  - apply runs_ret.
  - unfold list_labs_entry. repeat first [ apply IH | runs_step ].
Qed.

Lemma runs_index_by_id items : forall result,
  runs (fun _ => True) (index_by_id items result).
Proof.
  induction items as [|item items IH]; intros result; cbn [index_by_id].
  - apply runs_ret.
  - repeat first [ apply IH | runs_step ].
Qed.

Lemma runs_summarize_definitions items : forall result,
  runs (fun _ => True) (summarize_definitions items result).
Proof.
  induction items as [|[node_id node_info] items IH]; intros result;
    cbn [summarize_definitions].
  - apply runs_ret.
  - repeat first [ apply IH | runs_step ].
Qed.

(** Runs of the tools that call nothing imported. *)
Ltac tool_runs :=
  repeat lazymatch goal with
         | |- runs _ (request _ _ _) => apply runs_request_any
         | |- runs _ (list_labs_loop _ _) => apply runs_list_labs_loop
         | |- runs _ (index_by_id _ _) => apply runs_index_by_id
         | |- runs _ (summarize_definitions _ _) =>
             apply runs_summarize_definitions
         | |- runs _ (get_node_interfaces _ _) =>
             apply runs_get_node_interfaces
         | |- runs _ (physical_interfaces_loop _ _ _) =>
             apply runs_physical_interfaces_loop
         | |- _ => runs_step
         end.

Ltac tool_ends :=
  intros w; apply tool_returns; [tool_runs | apply never_raises_tool].

(** X30.  The tools made of the guard and one [try] around their body
    -- the lab tools, the node and interface listings, [create_link_v3],
    [create_interface], [list_node_definitions], the configuration tools
    -- always end with a value, whatever the platform answers and
    whether a session is there or not: nothing they do escapes their
    handler. *)
Theorem tools_always_return :
  forall lab_id node_id other_id text slot,
    always_returns list_labs
    /\ always_returns (create_lab lab_id text)
    /\ always_returns (get_lab_details lab_id)
    /\ always_returns (get_lab_nodes lab_id)
    /\ always_returns (get_lab_links lab_id)
    /\ always_returns (start_lab lab_id)
    /\ always_returns (stop_lab lab_id)
    /\ always_returns (delete_lab lab_id)
    /\ always_returns (delete_link lab_id other_id)
    /\ always_returns (configure_node lab_id node_id text)
    /\ always_returns (get_node_config lab_id node_id)
    /\ always_returns (get_node_interfaces lab_id node_id)
    /\ always_returns (get_physical_interfaces lab_id node_id)
    /\ always_returns (create_link_v3 lab_id node_id other_id)
    /\ always_returns (create_interface lab_id node_id slot)
    /\ always_returns list_node_definitions.
Proof.
  intros lab_id node_id other_id text slot.
  repeat apply conj.
  - unfold list_labs. tool_ends.
  - unfold create_lab. tool_ends.
  - unfold get_lab_details. tool_ends.
  - unfold get_lab_nodes. tool_ends.
  - unfold get_lab_links. tool_ends.
  - unfold start_lab. tool_ends.
  - unfold stop_lab. tool_ends.
  - unfold delete_lab, get_lab_details, stop_lab. tool_ends.
  - unfold delete_link. tool_ends.
  - unfold configure_node. tool_ends.
  - unfold get_node_config. tool_ends.
  - unfold get_node_interfaces. tool_ends.
  - unfold get_physical_interfaces. tool_ends.
  - unfold create_link_v3, try_link_format. tool_ends.
  - unfold create_interface, get_lab_details. tool_ends.
  - unfold list_node_definitions. tool_ends.
Qed.

End Program.

(* ===================================================================== *)
(** ** Runs on concrete platforms *)
(* ===================================================================== *)

Import Scenario.

(** *** Session manager *)

(** A session holding a stale token, on a platform that accepts the
    credentials: the call is answered 401, the client authenticates once
    and the call is sent once more, with the fresh token. *)
Lemma request_reauthenticates_once_witness :
  fst (request (platform labs_routes) "GET" "/api/v0/labs" no_kwargs stale)
    = Ok (mkResponse 200 "" (Some (PyDict [])))
  /\ trace (snd (request (platform labs_routes) "GET" "/api/v0/labs"
                         no_kwargs stale))
     = [call "GET" "/api/v0/labs" no_kwargs (Some "stale");
        authenticate_post (session (Some "stale"));
        ClientGet "/api/v0/authok";
        call "GET" "/api/v0/labs" no_kwargs (Some "fresh")].
Proof.
  destruct (request_reauthenticates_once (platform labs_routes)
              "GET" "/api/v0/labs" no_kwargs stale stale
              (session (Some "stale")) (mkResponse 401 "" None)
              eq_refl eq_refl eq_refl eq_refl)
    as (res & w' & evs & Hrun & Htrace & _ & _ & Hcase).
  cbn in Hcase. destruct Hcase as (Hevs & _ & _ & Hres & _).
  rewrite Hrun. cbn [fst snd]. rewrite Htrace, Hevs, Hres.
  split; reflexivity.
Defined.

(** A session without a token, on a platform that issues tokens it then
    does not accept: the client authenticates, the call is answered 401,
    the client authenticates again, the call is answered 401 a second time
    and that answer is raised; the call was sent twice. *)
Example request_second_401_is_raised :
  fst (request revoking "GET" "/api/v0/labs" no_kwargs (world None))
    = Raise (HTTPStatusError (mkResponse 401 "" None))
  /\ count (is_call "GET" "/api/v0/labs")
           (trace (snd (request revoking "GET" "/api/v0/labs" no_kwargs
                                (world None)))) = 2%nat
  /\ count is_authenticate_post
           (trace (snd (request revoking "GET" "/api/v0/labs" no_kwargs
                                (world None)))) = 2%nat.
Proof. repeat split. Qed.

(** A session holding a stale token, on a platform that rejects the
    credentials: the call answered 401 is not sent a second time. *)
Lemma request_not_retried_when_credentials_rejected :
  snd (rejecting (trace stale) (call "GET" "/api/v0/labs" no_kwargs (Some "stale")))
    = Responded (mkResponse 401 "" None)
  /\ fst (request rejecting "GET" "/api/v0/labs" no_kwargs stale)
     = Raise (HTTPStatusError (mkResponse 403 "" None))
  /\ count (is_call "GET" "/api/v0/labs")
           (trace (snd (request rejecting "GET" "/api/v0/labs" no_kwargs stale)))
     = 1%nat
  /\ ~ (count (is_call "GET" "/api/v0/labs")
              (trace (snd (request rejecting "GET" "/api/v0/labs" no_kwargs
                                   stale)))
        = 2%nat).
Proof.
  repeat split; try reflexivity. vm_compute. discriminate.
Qed.

(** *** Link negotiation *)

(** The platform rejects [{i1, i2}] and accepts [{src_int, dst_int}]:
    both payloads are sent, in this order, and the identifier of the
    second answer is returned. *)
Lemma create_link_v3_tries_formats_in_order_witness :
  fst (create_link_v3 src_dst_only str_exn "lab1" "if-A" "if-B" fresh)
    = Ok (link_created (PyStr "link-1") (PyDict [(PyStr "id", PyStr "link-1")])
                       "if-A" "if-B")
  /\ payloads (trace (snd (create_link_v3 src_dst_only str_exn
                                          "lab1" "if-A" "if-B" fresh)))
     = [link_data_1 "if-A" "if-B"; link_data_2 "if-A" "if-B"].
Proof.
  destruct (create_link_v3_tries_formats_in_order src_dst_only str_exn
              "lab1" "if-A" "if-B" fresh
              (fst (request src_dst_only "POST" (links_endpoint "lab1")
                      (mkKwargs (Some (link_data_1 "if-A" "if-B")) None None)
                      fresh))
              (snd (request src_dst_only "POST" (links_endpoint "lab1")
                      (mkKwargs (Some (link_data_1 "if-A" "if-B")) None None)
                      fresh))
              (fst (request src_dst_only "POST" (links_endpoint "lab1")
                      (mkKwargs (Some (link_data_2 "if-A" "if-B")) None None)
                      (snd (request src_dst_only "POST" (links_endpoint "lab1")
                              (mkKwargs (Some (link_data_1 "if-A" "if-B"))
                                        None None) fresh))))
              (snd (request src_dst_only "POST" (links_endpoint "lab1")
                      (mkKwargs (Some (link_data_2 "if-A" "if-B")) None None)
                      (snd (request src_dst_only "POST" (links_endpoint "lab1")
                              (mkKwargs (Some (link_data_1 "if-A" "if-B"))
                                        None None) fresh))))
              ltac:(discriminate) eq_refl eq_refl)
    as [Hrun _].
  rewrite Hrun. split; reflexivity.
Defined.

(** The platform rejects both payloads: both are sent, and the error
    returned names neither [i1], [i2], [src_int] nor [dst_int]. *)
Lemma create_link_v3_failure_names_no_format :
  fst (create_link_v3 (platform []) str_exn "lab1" "if-A" "if-B" fresh)
    = Ok all_formats_failed
  /\ payloads (trace (snd (create_link_v3 (platform []) str_exn
                                          "lab1" "if-A" "if-B" fresh)))
     = [link_data_1 "if-A" "if-B"; link_data_2 "if-A" "if-B"]
  /\ error_text all_formats_failed
     = "Failed to create link - all payload formats were tried and failed"
  /\ ~ (contains "i1" (error_text all_formats_failed) = true
        /\ contains "i2" (error_text all_formats_failed) = true
        /\ contains "src_int" (error_text all_formats_failed) = true
        /\ contains "dst_int" (error_text all_formats_failed) = true).
Proof.
  repeat split; try reflexivity. vm_compute. intros [H _]. discriminate.
Qed.

(** *** Shapes of the interface-list responses *)

(** Two identifiers in one string of 72 characters. *)
Lemma string_response_normalization_witness :
  fst (get_node_interfaces
         (platform (interfaces_routes (PyStr (uuid_a ++ uuid_b))))
         str_exn "lab1" "n1" fresh)
    = Ok (PyList [PyStr uuid_a; PyStr uuid_b])
  /\ join (uuid_chunks (uuid_a ++ uuid_b)) = uuid_a ++ uuid_b.
Proof.
  pose proof (string_response_normalization
                (platform (interfaces_routes (PyStr (uuid_a ++ uuid_b))))
                str_exn str_value "lab1" "n1" fresh
                (mkResponse 200 "" (Some (PyStr (uuid_a ++ uuid_b))))
                (snd (request
                        (platform (interfaces_routes (PyStr (uuid_a ++ uuid_b))))
                        "GET" "/api/v0/labs/lab1/nodes/n1/interfaces"
                        no_kwargs fresh))
                (uuid_a ++ uuid_b)
                ltac:(discriminate) eq_refl eq_refl) as H.
  lazymatch type of H with
  | if _ then ?A else _ => change A in H
  end.
  destruct H as (Hget & _ & _ & Hjoin & _).
  rewrite Hget. split; [reflexivity | exact Hjoin].
Defined.

(** A string of 37 characters: [get_node_interfaces] returns the string,
    not a list holding it, and [get_physical_interfaces] returns an
    error text. *)
Lemma string_of_37_is_not_wrapped :
  String.length text_37 = 37%nat
  /\ fst (get_node_interfaces (platform (interfaces_routes (PyStr text_37)))
            str_exn "lab1" "n1" fresh)
     = Ok (PyStr text_37)
  /\ fst (get_node_interfaces (platform (interfaces_routes (PyStr text_37)))
            str_exn "lab1" "n1" fresh)
     <> Ok (PyList [PyStr text_37])
  /\ fst (get_physical_interfaces (platform (interfaces_routes (PyStr text_37)))
            str_exn str_value "lab1" "n1" fresh)
     = Ok (PyStr ("Unexpected interface response format: " ++ text_37)).
Proof.
  repeat split; try reflexivity. vm_compute. discriminate.
Qed.

(** On a string of two identifiers and on a dict the call sites differ:
    [get_node_interfaces] cuts the string in two where [link_nodes] keeps
    it whole, and it returns the dict where [link_nodes] takes the keys. *)
Lemma call_sites_disagree :
  node_interfaces_result (PyStr (uuid_a ++ uuid_b))
    = PyList [PyStr uuid_a; PyStr uuid_b]
  /\ ensure_interface_list (PyStr (uuid_a ++ uuid_b))
     = PyList [PyStr (uuid_a ++ uuid_b)]
  /\ node_interfaces_result (PyStr (uuid_a ++ uuid_b))
     <> ensure_interface_list (PyStr (uuid_a ++ uuid_b))
  /\ node_interfaces_result (PyDict [(PyStr uuid_a, PyDict [])])
     <> ensure_interface_list (PyDict [(PyStr uuid_a, PyDict [])]).
Proof.
  repeat split; try reflexivity; vm_compute; discriminate.
Qed.

(** The empty string. *)
Lemma get_node_interfaces_empty_string_witness :
  get_node_interfaces (platform (interfaces_routes (PyStr ""))) str_exn
                      "lab1" "n1" fresh
  = (Ok (PyList []),
     snd (request (platform (interfaces_routes (PyStr ""))) "GET"
                  "/api/v0/labs/lab1/nodes/n1/interfaces" no_kwargs fresh)).
Proof.
  apply (get_node_interfaces_empty_string
           (platform (interfaces_routes (PyStr ""))) str_exn "lab1" "n1" fresh
           (mkResponse 200 "" (Some (PyStr "")))).
  - discriminate.
  - reflexivity.
  - reflexivity.
Defined.

(** *** Interface resolution *)

(** Interfaces [if-A] (physical, connected), [if-B] (physical, free) and
    [if-C]: the search selects [if-B] after two detail requests and
    requests nothing for [if-C]. *)
Lemma find_available_interface_first_witness :
  fst (find_available_interface (platform search_routes) str_value "lab1"
         [if_A; if_B; if_C] fresh)
    = Ok (Some if_B)
  /\ trace (snd (find_available_interface (platform search_routes) str_value
                   "lab1" [if_A; if_B; if_C] fresh))
     = [call "GET" "/api/v0/labs/lab1/interfaces/if-A?operational=true"
             no_kwargs (Some "fresh");
        call "GET" "/api/v0/labs/lab1/interfaces/if-B?operational=true"
             no_kwargs (Some "fresh")].
Proof.
  destruct (find_available_interface_first (platform search_routes) str_value
              "lab1" [if_A] if_B [if_C] fresh
              [(PyStr "type", PyStr "physical");
               (PyStr "is_connected", PyBool false)]
              (world_after_describing (platform search_routes) str_value "lab1"
                 [if_A; if_B] fresh)
              (conj eq_refl I) eq_refl eq_refl)
    as (Hfind & _ & _).
  cbn [app] in Hfind. rewrite Hfind. split; reflexivity.
Defined.


(** *** Lab readiness poller *)

(** A stopped lab. *)
Lemma wait_for_lab_nodes_not_started_witness :
  wait_for_lab_nodes (platform stopped_routes) str_exn str_value 3 "lab1" 12
                     fresh
    = (Ok not_started_message,
       snd (get_lab_details (platform stopped_routes) str_exn "lab1" fresh))
  /\ exists evs,
       trace (snd (get_lab_details (platform stopped_routes) str_exn "lab1"
                                   fresh))
         = (trace fresh ++ evs)%list
       /\ count (is_node_poll "lab1") evs = 0%nat
       /\ count is_sleep evs = 0%nat.
Proof.
  apply (wait_for_lab_nodes_not_started (platform stopped_routes) str_exn
           str_value 3 "lab1" 12 fresh
           (PyDict [(PyStr "state", PyStr "STOPPED")])).
  - discriminate.
  - reflexivity.
  - reflexivity.
Defined.



(** *** The guard of the tools *)


(** *** More on the session manager *)

(** A session holding the token the platform accepts: one call, no
    credential exchange. *)
Lemma request_sends_once_witness :
  trace (snd (request (platform labs_routes) "GET" "/api/v0/labs" no_kwargs
                      fresh))
  = [call "GET" "/api/v0/labs" no_kwargs (Some "fresh")].
Proof.
  rewrite (request_sends_once (platform labs_routes) "GET" "/api/v0/labs"
             no_kwargs fresh (session (Some "fresh")) eq_refl eq_refl).
  - reflexivity.
  - intros r H. vm_compute in H. injection H as <-. discriminate.
Defined.

(** A session without a token, on a platform that rejects the
    credentials: the call is never sent. *)
Lemma request_not_sent_when_authentication_fails_witness :
  count (is_call "GET" "/api/v0/labs")
        (trace (after rejecting (world None)
                      (authenticate_post (session None)))) = 0%nat
  /\ exists e,
       fst (request rejecting "GET" "/api/v0/labs" no_kwargs (world None))
       = Raise e.
Proof.
  destruct (request_not_sent_when_authentication_fails rejecting
              "GET" "/api/v0/labs" no_kwargs (world None) (session None)
              eq_refl eq_refl) as (e & Hrun & Hcount).
  - intros r H. vm_compute in H. injection H as <-. reflexivity.
  - split; [exact Hcount|]. exists e. now rewrite Hrun.
Defined.

(** The platform sends the token in double quotes: it is stored without
    them. *)
Lemma authenticate_stores_token_witness :
  fst (authenticate (platform []) (world None)) = Ok "fresh"
  /\ fst (authenticate accenting (world None))
     = Raise (UnicodeEncodeError ("Bearer " ++ accented_token)).
Proof.
  destruct (authenticate_stores_token (platform []) (world None)
              (session None) (mkResponse 200 (quoted "fresh") None)
              eq_refl eq_refl eq_refl) as (w' & Hcase & _).
  destruct (authenticate_stores_token accenting (world None)
              (session None) (mkResponse 200 (quoted accented_token) None)
              eq_refl eq_refl eq_refl) as (w2 & Hcase2 & _).
  change (header_encodable
            (strip_char dquote (text (mkResponse 200 (quoted "fresh") None))))
    with true in Hcase.
  change (header_encodable
            (strip_char dquote
               (text (mkResponse 200 (quoted accented_token) None))))
    with false in Hcase2.
  destruct Hcase as (Hrun & _). destruct Hcase2 as (Hrun2 & _).
  rewrite Hrun, Hrun2. split; reflexivity.
Defined.

(** The credentials are rejected: the stale token stays. *)
Lemma authenticate_failure_keeps_session_witness :
  cml_auth (after rejecting stale (authenticate_post (session (Some "stale"))))
  = Some (session (Some "stale")).
Proof.
  destruct (authenticate_failure_keeps_session rejecting stale
              (session (Some "stale")) eq_refl) as (e & _ & Hsession & _).
  - intros r H. vm_compute in H. injection H as <-. reflexivity.
  - exact Hsession.
Defined.

(** *** Lab tools *)

(** The platform lists no lab. *)
Lemma list_labs_without_labs_witness :
  fst (list_labs (platform labs_routes) str_exn str_value fresh)
  = Ok (PyStr "No labs found in CML.").
Proof.
  pose proof (list_labs_without_labs (platform labs_routes) str_exn str_value
                fresh (mkResponse 200 "" (Some (PyDict [])))
                (snd (request (platform labs_routes) "GET" "/api/v0/labs"
                              no_kwargs fresh))
                (PyDict []) ltac:(discriminate) eq_refl eq_refl) as H.
  cbn beta iota in H. now rewrite H.
Defined.

(** A running lab: it is stopped, then deleted. *)
Lemma delete_lab_stops_then_deletes_witness :
  fst (delete_lab (platform running_routes) str_exn "lab1" fresh)
  = Ok (PyStr "Lab lab1 deleted successfully").
Proof.
  destruct (delete_lab_stops_then_deletes (platform running_routes) str_exn
              "lab1" fresh
              (PyDict [(PyStr "state", PyStr "STARTED")])
              (snd (get_lab_details (platform running_routes) str_exn "lab1"
                      fresh))
              (Ok (mkResponse 204 "" None))
              (snd (delete_lab (platform running_routes) str_exn "lab1"
                      fresh))
              ltac:(discriminate) eq_refl eq_refl) as [Hrun _].
  now rewrite Hrun.
Defined.

(** A list of three objects, one without [id]. *)
Lemma get_lab_nodes_indexes_list_witness :
  fst (get_lab_nodes (platform node_list_routes) str_exn "lab1" fresh)
  = Ok (PyDict [(PyStr "n1", node_R1); (PyStr "n2", node_R2)]).
Proof.
  destruct (get_lab_nodes_indexes_list (platform node_list_routes) str_exn
              "lab1" fresh
              (mkResponse 200 "" (Some (PyList [node_R1; node_unnamed; node_R2])))
              (snd (request (platform node_list_routes) "GET"
                            "/api/v0/labs/lab1/nodes" no_kwargs fresh))
              [node_R1; node_unnamed; node_R2]
              ltac:(discriminate) eq_refl eq_refl) as [Hrun _].
  - repeat constructor; eexists; (split; [reflexivity|]); cbn; eauto.
  - cbn. repeat constructor; cbn; intuition discriminate.
  - now rewrite Hrun.
Defined.

(** *** More on the readiness poller *)

(** A started lab whose node keeps booting, and no patience. *)
Lemma wait_for_lab_nodes_without_patience_witness :
  fst (wait_for_lab_nodes (platform booting_routes) str_exn str_value 0
                          "lab1" 0 fresh)
  = Ok (PyStr "Timeout reached (0 seconds). Some nodes may not be fully initialized.").
Proof.
  rewrite (wait_for_lab_nodes_without_patience (platform booting_routes)
             str_exn str_value 0 "lab1" 0 fresh
             (PyDict [(PyStr "state", PyStr "STARTED")])
             (snd (get_lab_details (platform booting_routes) str_exn "lab1"
                     fresh))
             (PyDict [(PyStr "n1", PyDict [])])
             (snd (get_lab_nodes (platform booting_routes) str_exn "lab1"
                     (snd (get_lab_details (platform booting_routes) str_exn
                             "lab1" fresh))))
             ltac:(discriminate) eq_refl eq_refl eq_refl eq_refl
             ltac:(discriminate)).
  reflexivity.
Defined.

(** A started lab without nodes. *)
Lemma wait_for_lab_nodes_without_nodes_witness :
  fst (wait_for_lab_nodes (platform empty_lab_routes) str_exn str_value 1
                          "lab1" 12 fresh)
  = Ok all_ready_message.
Proof.
  rewrite (wait_for_lab_nodes_without_nodes (platform empty_lab_routes)
             str_exn str_value 0 "lab1" 12 fresh
             (PyDict [(PyStr "state", PyStr "STARTED")])
             (snd (get_lab_details (platform empty_lab_routes) str_exn "lab1"
                     fresh))
             (snd (get_lab_nodes (platform empty_lab_routes) str_exn "lab1"
                     (snd (get_lab_details (platform empty_lab_routes) str_exn
                             "lab1" fresh))))
             ltac:(discriminate) eq_refl eq_refl eq_refl eq_refl).
  reflexivity.
Defined.

(** *** Client initialisation *)

(** The credentials are rejected: the session is installed all the same,
    with the scheme added to the URL and no token. *)
Lemma initialize_client_failure_installs_session_witness :
  fst (initialize_client rejecting str_exn None AsyncClient "cml.example"
                         "admin" "wrong" true no_session)
    = Ok (PyStr "Authentication failed: HTTP status error")
  /\ cml_auth (snd (initialize_client rejecting str_exn None AsyncClient
                                      "cml.example" "admin" "wrong" true
                                      no_session))
     = Some (mkCMLAuth "https://cml.example" "admin" "wrong" None true None)
  /\ initialize_client rejecting str_exn None AsyncClient "host:abc" "admin"
                       "wrong" true stale
     = (Raise (InvalidURL "Invalid port: 'abc'"), stale).
Proof.
  pose proof (initialize_client_failure_installs_session rejecting str_exn
                None AsyncClient "cml.example" "admin" "wrong" true
                no_session) as Hbuilt.
  pose proof (initialize_client_failure_installs_session rejecting str_exn
                None AsyncClient "host:abc" "admin" "wrong" true stale)
    as Hrefused.
  cbn beta iota delta [AsyncClient with_scheme prefix orb String.eqb Ascii.eqb
                       Bool.eqb append ascii_dec ascii_rec ascii_rect
                       bool_dec bool_rec bool_rect sumbool_rec sumbool_rect]
    in Hbuilt, Hrefused.
  destruct Hbuilt as (w' & Hrun & Hsession & _).
  - intros r H. vm_compute in H. injection H as <-. reflexivity.
  - rewrite Hrun. split; [reflexivity|]. split; [exact Hsession|].
    exact Hrefused.
Defined.

(** The credentials are accepted, certificates are not verified. *)
Lemma initialize_client_success_witness :
  fst (initialize_client (platform []) str_exn None AsyncClient "cml.example"
                         "admin" "secret" false no_session)
  = Ok (PyStr "Successfully authenticated with CML at https://cml.example (SSL verification: disabled (accepting self-signed certificates))").
Proof.
  destruct (initialize_client_success (platform []) str_exn None AsyncClient
              "cml.example" "admin" "secret" false no_session
              (mkResponse 200 (quoted "fresh") None)
              eq_refl eq_refl eq_refl eq_refl)
    as (self & w' & _ & _ & Hurl & _ & _ & _ & Hcase).
  change (header_encodable
            (strip_char dquote (text (mkResponse 200 (quoted "fresh") None))))
    with true in Hcase.
  destruct Hcase as [Hrun _]. rewrite Hrun, Hurl. reflexivity.
Defined.

(** *** Node definitions and node creation *)

(** A dict of one definition: the [ram] field is dropped, [type] and
    [interfaces] get their defaults. *)
Lemma list_node_definitions_two_shapes_witness :
  fst (list_node_definitions (platform definitions_routes) str_exn fresh)
  = Ok (PyDict [(PyStr "iosv",
                 PyDict [(PyStr "description", PyStr "IOSv router");
                         (PyStr "type", PyStr "");
                         (PyStr "interfaces", PyList [])])]).
Proof.
  pose proof (list_node_definitions_two_shapes (platform definitions_routes)
                str_exn fresh
                (mkResponse 200 "" (Some (PyDict [(PyStr "iosv", iosv_definition)])))
                (snd (request (platform definitions_routes) "GET"
                              "/api/v0/node_definitions" no_kwargs fresh))
                (PyDict [(PyStr "iosv", iosv_definition)])
                ltac:(discriminate) eq_refl eq_refl) as H.
  cbn beta iota in H. rewrite H.
  - reflexivity.
  - repeat constructor; eexists; reflexivity.
  - repeat constructor. intros [].
Defined.

(** A node added on the builders' platform. *)
Lemma add_node_results_witness :
  exists v w',
    add_node builder str_exn str_value None (PyStr "lab1") "R1" "iosv" 0 0
             true PyNone PyNone PyNone fresh = (Ok v, w')
    /\ add_node_result str_exn str_value "R1" v.
Proof.
  destruct (add_node_results builder str_exn str_value None (PyStr "lab1")
              "R1" "iosv" 0 0 true PyNone PyNone PyNone fresh eq_refl)
    as (v & w' & Hrun & Hresult & _).
  exists v, w'. split; [exact Hrun | exact Hresult].
Defined.

(** A router created on the builders' platform. *)
Lemma create_router_is_add_node_witness :
  fst (create_router builder str_exn str_value None (PyStr "lab1") "R1" 50 50
                     fresh)
  = fst (add_node builder str_exn str_value None (PyStr "lab1") "R1" "iosv"
                  50 50 true PyNone PyNone PyNone fresh).
Proof.
  destruct (create_router_is_add_node builder str_exn str_value None
              (PyStr "lab1") "R1" 50 50 fresh eq_refl) as [Hrun _].
  now rewrite Hrun.
Defined.

(** A switch with eight interfaces created on the builders' platform. *)
Lemma create_switch_with_interfaces_is_add_node_witness :
  exists v v' w',
    create_switch_with_interfaces builder str_exn str_value None
                                  (PyStr "lab1") "SW1" 8 0 0 fresh
      = (Ok v, w')
    /\ add_node builder str_exn str_value None (PyStr "lab1") "SW1" "iosvl2"
                0 0 true PyNone PyNone
                (PyDict [(PyStr "slot1", PyStr "8")]) fresh
       = (Ok v', w').
Proof.
  destruct (create_switch_with_interfaces_is_add_node builder str_exn
              str_value None (PyStr "lab1") "SW1" 8 0 0 fresh eq_refl)
    as (v & v' & w' & Hrun & Hadd & _).
  exists v, v', w'. split; [exact Hrun | exact Hadd].
Defined.

(** *** Interface creation *)

(** A running lab. *)
Lemma create_interface_refuses_running_lab_witness :
  fst (create_interface (platform running_routes) str_exn str_value
                        "lab1" "n1" 4 fresh)
  = Ok (PyDict [(PyStr "error",
                 PyStr "Cannot create interfaces while the lab is running. Please stop the lab first.")]).
Proof.
  destruct (create_interface_refuses_running_lab (platform running_routes)
              str_exn str_value "lab1" "n1" 4 fresh
              (PyDict [(PyStr "state", PyStr "STARTED")])
              (snd (get_lab_details (platform running_routes) str_exn "lab1"
                      fresh))
              ltac:(discriminate) eq_refl eq_refl) as [Hrun _].
  now rewrite Hrun.
Defined.

(** The details of the lab cannot be read, and the platform answers the
    POST with a list of one object without [id]: a success, with the
    identifier [None]. *)
Lemma create_interface_reads_answer_witness :
  fst (create_interface (platform interface_routes) str_exn str_value
                        "lab1" "n1" 4 fresh)
  = Ok (PyDict
          [(PyStr "interface_id", PyNone);
           (PyStr "message",
            PyStr "Created interface eth4 on node n1, slot 4");
           (PyStr "status", PyStr "success");
           (PyStr "details",
            PyList [PyDict [(PyStr "label", PyStr "eth4")]])]).
Proof.
  rewrite (create_interface_reads_answer (platform interface_routes) str_exn
             str_value "lab1" "n1" 4 fresh
             (PyDict [(PyStr "error",
                       PyStr "Error getting lab details: HTTP status error")])
             (snd (get_lab_details (platform interface_routes) str_exn "lab1"
                     fresh))
             (mkResponse 200 ""
                (Some (PyList [PyDict [(PyStr "label", PyStr "eth4")]])))
             (snd (create_interface (platform interface_routes) str_exn
                     str_value "lab1" "n1" 4 fresh))
             (PyList [PyDict [(PyStr "label", PyStr "eth4")]])
             ltac:(discriminate) eq_refl eq_refl eq_refl eq_refl).
  reflexivity.
Defined.

(** *** Lab builders *)

(** The two small builders on the builders' platform. *)
Lemma builders_never_delete_witness :
  (exists v w',
     create_simple_network builder str_exn str_value None None KeyError
                           "Net" "A router and a switch" fresh = (Ok v, w'))
  /\ (exists v w',
        create_ospf_lab builder str_exn str_value None None KeyError
                        "OSPF" "Two routers" fresh = (Ok v, w')).
Proof.
  destruct (builders_never_delete builder str_exn str_value None None KeyError
              "Net" "A router and a switch" fresh eq_refl eq_refl)
    as [(v & w' & Hrun & _) _].
  destruct (builders_never_delete builder str_exn str_value None None KeyError
              "OSPF" "Two routers" fresh eq_refl eq_refl)
    as [_ (v2 & w2 & Hrun2 & _)].
  split; [exists v, w'; exact Hrun | exists v2, w2; exact Hrun2].
Defined.

(** A router and a switch, linked. *)
Lemma create_simple_network_reports_link_witness :
  exists result w',
    create_simple_network builder str_exn str_value None None KeyError
                          "Net" "A router and a switch" fresh
      = (Ok (PyDict result), w')
    /\ dict_get result "lab_id" = Some (PyStr "lab1")
    /\ dict_get result "link_status" = Some (PyStr "success").
Proof.
  edestruct (create_simple_network_reports_link builder str_exn str_value
               None None KeyError "Net" "A router and a switch" fresh)
    as (result & Hrun & _ & Hlab & Hstatus & _).
  - discriminate.
  - vm_compute. reflexivity.
  - eexists. split; [reflexivity|]. split; reflexivity.
  - vm_compute. reflexivity.
  - eexists. split; [reflexivity|]. split; reflexivity.
  - vm_compute. reflexivity.
  - eexists. split; [reflexivity|]. split; reflexivity.
  - vm_compute. reflexivity.
  - exists result. eexists. split; [exact Hrun|].
    split; [exact Hlab | exact Hstatus].
Defined.

(** Two routers, linked; the platform refuses both configurations, and
    the lab is reported as a success. *)
Lemma create_ospf_lab_ignores_configuration_witness :
  fst (create_ospf_lab builder str_exn str_value None None KeyError
                       "OSPF" "Two routers" fresh)
    = Ok (ospf_lab_created (PyStr "lab1") "OSPF" (PyStr "n1") (PyStr "n2")
                           (PyStr "link-1"))
  /\ fst (configure_node builder str_exn "lab1" "n1" router1_config fresh)
     = Ok (PyStr "Error configuring node: HTTP status error").
Proof.
  split; [|reflexivity].
  erewrite (create_ospf_lab_ignores_configuration builder str_exn str_value
              None None KeyError "OSPF" "Two routers" fresh); cycle 1.
  - discriminate.
  - vm_compute. reflexivity.
  - eexists. split; [reflexivity|]. split; reflexivity.
  - vm_compute. reflexivity.
  - eexists. split; [reflexivity|]. split; reflexivity.
  - vm_compute. reflexivity.
  - eexists. split; [reflexivity|]. split; reflexivity.
  - vm_compute. reflexivity.
  - reflexivity.
  - reflexivity.
Defined.

(** Three switches asked for. *)
Lemma create_stp_lab_sizes_witness :
  exists v w',
    create_stp_lab builder str_exn str_value None None KeyError IndexError
                   "STP" "Spanning tree" 3 8 fresh = (Ok v, w')
    /\ stp_lab_result "STP" 3 8 v.
Proof.
  destruct (create_stp_lab_sizes builder str_exn str_value None None KeyError
              IndexError "STP" "Spanning tree" 3 8 fresh eq_refl eq_refl)
    as (v & w' & Hrun & Hresult & _).
  exists v, w'. split; [exact Hrun | exact Hresult].
Defined.

(** Three switches asked for on the builders' platform: four are made,
    and six links. *)
Example create_stp_lab_three_switches :
  match fst (create_stp_lab builder str_exn str_value None None KeyError
                            IndexError "STP" "Spanning tree" 3 8 fresh) with
  | Ok (PyDict d) =>
      dict_mem d "error" = false
      /\ option_map (fun v => match v with
                              | PyList l => List.length l
                              | _ => 0%nat
                              end) (dict_get d "switches") = Some 4%nat
      /\ option_map (fun v => match v with
                              | PyList l => List.length l
                              | _ => 0%nat
                              end) (dict_get d "links") = Some 6%nat
  | _ => False
  end.
Proof. vm_compute. repeat split. Qed.

(** The platform creates the lab and refuses the nodes: the tool reports
    the missing key, not the refusal. *)
Lemma create_stp_lab_loses_switch_error_witness :
  fst (create_stp_lab (platform lab_only_routes) str_exn str_value None None
                      KeyError IndexError "STP" "Spanning tree" 6 8 fresh)
  = Ok (PyDict [(PyStr "error", PyStr "Error creating STP lab: 'node_id'")]).
Proof.
  erewrite (create_stp_lab_loses_switch_error (platform lab_only_routes)
              str_exn str_value None None KeyError IndexError
              "STP" "Spanning tree" 6 8 fresh); cycle 1.
  - discriminate.
  - vm_compute. reflexivity.
  - reflexivity.
  - reflexivity.
  - vm_compute. reflexivity.
  - reflexivity.
  - reflexivity.
Defined.

(** C5.  Node [n1] has the interfaces [if-X] and [if-B].  [if-X] is
    described with a slot, no type and [is_connected] false:
    [get_physical_interfaces] lists it as physical, first of the two, and
    it is not connected.  The search loop of [link_nodes], which compares
    the type field with "physical" and has no rule for a description
    without a type, passes over it: on [if-X; if-B] it selects [if-B],
    after two detail requests, where the first physical and free
    interface is [if-X]; on [if-X] alone it finds nothing. *)
Lemma find_available_interface_passes_over_untyped :
  fst (get_physical_interfaces (platform slot_routes) str_exn str_value
         "lab1" "n1" fresh)
    = Ok (PyList [slot_only; interface_detail "physical" false])
  /\ dict_get [(PyStr "slot", PyInt 0); (PyStr "is_connected", PyBool false)]
              "is_connected" = Some (PyBool false)
  /\ fst (find_available_interface (platform slot_routes) str_value "lab1"
            [if_X; if_B] fresh)
       = Ok (Some if_B)
  /\ trace (snd (find_available_interface (platform slot_routes) str_value
                   "lab1" [if_X; if_B] fresh))
     = [call "GET" "/api/v0/labs/lab1/interfaces/if-X?operational=true"
             no_kwargs (Some "fresh");
        call "GET" "/api/v0/labs/lab1/interfaces/if-B?operational=true"
             no_kwargs (Some "fresh")]
  /\ fst (find_available_interface (platform slot_routes) str_value "lab1"
            [if_X] fresh)
       = Ok None.
Proof.
  repeat apply conj; reflexivity.
Qed.
